(** * Trading journal: trade lifecycle, P&L calculator and analytics

    A shallow embedding of the backend
    ([app/crud], [app/routers], [app/auth/dependencies.py], [app/models],
    [app/schemas]) and the properties of it that the specification states.

    Modelling conventions.
    - A Python [float] is an IEEE 754 binary64 value ([spec_float] at
      precision 53 and maximal exponent 1024): every operation rounds to
      nearest, ties to even, and may give an infinity or NaN.  True division
      by a zero raises [ZeroDivisionError], as it does in Python.  The
      doubles are the values of [spec_float] in normal form; the theorems
      hold of every value of the type, and the examples are on doubles.
    - The request bodies are parsed by [json.loads] and validated by pydantic
      with its defaults, so a [float] field of a request may hold any double,
      infinities and NaN included.
    - A Python attribute that may hold [None] is an [option]; arithmetic on
      [None] raises [TypeError].
    - A table is a finite map from the primary key [id] to the row.  The
      database is SQLite: a REAL column stores a NaN as NULL and gives a
      negative zero back as [0.0]; a new row takes the rowid after the
      largest in use; a query without [ORDER BY] returns its rows in rowid
      order, and the sorter of [ORDER BY] keeps rows with equal keys in that
      order.
    - The database state that functions thread is the committed state: a
      request that raises before [commit] leaves it as it was (the session,
      with the assignments made on its objects, is discarded by [get_db]).
      What a CRUD function returns after [db.refresh] is the row as stored.
    - What is modelled of an endpoint is the value its handler returns and
      the state it commits.  The encoding of that value as the JSON body is
      not: Starlette's encoder refuses an infinity or a NaN, after the
      handler has committed.
    - [created_at] / [updated_at] are filled by the database server clock and
      are not part of the model. *)

From Stdlib Require Import QArith Qround Qabs Qpower SpecFloat.
From stdpp Require Import gmap strings list fin_maps sorting pretty.

Local Open Scope Z_scope.

(** ** Python values and exceptions *)

Inductive exn : Type :=
  | HTTPException (status_code : Z) (detail : string)
  | ZeroDivisionError
  | TypeError
  | ValueError
  | IntegrityError.

Inductive result (A : Type) : Type :=
  | Ok (a : A)
  | Raise (e : exn).
Arguments Ok {A} a.
Arguments Raise {A} e.

Global Instance result_ret : MRet result := λ A a, Ok a.
Global Instance result_fmap : FMap result := λ A B f r,
  match r with
  | Ok a => Ok (f a)
  | Raise e => Raise e
  end.
Global Instance result_bind : MBind result := λ A B k r,
  match r with
  | Ok a => k a
  | Raise e => Raise e
  end.

Definition HTTP_400_BAD_REQUEST : Z := 400.
Definition HTTP_401_UNAUTHORIZED : Z := 401.
Definition HTTP_403_FORBIDDEN : Z := 403.
Definition HTTP_404_NOT_FOUND : Z := 404.

(** ** Floats *)

Definition float : Type := spec_float.

Definition fadd (x y : float) : float := SFadd 53 1024 x y.
Definition fsub (x y : float) : float := SFsub 53 1024 x y.
Definition fmul (x y : float) : float := SFmul 53 1024 x y.
(** IEEE division; Python raises before it divides by a zero. *)
Definition fdiv (x y : float) : float := SFdiv 53 1024 x y.
Definition fabs (x : float) : float := SFabs x.

Definition fzero : float := S754_zero false.
Definition nan : float := S754_nan.

(** [x == y], [x < y], [x <= y]: false when an operand is NaN. *)
Definition feqb (x y : float) : bool := SFeqb x y.
Definition fltb (x y : float) : bool := SFltb x y.
Definition fleb (x y : float) : bool := SFleb x y.

Definition is_nan (x : float) : bool :=
  match x with
  | S754_nan => true
  | _ => false
  end.

Definition is_finite (x : float) : bool :=
  match x with
  | S754_zero _ | S754_finite _ _ _ => true
  | _ => false
  end.

(** [float(n)] for an [int]: the nearest double. *)
Definition float_of_Z (n : Z) : float := binary_normalize 53 1024 n 0 false.

(** The double nearest to a rational: the value of a decimal literal. *)
Definition float_of_Q (q : Q) : float :=
  match Qnum q with
  | 0 => S754_zero false
  | Zpos p => SFdiv 53 1024 (S754_finite false p 0) (S754_finite false (Qden q) 0)
  | Zneg p => SFdiv 53 1024 (S754_finite true p 0) (S754_finite false (Qden q) 0)
  end.

(** The rational that a finite double is. *)
Definition Q_of_float (x : float) : Q :=
  match x with
  | S754_finite s m e =>
      ((if s then -1 else 1) * inject_Z (Zpos m) * Qpower 2 e)%Q
  | _ => 0%Q
  end.

(** The integer nearest to a rational, ties to the even one. *)
Definition round_half_even (x : Q) : Z :=
  let f := Qfloor x in
  match Qcompare (x - inject_Z f) (1 # 2) with
  | Lt => f
  | Gt => f + 1
  | Eq => if Z.even f then f else f + 1
  end.

(** [round(x, 2)] on a float: CPython prints the exact value of [x] with two
    decimals, correctly rounded, ties to even ([_Py_dg_dtoa], mode 3), and
    reads the string back ([_Py_dg_strtod]); infinities and NaN round to
    themselves. *)
Definition float_round2 (x : float) : float :=
  match x with
  | S754_finite s m e =>
      match round_half_even (Q_of_float x * 100) with
      | 0 => S754_zero s
      | Zpos p =>
          SFdiv 53 1024 (S754_finite false p 0) (S754_finite false 100 0)
      | Zneg p =>
          SFdiv 53 1024 (S754_finite true p 0) (S754_finite false 100 0)
      end
  | _ => x
  end.

Global Arguments fadd : simpl never.
Global Arguments fsub : simpl never.
Global Arguments fmul : simpl never.
Global Arguments fdiv : simpl never.
Global Arguments float_of_Z : simpl never.
Global Arguments float_of_Q : simpl never.
Global Arguments float_round2 : simpl never.

(** [a - b], [a * b], [a / b] on attributes that may be [None]. *)
Definition py_sub (a b : option float) : result float :=
  match a, b with
  | Some x, Some y => Ok (fsub x y)
  | _, _ => Raise TypeError
  end.

Definition py_mul (a b : option float) : result float :=
  match a, b with
  | Some x, Some y => Ok (fmul x y)
  | _, _ => Raise TypeError
  end.

Definition py_truediv (a b : option float) : result float :=
  match a, b with
  | Some x, Some y =>
      if feqb y fzero then Raise ZeroDivisionError else Ok (fdiv x y)
  | _, _ => Raise TypeError
  end.

(** ** Numbers: [int] and [float] *)

Inductive number : Type :=
  | Int (n : Z)
  | Float (x : float).

Definition to_float (a : number) : float :=
  match a with
  | Int n => float_of_Z n
  | Float x => x
  end.

(** Python compares an [int] with a [float] by their exact values. *)
Definition float_compare_Z (x : float) (n : Z) : option comparison :=
  match x with
  | S754_nan => None
  | S754_infinity s => Some (if s then Lt else Gt)
  | _ => Some (Q_of_float x ?= inject_Z n)%Q
  end.

Definition num_compare (a b : number) : option comparison :=
  match a, b with
  | Int m, Int n => Some (m ?= n)
  | Float x, Float y => SFcompare x y
  | Float x, Int n => float_compare_Z x n
  | Int m, Float y => CompOpp <$> float_compare_Z y m
  end.

Definition num_eqb (a b : number) : bool :=
  match num_compare a b with
  | Some Eq => true
  | _ => false
  end.

Definition num_ltb (a b : number) : bool :=
  match num_compare a b with
  | Some Lt => true
  | _ => false
  end.

Definition num_leb (a b : number) : bool :=
  match num_compare a b with
  | Some (Lt | Eq) => true
  | _ => false
  end.

Definition num_add (a b : number) : number :=
  match a, b with
  | Int m, Int n => Int (m + n)
  | _, _ => Float (fadd (to_float a) (to_float b))
  end.

Definition num_mul (a b : number) : number :=
  match a, b with
  | Int m, Int n => Int (m * n)
  | _, _ => Float (fmul (to_float a) (to_float b))
  end.

(** The quotient [a / b] for [b] other than zero: always a float;
    [int / int] is the correctly rounded quotient. *)
Definition num_div (a b : number) : float :=
  match a, b with
  | Int m, Int n => float_of_Q (Qmake (Z.sgn n * m) (Z.to_pos (Z.abs n)))
  | _, _ => fdiv (to_float a) (to_float b)
  end.

(** [a / b] *)
Definition num_truediv (a b : number) : result float :=
  if num_eqb b (Int 0) then Raise ZeroDivisionError else Ok (num_div a b).

Definition num_abs (a : number) : number :=
  match a with
  | Int n => Int (Z.abs n)
  | Float x => Float (fabs x)
  end.

(** [round(a, 2)]: an [int] is returned as it is. *)
Definition py_round2 (a : number) : number :=
  match a with
  | Int n => Int n
  | Float x => Float (float_round2 x)
  end.

(** [x or 0]: [None] and the zeros are falsy, NaN is not. *)
Definition py_or0 (x : option float) : number :=
  match x with
  | Some v => if feqb v fzero then Int 0 else Float v
  | None => Int 0
  end.

(** [sum] once the running total is a float.  CPython up to 3.11 adds the
    items from left to right; from 3.12 on it keeps Neumaier's compensation
    [c] for the float items and adds it at the end when it is finite and not
    zero. *)
Inductive sum_algorithm : Type := Plain | Compensated.

Fixpoint sum_plain (f : float) (xs : list number) : float :=
  match xs with
  | [] => f
  | x :: xs' => sum_plain (fadd f (to_float x)) xs'
  end.

Fixpoint sum_compensated (f c : float) (xs : list number) : float :=
  match xs with
  | [] => if negb (feqb c fzero) && is_finite c then fadd f c else f
  | Float x :: xs' =>
      let t := fadd f x in
      let c' :=
        if fleb (fabs x) (fabs f)
        then fadd c (fadd (fsub f t) x)
        else fadd c (fadd (fsub x t) f) in
      sum_compensated t c' xs'
  | Int n :: xs' => sum_compensated (fadd f (float_of_Z n)) c xs'
  end.

Definition sum_floats (alg : sum_algorithm) (f : float) (xs : list number) : float :=
  match alg with
  | Plain => sum_plain f xs
  | Compensated => sum_compensated f fzero xs
  end.

(** [sum(xs)] from the start value [0]: exact on [int] items until the first
    float, which is added to the [int] total. *)
Fixpoint sum_ints (alg : sum_algorithm) (i : Z) (xs : list number) : number :=
  match xs with
  | [] => Int i
  | Int n :: xs' => sum_ints alg (i + n) xs'
  | Float x :: xs' => Float (sum_floats alg (fadd (float_of_Z i) x) xs')
  end.

Definition py_sum (alg : sum_algorithm) (xs : list number) : number :=
  sum_ints alg 0 xs.

(** [sum] over attributes that may be [None]: adding [None] is a
    [TypeError]. *)
Definition py_sum_attr (alg : sum_algorithm) (xs : list (option float))
    : result number :=
  match mapM id xs with
  | Some values => Ok (py_sum alg (Float <$> values))
  | None => Raise TypeError
  end.

Global Arguments num_div : simpl never.
Global Arguments num_truediv : simpl never.
Global Arguments num_mul : simpl never.
Global Arguments num_abs : simpl never.
Global Arguments num_compare : simpl never.
Global Arguments py_round2 : simpl never.
Global Arguments py_sum : simpl never.
Global Arguments py_sum_attr : simpl never.

(** ** SQLite *)

(** A value of a REAL column as it is read back after the write: SQLite
    stores a NaN as NULL, and a double that is a whole number, the negative
    zero among them, as that integer. *)
Definition sqlite_real (x : option float) : option float :=
  match x with
  | Some S754_nan => None
  | Some (S754_zero _) => Some fzero
  | _ => x
  end.

(** ** Data model ([app/models], [app/schemas]) *)

Inductive TradeType : Type := LONG | SHORT.
Inductive TradeStatus : Type := OPEN | CLOSED.

Global Instance TradeType_eq_dec : EqDecision TradeType.
Proof. solve_decision. Defined.
Global Instance TradeStatus_eq_dec : EqDecision TradeStatus.
Proof. solve_decision. Defined.

(** A [Trade] object.  [id] is the key of the table.  Every column that
    [TradeUpdate] can assign may hold [None] on the session object; the
    [nullable=False] columns are checked at [commit]. *)
Record Trade : Type := mkTrade {
  portfolio_id : Z;
  symbol : option string;
  trade_type : option TradeType;
  status : option TradeStatus;
  entry_price : option float;
  entry_date : option Z;
  quantity : option float;
  exit_price : option float;
  exit_date : option Z;
  profit_loss : option float;
  profit_loss_percentage : option float;
  notes : option string;
  tags : option string;
  screenshot_path : option string
}.

Record Portfolio : Type := mkPortfolio {
  name : string;
  description : option string;
  initial_balance : option float;
  user_id : Z
}.

Record DB : Type := mkDB {
  portfolios : gmap Z Portfolio;
  trades : gmap Z Trade
}.

(** A scan of the [trades] table: the rows in rowid order. *)
Definition id_le (row1 row2 : Z * Trade) : Prop := row1.1 ≤ row2.1.

Global Instance id_le_dec row1 row2 : Decision (id_le row1 row2).
Proof. unfold id_le. apply _. Defined.

Definition scan (table : gmap Z Trade) : list (Z * Trade) :=
  merge_sort id_le (map_to_list table).

(** [TradeCreate]: every field of [TradeBase] plus [portfolio_id]. *)
Record TradeCreate : Type := mkTradeCreate {
  c_symbol : string;
  c_trade_type : TradeType;
  c_entry_price : float;
  c_entry_date : Z;
  c_quantity : float;
  c_notes : option string;
  c_tags : option string;
  c_portfolio_id : Z
}.

(** [TradeUpdate] after [model_dump(exclude_unset=True)]: a field is absent
    from the dictionary ([None]), or present with a value that may itself be
    [None] ([Some None]). *)
Definition field (A : Type) : Type := option (option A).

Record TradeUpdate : Type := mkTradeUpdate {
  u_symbol : field string;
  u_trade_type : field TradeType;
  u_entry_price : field float;
  u_entry_date : field Z;
  u_quantity : field float;
  u_exit_price : field float;
  u_exit_date : field Z;
  u_status : field TradeStatus;
  u_notes : field string;
  u_tags : field string
}.

Record TradeClose : Type := mkTradeClose {
  x_exit_price : float;
  x_exit_date : Z
}.

(** [PortfolioCreate] and [PortfolioUpdate] ([app/schemas/portfolio.py]). *)
Record PortfolioCreate : Type := mkPortfolioCreate {
  pc_name : string;
  pc_description : option string;
  pc_initial_balance : float
}.

Record PortfolioUpdate : Type := mkPortfolioUpdate {
  pu_name : field string;
  pu_description : field string;
  pu_initial_balance : field float
}.

(** Attribute assignment on a [Trade] object. *)
Definition set_exit (t : Trade) (p : option float) (d : option Z)
    (s : option TradeStatus) : Trade :=
  mkTrade (portfolio_id t) (symbol t) (trade_type t) s (entry_price t)
    (entry_date t) (quantity t) p d (profit_loss t)
    (profit_loss_percentage t) (notes t) (tags t) (screenshot_path t).

Definition set_profit_loss (t : Trade) (pl pl_pct : option float) : Trade :=
  mkTrade (portfolio_id t) (symbol t) (trade_type t) (status t) (entry_price t)
    (entry_date t) (quantity t) (exit_price t) (exit_date t) pl pl_pct
    (notes t) (tags t) (screenshot_path t).

(** The row that the flush of a [Trade] object writes and [db.refresh] reads
    back: the five [Float] columns pass through SQLite. *)
Definition flush (t : Trade) : Trade :=
  mkTrade (portfolio_id t) (symbol t) (trade_type t) (status t)
    (sqlite_real (entry_price t)) (entry_date t) (sqlite_real (quantity t))
    (sqlite_real (exit_price t)) (exit_date t) (sqlite_real (profit_loss t))
    (sqlite_real (profit_loss_percentage t)) (notes t) (tags t)
    (screenshot_path t).

(** ** [app/crud/trade.py] *)

Module trade_crud.

(** [trade.trade_type == "long"] *)
Definition is_long (tt : option TradeType) : bool :=
  match tt with
  | Some LONG => true
  | _ => false
  end.

Definition calculate_profit_loss (trade : Trade) : result (float * float) :=
  match exit_price trade with
  | None => Ok (fzero, fzero)
  | Some _ =>
      pl ← (if is_long (trade_type trade)
            then d ← py_sub (exit_price trade) (entry_price trade) ;
                 py_mul (Some d) (quantity trade)
            else d ← py_sub (entry_price trade) (exit_price trade) ;
                 py_mul (Some d) (quantity trade)) ;
      den ← py_mul (entry_price trade) (quantity trade) ;
      r ← py_truediv (Some pl) (Some den) ;
      Ok (pl, fmul r (float_of_Z 100))
  end.

Definition get_trade_by_id (db : DB) (trade_id : Z) : option Trade :=
  trades db !! trade_id.

(** The rows picked by the [where] clauses of [get_portfolio_trades]. *)
Definition trade_matches (portfolio_id' : Z) (status' : option TradeStatus)
    (row : Z * Trade) : Prop :=
  portfolio_id row.2 = portfolio_id' ∧
  match status' with
  | None => True
  | Some s => status row.2 = Some s
  end.

Global Instance trade_matches_dec pid st row : Decision (trade_matches pid st row).
Proof. unfold trade_matches. destruct st; apply _. Defined.

Definition where_portfolio_trades (db : DB) (portfolio_id' : Z)
    (status' : option TradeStatus) : list (Z * Trade) :=
  filter (trade_matches portfolio_id' status') (scan (trades db)).

(** Order of two [entry_date] values; SQL [NULL] sorts first. *)
Definition date_le (a b : option Z) : Prop :=
  match a, b with
  | None, _ => True
  | Some _, None => False
  | Some x, Some y => x ≤ y
  end.

Global Instance date_le_dec a b : Decision (date_le a b).
Proof. destruct a, b; simpl; apply _. Defined.

(** [ORDER BY entry_date DESC]: SQLite's sorter.  A row goes behind every
    row already in the sorter whose key is not smaller than its own, so rows
    with equal keys stay in the order in which the scan delivers them. *)
Fixpoint sorter_insert (row : Z * Trade) (sorted : list (Z * Trade))
    : list (Z * Trade) :=
  match sorted with
  | [] => [row]
  | first :: rest =>
      if decide (date_le (entry_date row.2) (entry_date first.2))
      then first :: sorter_insert row rest
      else row :: first :: rest
  end.

Definition order_by_entry_date_desc (rows : list (Z * Trade)) : list (Z * Trade) :=
  fold_left (λ sorted row, sorter_insert row sorted) rows [].

Definition get_portfolio_trades (db : DB) (portfolio_id' : Z)
    (status' : option TradeStatus) : list (Z * Trade) :=
  order_by_entry_date_desc (where_portfolio_trades db portfolio_id' status').

(** [nullable=False] columns, checked when the row is flushed. *)
Definition not_null (t : Trade) : bool :=
  bool_decide (is_Some (symbol t)) && bool_decide (is_Some (trade_type t)) &&
  bool_decide (is_Some (entry_price t)) && bool_decide (is_Some (entry_date t)) &&
  bool_decide (is_Some (quantity t)).

(** [db.commit(); db.refresh(db_trade)] with [db_trade] the only new or dirty
    object: the row is written as SQLite stores it, unless a
    [nullable=False] column of it is NULL. *)
Definition commit (db : DB) (trade_id : Z) (db_trade : Trade) : result Trade * DB :=
  let row := flush db_trade in
  if not_null row
  then (Ok row, mkDB (portfolios db) (<[trade_id := row]> (trades db)))
  else (Raise IntegrityError, db).

(** The rowid of a new row: one more than the largest in use. *)
Definition next_id (m : gmap Z Trade) : Z :=
  1 + map_fold (λ k _ acc, Z.max k acc) 0 m.

Definition create_trade (db : DB) (trade : TradeCreate) : result (Z * Trade) * DB :=
  let db_trade :=
    mkTrade (c_portfolio_id trade) (Some (c_symbol trade))
      (Some (c_trade_type trade)) (Some OPEN) (Some (c_entry_price trade))
      (Some (c_entry_date trade)) (Some (c_quantity trade)) None None None None
      (c_notes trade) (c_tags trade) None in
  let trade_id := next_id (trades db) in
  let '(r, db') := commit db trade_id db_trade in
  ((λ row, (trade_id, row)) <$> r, db').

(** [for field, value in update_data.items(): setattr(db_trade, field, value)] *)
Definition setattr {A} (old : option A) (new : field A) : option A :=
  match new with
  | None => old
  | Some value => value
  end.

Definition setattrs (t : Trade) (u : TradeUpdate) : Trade :=
  mkTrade (portfolio_id t)
    (setattr (symbol t) (u_symbol u))
    (setattr (trade_type t) (u_trade_type u))
    (setattr (status t) (u_status u))
    (setattr (entry_price t) (u_entry_price u))
    (setattr (entry_date t) (u_entry_date u))
    (setattr (quantity t) (u_quantity u))
    (setattr (exit_price t) (u_exit_price u))
    (setattr (exit_date t) (u_exit_date u))
    (profit_loss t) (profit_loss_percentage t)
    (setattr (notes t) (u_notes u))
    (setattr (tags t) (u_tags u))
    (screenshot_path t).

Definition update_trade (db : DB) (trade_id : Z) (trade_update : TradeUpdate)
    : result (option Trade) * DB :=
  match trades db !! trade_id with
  | None => (Ok None, db)
  | Some db_trade =>
      let db_trade := setattrs db_trade trade_update in
      let recomputed :=
        match exit_price db_trade with
        | Some _ =>
            '(pl, pl_pct) ← calculate_profit_loss db_trade ;
            Ok (set_profit_loss db_trade (Some pl) (Some pl_pct))
        | None => Ok db_trade
        end in
      match recomputed with
      | Raise e => (Raise e, db)
      | Ok db_trade =>
          let '(r, db') := commit db trade_id db_trade in (Some <$> r, db')
      end
  end.

Definition close_trade (db : DB) (trade_id : Z) (trade_close : TradeClose)
    : result (option Trade) * DB :=
  match trades db !! trade_id with
  | None => (Ok None, db)
  | Some db_trade =>
      let db_trade :=
        set_exit db_trade (Some (x_exit_price trade_close))
          (Some (x_exit_date trade_close)) (Some CLOSED) in
      match calculate_profit_loss db_trade with
      | Raise e => (Raise e, db)
      | Ok (pl, pl_pct) =>
          let '(r, db') :=
            commit db trade_id (set_profit_loss db_trade (Some pl) (Some pl_pct)) in
          (Some <$> r, db')
      end
  end.

Definition delete_trade (db : DB) (trade_id : Z) : bool * DB :=
  match trades db !! trade_id with
  | None => (false, db)
  | Some _ => (true, mkDB (portfolios db) (delete trade_id (trades db)))
  end.

End trade_crud.

(** ** [app/crud/portfolio.py] *)

Module portfolio_crud.

Definition get_portfolio_by_id (db : DB) (portfolio_id' : Z) : option Portfolio :=
  portfolios db !! portfolio_id'.

(** [db.delete(db_portfolio)]: the relationship [Portfolio.trades] has
    [cascade="all, delete-orphan"], so the unit of work deletes every trade of
    the collection, that is every row whose foreign key [portfolio_id] is the
    portfolio's id, and then the portfolio, in the one transaction that
    [db.commit()] ends. *)
Definition delete_portfolio (db : DB) (portfolio_id' : Z) : bool * DB :=
  match portfolios db !! portfolio_id' with
  | None => (false, db)
  | Some _ =>
      (true,
       mkDB (delete portfolio_id' (portfolios db))
            (filter (λ row : Z * Trade, portfolio_id row.2 ≠ portfolio_id')
                    (trades db)))
  end.

(** A scan of the [portfolios] table, in [id] order. *)
Definition portfolio_id_le (row1 row2 : Z * Portfolio) : Prop := row1.1 ≤ row2.1.

Global Instance portfolio_id_le_dec row1 row2 : Decision (portfolio_id_le row1 row2).
Proof. unfold portfolio_id_le. apply _. Defined.

Definition scan_portfolios (table : gmap Z Portfolio) : list (Z * Portfolio) :=
  merge_sort portfolio_id_le (map_to_list table).

Definition get_user_portfolios (db : DB) (user_id' : Z) : list (Z * Portfolio) :=
  filter (λ row : Z * Portfolio, user_id row.2 = user_id')
         (scan_portfolios (portfolios db)).

(** The rowid of a new portfolio: one more than the largest in use. *)
Definition next_portfolio_id (m : gmap Z Portfolio) : Z :=
  1 + map_fold (λ k _ acc, Z.max k acc) 0 m.

(** [initial_balance] is a nullable [Float] column: a NaN is stored as NULL. *)
Definition create_portfolio (db : DB) (portfolio : PortfolioCreate) (user_id' : Z)
    : (Z * Portfolio) * DB :=
  let db_portfolio :=
    mkPortfolio (pc_name portfolio) (pc_description portfolio)
      (sqlite_real (Some (pc_initial_balance portfolio))) user_id' in
  let portfolio_id' := next_portfolio_id (portfolios db) in
  ((portfolio_id', db_portfolio),
   mkDB (<[portfolio_id' := db_portfolio]> (portfolios db)) (trades db)).

(** [name] is [nullable=False]: a null assigned to it fails the flush at
    [commit]; [description] and [initial_balance] may be null.  An assigned
    [initial_balance] is written to its [Float] column and read back. *)
Definition update_portfolio (db : DB) (portfolio_id' : Z)
    (portfolio_update : PortfolioUpdate) : result (option Portfolio) * DB :=
  match portfolios db !! portfolio_id' with
  | None => (Ok None, db)
  | Some db_portfolio =>
      match trade_crud.setattr (Some (name db_portfolio)) (pu_name portfolio_update) with
      | None => (Raise IntegrityError, db)
      | Some name' =>
          let db_portfolio :=
            mkPortfolio name'
              (trade_crud.setattr (description db_portfolio)
                 (pu_description portfolio_update))
              (trade_crud.setattr (initial_balance db_portfolio)
                 (sqlite_real <$> pu_initial_balance portfolio_update))
              (user_id db_portfolio) in
          (Ok (Some db_portfolio),
           mkDB (<[portfolio_id' := db_portfolio]> (portfolios db)) (trades db))
      end
  end.

End portfolio_crud.

(** ** [app/routers/trades.py] *)

(** [verify_portfolio_ownership], the same function in both routers. *)
Definition verify_portfolio_ownership (db : DB) (portfolio_id' user_id' : Z)
    : result Portfolio :=
  match portfolio_crud.get_portfolio_by_id db portfolio_id' with
  | None => Raise (HTTPException HTTP_404_NOT_FOUND "Portfolio not found")
  | Some portfolio =>
      if bool_decide (user_id portfolio ≠ user_id')
      then Raise (HTTPException HTTP_403_FORBIDDEN
                    "Not authorized to access this portfolio")
      else Ok portfolio
  end.

Module trades_router.

(** The response of [GET /trades/portfolio/{portfolio_id}]. *)
Definition get_portfolio_trades (db : DB) (current_user portfolio_id' : Z)
    (status' : option TradeStatus) : result (list (Z * Trade)) :=
  _ ← verify_portfolio_ownership db portfolio_id' current_user ;
  Ok (trade_crud.get_portfolio_trades db portfolio_id' status').

Definition create_trade (db : DB) (current_user : Z) (trade : TradeCreate)
    : result (Z * Trade) * DB :=
  match verify_portfolio_ownership db (c_portfolio_id trade) current_user with
  | Raise e => (Raise e, db)
  | Ok _ => trade_crud.create_trade db trade
  end.

Definition update_trade (db : DB) (current_user trade_id : Z)
    (trade_update : TradeUpdate) : result (option Trade) * DB :=
  match trade_crud.get_trade_by_id db trade_id with
  | None => (Raise (HTTPException HTTP_404_NOT_FOUND "Trade not found"), db)
  | Some trade =>
      match verify_portfolio_ownership db (portfolio_id trade) current_user with
      | Raise e => (Raise e, db)
      | Ok _ => trade_crud.update_trade db trade_id trade_update
      end
  end.

Definition close_trade (db : DB) (current_user trade_id : Z)
    (trade_close : TradeClose) : result (option Trade) * DB :=
  match trade_crud.get_trade_by_id db trade_id with
  | None => (Raise (HTTPException HTTP_404_NOT_FOUND "Trade not found"), db)
  | Some trade =>
      match verify_portfolio_ownership db (portfolio_id trade) current_user with
      | Raise e => (Raise e, db)
      | Ok _ =>
          if bool_decide (status trade = Some CLOSED)
          then (Raise (HTTPException HTTP_400_BAD_REQUEST "Trade is already closed"), db)
          else trade_crud.close_trade db trade_id trade_close
      end
  end.

Definition delete_trade (db : DB) (current_user trade_id : Z) : result () * DB :=
  match trade_crud.get_trade_by_id db trade_id with
  | None => (Raise (HTTPException HTTP_404_NOT_FOUND "Trade not found"), db)
  | Some trade =>
      match verify_portfolio_ownership db (portfolio_id trade) current_user with
      | Raise e => (Raise e, db)
      | Ok _ => (Ok (), (trade_crud.delete_trade db trade_id).2)
      end
  end.


Definition allowed_types : list string :=
  ["image/jpeg"; "image/png"; "image/jpg"; "image/webp"].

(** [TradeUpdate(screenshot_path=str(file_path))]: [TradeUpdate] declares no
    field [screenshot_path] and sets no [extra] policy, so pydantic drops the
    keyword and no field of the update is set. *)
Definition screenshot_update : TradeUpdate :=
  mkTradeUpdate None None None None None None None None None None.

(** [upload_screenshot].  [content_type] is [file.content_type];
    [timestamp] is [datetime.now().strftime(...)] and [file_extension] is
    [Path(file.filename).suffix], both computed outside the model, as is the
    copy of the file to disk.  The result is the pair of ["filename"] and
    ["path"]. *)
Definition upload_screenshot (db : DB) (current_user trade_id : Z)
    (content_type : option string) (timestamp file_extension : string)
    : result (string * string) * DB :=
  match trade_crud.get_trade_by_id db trade_id with
  | None => (Raise (HTTPException HTTP_404_NOT_FOUND "Trade not found"), db)
  | Some trade =>
      match verify_portfolio_ownership db (portfolio_id trade) current_user with
      | Raise e => (Raise e, db)
      | Ok _ =>
          if bool_decide (content_type ∉ (Some <$> allowed_types))
          then (Raise (HTTPException HTTP_400_BAD_REQUEST
                         "Only image files (JPEG, PNG, WebP) are allowed"), db)
          else
            let filename :=
              "trade_" +:+ pretty trade_id +:+ "_" +:+ timestamp +:+ file_extension in
            let file_path := "uploads/screenshots/" +:+ filename in
            let '(r, db') := trade_crud.update_trade db trade_id screenshot_update in
            ((λ _, (filename, file_path)) <$> r, db')
      end
  end.

End trades_router.

(** ** [app/routers/portfolios.py] *)

Module portfolios_router.

Definition get_my_portfolios (db : DB) (current_user : Z) : list (Z * Portfolio) :=
  portfolio_crud.get_user_portfolios db current_user.

Definition create_portfolio (db : DB) (current_user : Z)
    (portfolio : PortfolioCreate) : (Z * Portfolio) * DB :=
  portfolio_crud.create_portfolio db portfolio current_user.

Definition get_portfolio (db : DB) (current_user portfolio_id' : Z)
    : result Portfolio :=
  match portfolio_crud.get_portfolio_by_id db portfolio_id' with
  | None => Raise (HTTPException HTTP_404_NOT_FOUND "Portfolio not found")
  | Some portfolio =>
      if bool_decide (user_id portfolio ≠ current_user)
      then Raise (HTTPException HTTP_403_FORBIDDEN
                    "Not authorized to access this portfolio")
      else Ok portfolio
  end.

Definition update_portfolio (db : DB) (current_user portfolio_id' : Z)
    (portfolio_update : PortfolioUpdate) : result (option Portfolio) * DB :=
  match portfolio_crud.get_portfolio_by_id db portfolio_id' with
  | None => (Raise (HTTPException HTTP_404_NOT_FOUND "Portfolio not found"), db)
  | Some portfolio =>
      if bool_decide (user_id portfolio ≠ current_user)
      then (Raise (HTTPException HTTP_403_FORBIDDEN
                     "Not authorized to modify this portfolio"), db)
      else portfolio_crud.update_portfolio db portfolio_id' portfolio_update
  end.

Definition delete_portfolio (db : DB) (current_user portfolio_id' : Z)
    : result () * DB :=
  match portfolio_crud.get_portfolio_by_id db portfolio_id' with
  | None => (Raise (HTTPException HTTP_404_NOT_FOUND "Portfolio not found"), db)
  | Some portfolio =>
      if bool_decide (user_id portfolio ≠ current_user)
      then (Raise (HTTPException HTTP_403_FORBIDDEN
                     "Not authorized to delete this portfolio"), db)
      else (Ok (), (portfolio_crud.delete_portfolio db portfolio_id').2)
  end.

End portfolios_router.

(** ** [app/routers/analytics.py] *)

Module analytics.

Record TradeSummary : Type := mkTradeSummary {
  s_id : Z;
  s_symbol : option string;
  s_profit_loss : number
}.

Record PortfolioAnalytics : Type := mkPortfolioAnalytics {
  a_portfolio_id : Z;
  a_portfolio_name : string;
  total_trades : nat;
  total_profit_loss : number;
  win_rate : number;
  average_profit_loss : number;
  best_trade : option TradeSummary;
  worst_trade : option TradeSummary;
  total_wins : nat;
  total_losses : nat;
  average_win : number;
  average_loss : number;
  profit_factor : number
}.

(** An entry of [symbol_stats]; the key ["win_rate"] is added by the second
    loop. *)
Record SymbolStats : Type := mkSymbolStats {
  ss_symbol : option string;
  ss_total_trades : nat;
  ss_total_profit_loss : float;
  ss_wins : nat;
  ss_losses : nat;
  ss_win_rate : option number
}.

(** [len(xs)] as a number. *)
Definition Int_of_nat (n : nat) : number := Int (Z.of_nat n).

(** [select(Trade).where(and_(portfolio_id == ..., status == CLOSED))] *)
Definition is_closed_in (portfolio_id' : Z) (row : Z * Trade) : Prop :=
  portfolio_id row.2 = portfolio_id' ∧ status row.2 = Some CLOSED.

Global Instance is_closed_in_dec pid row : Decision (is_closed_in pid row).
Proof. unfold is_closed_in. apply _. Defined.

Definition closed_trades (db : DB) (portfolio_id' : Z) : list (Z * Trade) :=
  filter (is_closed_in portfolio_id') (scan (trades db)).

(** [t.profit_loss or 0], the key of [max] and [min] *)
Definition pl_key (row : Z * Trade) : number := py_or0 (profit_loss row.2).

(** [(t.profit_loss or 0) > 0] and [(t.profit_loss or 0) <= 0] *)
Definition is_winning (row : Z * Trade) : bool := num_ltb (Int 0) (pl_key row).
Definition is_losing (row : Z * Trade) : bool := num_leb (pl_key row) (Int 0).

(** [max(xs, key=...)] and [min(xs, key=...)] keep the first extremal item. *)
Fixpoint max_from (best : Z * Trade) (xs : list (Z * Trade)) : Z * Trade :=
  match xs with
  | [] => best
  | x :: xs' => max_from (if num_ltb (pl_key best) (pl_key x) then x else best) xs'
  end.

Fixpoint min_from (best : Z * Trade) (xs : list (Z * Trade)) : Z * Trade :=
  match xs with
  | [] => best
  | x :: xs' => min_from (if num_ltb (pl_key x) (pl_key best) then x else best) xs'
  end.

Definition py_max (xs : list (Z * Trade)) : result (Z * Trade) :=
  match xs with
  | [] => Raise ValueError
  | x :: xs' => Ok (max_from x xs')
  end.

Definition py_min (xs : list (Z * Trade)) : result (Z * Trade) :=
  match xs with
  | [] => Raise ValueError
  | x :: xs' => Ok (min_from x xs')
  end.

Definition summary (row : Z * Trade) : TradeSummary :=
  mkTradeSummary row.1 (symbol row.2) (py_round2 (pl_key row)).

(** [sum(t.profit_loss for t in rows)] *)
Definition sum_profit_loss (alg : sum_algorithm) (rows : list (Z * Trade))
    : result number :=
  py_sum_attr alg ((λ t, profit_loss t.2) <$> rows).

(** The body of [get_portfolio_analytics] below the query. *)
Definition portfolio_analytics (alg : sum_algorithm) (portfolio_id' : Z)
    (portfolio : Portfolio) (closed_trades : list (Z * Trade))
    : result PortfolioAnalytics :=
  let total_trades := length closed_trades in
  if bool_decide (total_trades = 0%nat)
  then Ok (mkPortfolioAnalytics portfolio_id' (name portfolio) 0
             (Float fzero) (Float fzero) (Float fzero)
             None None 0 0 (Float fzero) (Float fzero) (Float fzero))
  else
    let total_pl := py_sum alg (pl_key <$> closed_trades) in
    let winning_trades := List.filter is_winning closed_trades in
    let losing_trades := List.filter is_losing closed_trades in
    let total_wins := length winning_trades in
    let total_losses := length losing_trades in
    win_rate ← (if bool_decide (0 < total_trades)%nat
                then q ← num_truediv (Int_of_nat total_wins) (Int_of_nat total_trades) ;
                     Ok (num_mul (Float q) (Int 100))
                else Ok (Int 0)) ;
    avg_pl ← (if bool_decide (0 < total_trades)%nat
              then Float <$> num_truediv total_pl (Int_of_nat total_trades)
              else Ok (Int 0)) ;
    avg_win ← (if bool_decide (0 < total_wins)%nat
               then s ← sum_profit_loss alg winning_trades ;
                    Float <$> num_truediv s (Int_of_nat total_wins)
               else Ok (Int 0)) ;
    avg_loss ← (if bool_decide (0 < total_losses)%nat
                then s ← sum_profit_loss alg losing_trades ;
                     Float <$> num_truediv s (Int_of_nat total_losses)
                else Ok (Int 0)) ;
    total_win_amount ← sum_profit_loss alg winning_trades ;
    loss_sum ← sum_profit_loss alg losing_trades ;
    let total_loss_amount := num_abs loss_sum in
    profit_factor ← (if num_ltb (Int 0) total_loss_amount
                     then Float <$> num_truediv total_win_amount total_loss_amount
                     else Ok (Int 0)) ;
    best_trade ← py_max closed_trades ;
    worst_trade ← py_min closed_trades ;
    Ok (mkPortfolioAnalytics portfolio_id' (name portfolio) total_trades
          (py_round2 total_pl) (py_round2 win_rate) (py_round2 avg_pl)
          (Some (summary best_trade)) (Some (summary worst_trade))
          total_wins total_losses (py_round2 avg_win) (py_round2 avg_loss)
          (py_round2 profit_factor)).

Definition get_portfolio_analytics (alg : sum_algorithm) (db : DB)
    (current_user portfolio_id' : Z) : result PortfolioAnalytics :=
  portfolio ← verify_portfolio_ownership db portfolio_id' current_user ;
  portfolio_analytics alg portfolio_id' portfolio (closed_trades db portfolio_id').

(** [symbol_stats]: a dictionary read back in insertion order. *)
Definition stats_dict : Type := list (option string * SymbolStats).

Definition has_key (symbol' : option string) (d : stats_dict) : bool :=
  bool_decide (symbol' ∈ d.*1).

(** [d[symbol] = f(d[symbol])] for a key that is present. *)
Fixpoint modify (symbol' : option string) (f : SymbolStats → SymbolStats)
    (d : stats_dict) : stats_dict :=
  match d with
  | [] => []
  | (k, v) :: d' =>
      if bool_decide (k = symbol') then (k, f v) :: d'
      else (k, v) :: modify symbol' f d'
  end.

Definition count_trade (trade : Trade) (st : SymbolStats) : SymbolStats :=
  let pl := py_or0 (profit_loss trade) in
  let won := num_ltb (Int 0) pl in
  mkSymbolStats (ss_symbol st) (ss_total_trades st + 1)
    (fadd (ss_total_profit_loss st) (to_float pl))
    (if won then ss_wins st + 1 else ss_wins st)%nat
    (if won then ss_losses st else ss_losses st + 1)%nat
    (ss_win_rate st).

(** One iteration of [for trade in closed_trades]. *)
Definition add_trade (d : stats_dict) (row : Z * Trade) : stats_dict :=
  let symbol' := symbol row.2 in
  let d :=
    if has_key symbol' d then d
    else d ++ [(symbol', mkSymbolStats symbol' 0 fzero 0 0 None)] in
  modify symbol' (count_trade row.2) d.

(** [round((wins / total) * 100, 2) if total > 0 else 0] *)
Definition group_win_rate (wins total : nat) : result number :=
  if bool_decide (0 < total)%nat
  then q ← num_truediv (Int_of_nat wins) (Int_of_nat total) ;
       Ok (py_round2 (num_mul (Float q) (Int 100)))
  else Ok (Int 0).

(** One iteration of [for symbol in symbol_stats]. *)
Definition finish (st : SymbolStats) : result SymbolStats :=
  let total := ss_total_trades st in
  let wins := ss_wins st in
  rate ← group_win_rate wins total ;
  Ok (mkSymbolStats (ss_symbol st) total (float_round2 (ss_total_profit_loss st))
        wins (ss_losses st) (Some rate)).

(** The body of [get_analytics_by_symbol] below the query:
    [list(symbol_stats.values())]. *)
Definition analytics_by_symbol (closed_trades : list (Z * Trade))
    : result (list SymbolStats) :=
  mapM (λ kv, finish kv.2) (fold_left add_trade closed_trades []).

Definition get_analytics_by_symbol (db : DB) (current_user portfolio_id' : Z)
    : result (list SymbolStats) :=
  _ ← verify_portfolio_ownership db portfolio_id' current_user ;
  analytics_by_symbol (closed_trades db portfolio_id').

End analytics.

(** ** Users ([app/models/user.py], [app/schemas/user.py]) *)

(** A [User] object; [id] is the key of the table. *)
Record User : Type := mkUser {
  email : option string;
  username : option string;
  hashed_password : option string;
  full_name : option string;
  is_active : option bool;
  is_admin : option bool
}.

Record UserCreate : Type := mkUserCreate {
  uc_email : string;
  uc_username : string;
  uc_full_name : option string;
  uc_password : string
}.

Record UserUpdate : Type := mkUserUpdate {
  uu_email : field string;
  uu_username : field string;
  uu_full_name : field string;
  uu_is_active : field bool;
  uu_is_admin : field bool
}.

(** The whole database: the [users] table beside portfolios and trades. *)
Record State : Type := mkState {
  users : gmap Z User;
  store : DB
}.

(** [pwd_context] of passlib ([app/auth/utils.py]): [get_password_hash]
    draws a salt, [verify_password] checks a password against a hash. *)
Class CryptContext : Type := mkCryptContext {
  get_password_hash : string → string → string;
  verify_password : string → string → bool
}.

(** [not x] for an attribute that holds a [bool] or [None]. *)
Definition py_not (x : option bool) : bool :=
  match x with
  | Some true => false
  | _ => true
  end.

(** ** [app/crud/user.py] *)

Module user_crud.

(** A scan of the [users] table, in [id] order. *)
Definition user_id_le (row1 row2 : Z * User) : Prop := row1.1 ≤ row2.1.

Global Instance user_id_le_dec row1 row2 : Decision (user_id_le row1 row2).
Proof. unfold user_id_le. apply _. Defined.

Definition scan_users (table : gmap Z User) : list (Z * User) :=
  merge_sort user_id_le (map_to_list table).

(** [scalar_one_or_none] of the rows with the given [email]: the column is
    [unique=True], so the table holds at most one. *)
Definition get_user_by_email (db : State) (email' : string) : option (Z * User) :=
  head (filter (λ row : Z * User, email row.2 = Some email') (scan_users (users db))).

Definition get_user_by_username (db : State) (username' : string)
    : option (Z * User) :=
  head (filter (λ row : Z * User, username row.2 = Some username')
               (scan_users (users db))).

Definition get_user_by_id (db : State) (user_id' : Z) : option User :=
  users db !! user_id'.

Definition get_user_count (db : State) : nat := size (users db).

(** The flush of the row [user_id']: [email], [username] and
    [hashed_password] are [nullable=False], and no other row may hold the same
    [email] or the same [username]. *)
Definition user_row_ok (table : gmap Z User) (user_id' : Z) (u : User) : Prop :=
  is_Some (email u) ∧ is_Some (username u) ∧ is_Some (hashed_password u) ∧
  map_Forall (λ j v, j = user_id' ∨ (email v ≠ email u ∧ username v ≠ username u))
             table.

Global Instance user_row_ok_dec table uid u : Decision (user_row_ok table uid u).
Proof. unfold user_row_ok. apply _. Defined.

Definition commit_user (db : State) (user_id' : Z) (u : User) : result User * State :=
  if decide (user_row_ok (users db) user_id' u)
  then (Ok u, mkState (<[user_id' := u]> (users db)) (store db))
  else (Raise IntegrityError, db).

(** The rowid of a new user: one more than the largest in use. *)
Definition next_user_id (m : gmap Z User) : Z :=
  1 + map_fold (λ k _ acc, Z.max k acc) 0 m.

(** [salt] is the salt that [get_password_hash] draws; [is_active] takes the
    column default [True]. *)
Definition create_user `{CryptContext} (db : State) (salt : string)
    (user : UserCreate) (is_admin' : bool) : result (Z * User) * State :=
  let hashed := get_password_hash salt (uc_password user) in
  let db_user :=
    mkUser (Some (uc_email user)) (Some (uc_username user)) (Some hashed)
      (uc_full_name user) (Some true) (Some is_admin') in
  let user_id' := next_user_id (users db) in
  let '(r, db') := commit_user db user_id' db_user in
  ((λ row, (user_id', row)) <$> r, db').

Definition update_user (db : State) (user_id' : Z) (user_update : UserUpdate)
    : result (option User) * State :=
  match users db !! user_id' with
  | None => (Ok None, db)
  | Some db_user =>
      let db_user :=
        mkUser (trade_crud.setattr (email db_user) (uu_email user_update))
          (trade_crud.setattr (username db_user) (uu_username user_update))
          (hashed_password db_user)
          (trade_crud.setattr (full_name db_user) (uu_full_name user_update))
          (trade_crud.setattr (is_active db_user) (uu_is_active user_update))
          (trade_crud.setattr (is_admin db_user) (uu_is_admin user_update)) in
      let '(r, db') := commit_user db user_id' db_user in (Some <$> r, db')
  end.

(** [db.delete(db_user)]: the relationship [User.portfolios] has
    [cascade="all, delete-orphan"], so the unit of work deletes every
    portfolio of the user, each with its trades as [delete_portfolio] does,
    and then the user, in the one transaction that [db.commit()] ends. *)
Definition delete_user (db : State) (user_id' : Z) : bool * State :=
  match users db !! user_id' with
  | None => (false, db)
  | Some _ =>
      (true,
       mkState (delete user_id' (users db))
         (fold_left (λ acc row, (portfolio_crud.delete_portfolio acc row.1).2)
            (portfolio_crud.get_user_portfolios (store db) user_id') (store db)))
  end.

End user_crud.

(** ** [app/auth/dependencies.py] *)

Module dependencies.

Definition credentials_exception : exn :=
  HTTPException HTTP_401_UNAUTHORIZED "Could not validate credentials".

(** [get_current_user].  [sub] is the user id that the bearer token carries:
    [Some user_id] when [verify_token] accepts the token and [int] reads its
    ["sub"] entry as [user_id], [None] otherwise. *)
Definition get_current_user (db : State) (sub : option Z) : result (Z * User) :=
  match sub with
  | None => Raise credentials_exception
  | Some user_id' =>
      match users db !! user_id' with
      | None => Raise credentials_exception
      | Some user => Ok (user_id', user)
      end
  end.

Definition get_current_active_user (db : State) (sub : option Z)
    : result (Z * User) :=
  current_user ← get_current_user db sub ;
  if py_not (is_active current_user.2)
  then Raise (HTTPException 400 "Inactive user")
  else Ok current_user.

Definition get_current_admin_user (db : State) (sub : option Z)
    : result (Z * User) :=
  current_user ← get_current_active_user db sub ;
  if py_not (is_admin current_user.2)
  then Raise (HTTPException HTTP_403_FORBIDDEN "Not enough permissions")
  else Ok current_user.

End dependencies.

(** ** [app/routers/auth.py] *)

Module auth_router.

Definition register `{CryptContext} (db : State) (salt : string) (user : UserCreate)
    : result (Z * User) * State :=
  let user_count := user_crud.get_user_count db in
  let is_first_user := bool_decide (user_count = 0%nat) in
  match user_crud.get_user_by_email db (uc_email user) with
  | Some _ =>
      (Raise (HTTPException HTTP_400_BAD_REQUEST "Email already registered"), db)
  | None =>
      match user_crud.get_user_by_username db (uc_username user) with
      | Some _ =>
          (Raise (HTTPException HTTP_400_BAD_REQUEST "Username already taken"), db)
      | None => user_crud.create_user db salt user is_first_user
      end
  end.

(** [login]: the result is the user id that the issued token carries
    ([create_access_token(data={"sub": str(user.id)})]).  passlib's [verify]
    answers False for a missing hash. *)
Definition login `{CryptContext} (db : State) (form_username form_password : string)
    : result Z :=
  let user :=
    match user_crud.get_user_by_username db form_username with
    | Some user => Some user
    | None => user_crud.get_user_by_email db form_username
    end in
  match user with
  | None => Raise (HTTPException HTTP_401_UNAUTHORIZED "Incorrect username or password")
  | Some (user_id', user) =>
      if negb (default false (verify_password form_password <$> hashed_password user))
      then Raise (HTTPException HTTP_401_UNAUTHORIZED "Incorrect username or password")
      else if py_not (is_active user)
      then Raise (HTTPException HTTP_400_BAD_REQUEST "Inactive user")
      else Ok user_id'
  end.

(** [GET /auth/me] *)
Definition read_users_me (db : State) (sub : option Z) : result (Z * User) :=
  dependencies.get_current_active_user db sub.

End auth_router.

(** ** [app/routers/users.py] *)

Module users_router.

Definition get_user (db : State) (sub : option Z) (user_id' : Z) : result User :=
  _ ← dependencies.get_current_admin_user db sub ;
  match user_crud.get_user_by_id db user_id' with
  | None => Raise (HTTPException HTTP_404_NOT_FOUND "User not found")
  | Some user => Ok user
  end.

Definition update_user (db : State) (sub : option Z) (user_id' : Z)
    (user_update : UserUpdate) : result User * State :=
  match dependencies.get_current_admin_user db sub with
  | Raise e => (Raise e, db)
  | Ok _ =>
      match user_crud.update_user db user_id' user_update with
      | (Raise e, db') => (Raise e, db')
      | (Ok None, db') =>
          (Raise (HTTPException HTTP_404_NOT_FOUND "User not found"), db')
      | (Ok (Some user), db') => (Ok user, db')
      end
  end.

Definition delete_user (db : State) (sub : option Z) (user_id' : Z)
    : result () * State :=
  match dependencies.get_current_admin_user db sub with
  | Raise e => (Raise e, db)
  | Ok current_user =>
      if bool_decide (user_id' = current_user.1)
      then (Raise (HTTPException HTTP_400_BAD_REQUEST
                     "Cannot delete your own account"), db)
      else
        match user_crud.delete_user db user_id' with
        | (false, db') =>
            (Raise (HTTPException HTTP_404_NOT_FOUND "User not found"), db')
        | (true, db') => (Ok (), db')
        end
  end.

End users_router.

(** ** Histories of the trade operations *)

(** A request to one of the three writing trade endpoints. *)
Inductive operation : Type :=
  | Create (current_user : Z) (trade : TradeCreate)
  | Edit (current_user trade_id : Z) (trade_update : TradeUpdate)
  | Close (current_user trade_id : Z) (trade_close : TradeClose).

(** The committed state after a request; a request that raises commits
    nothing. *)
Definition apply_op (db : DB) (o : operation) : DB :=
  match o with
  | Create u trade => (trades_router.create_trade db u trade).2
  | Edit u trade_id trade_update =>
      (trades_router.update_trade db u trade_id trade_update).2
  | Close u trade_id trade_close =>
      (trades_router.close_trade db u trade_id trade_close).2
  end.

Definition run (db : DB) (ops : list operation) : DB := fold_left apply_op ops db.

(** The derived pair is populated exactly when the exit price is. *)
Definition pnl_iff_exit (t : Trade) : Prop :=
  (is_Some (profit_loss t) ↔ is_Some (exit_price t)) ∧
  (is_Some (profit_loss_percentage t) ↔ is_Some (exit_price t)).

(** No derived pair without exit data. *)
Definition pnl_has_exit (t : Trade) : Prop :=
  exit_price t = None →
  profit_loss t = None ∧ profit_loss_percentage t = None.

(** A trade with an exit price carries the pair that the calculator computes
    from its fields, as SQLite stores it. *)
Definition pnl_of_fields (t : Trade) : Prop :=
  is_Some (exit_price t) →
  ∃ pl pct : float,
    trade_crud.calculate_profit_loss t = Ok (pl, pct) ∧
    profit_loss t = sqlite_real (Some pl) ∧
    profit_loss_percentage t = sqlite_real (Some pct).

(** A row as SQLite holds it. *)
Definition stored_row (t : Trade) : Prop :=
  flush t = t ∧ trade_crud.not_null t = true.

(** A table as SQLite holds it: no [Float] column with a NaN or a negative
    zero. *)
Definition stored_table (table : gmap Z Trade) : Prop :=
  map_Forall (λ _ t, flush t = t) table.

(** Two doubles that SQLite stores as the same value. *)
Definition same_stored (x y : float) : Prop :=
  sqlite_real (Some x) = sqlite_real (Some y).

(** The request is not an edit whose body has ["exit_price": null]. *)
Definition keeps_exit_price (o : operation) : Prop :=
  match o with
  | Edit _ _ trade_update => u_exit_price trade_update ≠ Some None
  | _ => True
  end.

(** ** Histories of all writing trade and portfolio requests *)

Inductive request : Type :=
  | TradeRequest (o : operation)
  | DeleteTrade (current_user trade_id : Z)
  | UploadScreenshot (current_user trade_id : Z) (content_type : option string)
      (timestamp file_extension : string)
  | CreatePortfolio (current_user : Z) (portfolio : PortfolioCreate)
  | UpdatePortfolio (current_user portfolio_id' : Z) (portfolio_update : PortfolioUpdate)
  | DeletePortfolio (current_user portfolio_id' : Z).

Definition handle (db : DB) (r : request) : DB :=
  match r with
  | TradeRequest o => apply_op db o
  | DeleteTrade u trade_id => (trades_router.delete_trade db u trade_id).2
  | UploadScreenshot u trade_id ct ts ext =>
      (trades_router.upload_screenshot db u trade_id ct ts ext).2
  | CreatePortfolio u portfolio => (portfolios_router.create_portfolio db u portfolio).2
  | UpdatePortfolio u pid upd => (portfolios_router.update_portfolio db u pid upd).2
  | DeletePortfolio u pid => (portfolios_router.delete_portfolio db u pid).2
  end.

Definition serve (db : DB) (rs : list request) : DB := fold_left handle rs db.

(** The authenticated user of a request. *)
Definition requester (r : request) : Z :=
  match r with
  | TradeRequest (Create u _) | TradeRequest (Edit u _ _)
  | TradeRequest (Close u _ _) | DeleteTrade u _ | UploadScreenshot u _ _ _ _
  | CreatePortfolio u _ | UpdatePortfolio u _ _ | DeletePortfolio u _ => u
  end.

(** The database before the first request. *)
Definition empty_db : DB := mkDB ∅ ∅.

(** Every trade belongs to a stored portfolio. *)
Definition no_orphans (db : DB) : Prop :=
  ∀ (trade_id : Z) (t : Trade),
    trades db !! trade_id = Some t → is_Some (portfolios db !! portfolio_id t).

(** [t] is a trade of a portfolio that [u] owns. *)
Definition owned_by (db : DB) (u : Z) (t : Trade) : Prop :=
  ∃ p : Portfolio, portfolios db !! portfolio_id t = Some p ∧ user_id p = u.

(** ** Histories of the whole application *)

(** Every writing request of the API.  A trade or portfolio request [r]
    arrives with the bearer token of [requester r]. *)
Inductive api_request : Type :=
  | Register (salt : string) (user : UserCreate)
  | UpdateUser (sub : option Z) (user_id' : Z) (user_update : UserUpdate)
  | DeleteUser (sub : option Z) (user_id' : Z)
  | Data (r : request).

Definition api_handle `{CryptContext} (db : State) (r : api_request) : State :=
  match r with
  | Register salt user => (auth_router.register db salt user).2
  | UpdateUser sub user_id' user_update =>
      (users_router.update_user db sub user_id' user_update).2
  | DeleteUser sub user_id' => (users_router.delete_user db sub user_id').2
  | Data r =>
      match dependencies.get_current_active_user db (Some (requester r)) with
      | Raise _ => db
      | Ok _ => mkState (users db) (handle (store db) r)
      end
  end.

Definition api_serve `{CryptContext} (db : State) (rs : list api_request) : State :=
  fold_left api_handle rs db.

Definition empty_state : State := mkState ∅ empty_db.


(** No two users share an [email] or a [username], and the [nullable=False]
    columns are set. *)
Definition users_unique (table : gmap Z User) : Prop :=
  ∀ (i j : Z) (u v : User),
    table !! i = Some u → table !! j = Some v →
    is_Some (email u) ∧ is_Some (username u) ∧ is_Some (hashed_password u) ∧
    (i ≠ j → email u ≠ email v ∧ username u ≠ username v).

(** Every portfolio belongs to a stored user. *)
Definition owners_exist (db : State) : Prop :=
  ∀ (pid : Z) (p : Portfolio),
    portfolios (store db) !! pid = Some p → is_Some (users db !! user_id p).

(** The referential integrity of the whole database. *)
Definition consistent (db : State) : Prop :=
  users_unique (users db) ∧ owners_exist db ∧ no_orphans (store db).

(** The record that the aggregate analytics return for the closed trades
    [first :: rest], given the sums over the winning and the losing trades. *)
Definition aggregate (alg : sum_algorithm) (pid : Z) (p : Portfolio)
    (first : Z * Trade) (rest : list (Z * Trade)) (win_sum loss_sum : number)
    : analytics.PortfolioAnalytics :=
  let closed := first :: rest in
  let wins := length (List.filter analytics.is_winning closed) in
  let losses := length (List.filter analytics.is_losing closed) in
  let total_pl := py_sum alg (analytics.pl_key <$> closed) in
  analytics.mkPortfolioAnalytics pid (name p) (length closed) (py_round2 total_pl)
    (py_round2 (num_mul (Float (num_div (analytics.Int_of_nat wins) (analytics.Int_of_nat (length closed))))
                        (Int 100)))
    (py_round2 (Float (num_div total_pl (analytics.Int_of_nat (length closed)))))
    (Some (analytics.summary (analytics.max_from first rest))) (Some (analytics.summary (analytics.min_from first rest)))
    wins losses
    (py_round2 (if bool_decide (0 < wins)%nat
                then Float (num_div win_sum (analytics.Int_of_nat wins)) else Int 0))
    (py_round2 (if bool_decide (0 < losses)%nat
                then Float (num_div loss_sum (analytics.Int_of_nat losses)) else Int 0))
    (py_round2 (if num_ltb (Int 0) (num_abs loss_sum)
                then Float (num_div win_sum (num_abs loss_sum)) else Int 0)).


(** ** Order of the doubles *)

(** The place of a double in the order that the comparisons decide: by sign,
    then by exponent, then by mantissa. *)
Definition rank (x : float) : Z * Z * Z :=
  match x with
  | S754_infinity true => (-2, 0, 0)
  | S754_finite true m e => (-1, - e, Z.neg m)
  | S754_finite false m e => (1, e, Z.pos m)
  | S754_infinity false => (2, 0, 0)
  | _ => (0, 0, 0)
  end.

Definition rank_lt (r1 r2 : Z * Z * Z) : Prop :=
  r1.1.1 < r2.1.1 ∨
  (r1.1.1 = r2.1.1 ∧ (r1.1.2 < r2.1.2 ∨ (r1.1.2 = r2.1.2 ∧ r1.2 < r2.2))).

(** The double that a key [t.profit_loss or 0] compares as. *)
Definition key_float (a : number) : float :=
  match a with
  | Int _ => fzero
  | Float x => x
  end.

(** ** Order of a listing *)

(** [row1] may be listed before [row2]: its entry date is not the earlier
    one, and if the two have the same entry date its id is the smaller. *)
Definition listed_before (row1 row2 : Z * Trade) : Prop :=
  trade_crud.date_le (entry_date row2.2) (entry_date row1.2) ∧
  (entry_date row1.2 = entry_date row2.2 → row1.1 < row2.1).

(** ** Measures of the per-symbol dictionary *)

(** The trades counted by all entries together. *)
Definition total_of (d : analytics.stats_dict) : nat :=
  sum_list_with (λ kv, analytics.ss_total_trades kv.2) d.

(** An entry is keyed by its own symbol, counts at least one trade, and its
    symbol is one of [seen]. *)
Definition entry_ok (seen : option string → Prop)
    (kv : option string * analytics.SymbolStats) : Prop :=
  analytics.ss_symbol kv.2 = kv.1 ∧ (1 ≤ analytics.ss_total_trades kv.2)%nat ∧
  seen kv.1.

(** The trades of [rows] on instrument [s]. *)
Definition rows_of_symbol (s : option string) (rows : list (Z * Trade))
    : list (Z * Trade) :=
  filter (λ row : Z * Trade, symbol row.2 = s) rows.

(** An entry is keyed by its own symbol; it counts the trades of [seen] on
    that symbol, the winning ones and the others, and its total is the sum
    of their P&L from 0.0, in their order. *)
Definition entry_counts (seen : list (Z * Trade))
    (kv : option string * analytics.SymbolStats) : Prop :=
  let mine := rows_of_symbol kv.1 seen in
  analytics.ss_symbol kv.2 = kv.1 ∧
  analytics.ss_total_trades kv.2 = length mine ∧
  analytics.ss_total_profit_loss kv.2 =
    sum_plain fzero (analytics.pl_key <$> mine) ∧
  analytics.ss_wins kv.2 = length (List.filter analytics.is_winning mine) ∧
  analytics.ss_losses kv.2 =
    length (List.filter (λ row, negb (analytics.is_winning row)) mine).

(** The rows of the table that the analytics query selects. *)
Definition closed_in (db : DB) (portfolio_id' : Z) (row : Z * Trade) : Prop :=
  trades db !! row.1 = Some row.2 ∧ portfolio_id row.2 = portfolio_id' ∧
  status row.2 = Some CLOSED.

(** ** Concrete inputs *)

Module sample.

(** The doubles of some decimal literals. *)
Definition f (n : Z) : float := float_of_Z n.
Definition f1e308 : float := float_of_Q (inject_Z (10 ^ 308)).
Definition f1e_200 : float := float_of_Q (1 # 10 ^ 200).

(** An open long position: 10 units bought at 100. *)
Definition long_open : Trade :=
  mkTrade 1 (Some "TCS") (Some LONG) (Some OPEN) (Some (f 100)) (Some 5)
    (Some (f 10)) None None None None None None None.

(** The same position closed at 120. *)
Definition long_closed : Trade :=
  mkTrade 1 (Some "TCS") (Some LONG) (Some CLOSED) (Some (f 100)) (Some 5)
    (Some (f 10)) (Some (f 120)) (Some 9) (Some (f 200)) (Some (f 20))
    None None None.

(** A short position sold at 100 and bought back at 80. *)
Definition short_exited : Trade :=
  mkTrade 1 (Some "INFY") (Some SHORT) (Some OPEN) (Some (f 100)) (Some 5)
    (Some (f 10)) (Some (f 80)) (Some 9) None None None None None.

(** An open position entered at price 0, which [TradeCreate] accepts. *)
Definition free_open : Trade :=
  mkTrade 1 (Some "GIFT") (Some LONG) (Some OPEN) (Some (f 0)) (Some 5)
    (Some (f 1)) None None None None None None None.

(** The same with an exit price of 5. *)
Definition free_exited : Trade :=
  set_exit free_open (Some (f 5)) (Some 9) (Some OPEN).

(** An open position of 1e-200 units entered at 1e-200: the product of the
    two underflows to zero. *)
Definition tiny_open : Trade :=
  mkTrade 1 (Some "DUST") (Some LONG) (Some OPEN) (Some f1e_200) (Some 5)
    (Some f1e_200) None None None None None None None.

(** An open position of 10 units entered at 1e308: the product of the two
    overflows. *)
Definition huge_open : Trade :=
  mkTrade 1 (Some "MOON") (Some LONG) (Some OPEN) (Some f1e308) (Some 5)
    (Some (f 10)) None None None None None None None.

(** A position whose status an edit has set to null. *)
Definition long_null_status : Trade :=
  mkTrade 1 (Some "TCS") (Some LONG) None (Some (f 100)) (Some 5)
    (Some (f 10)) None None None None None None None.

Definition owner : Z := 7.
Definition portfolio1 : Portfolio := mkPortfolio "swing" None (Some (f 0)) owner.

Definition close_at (p : float) : TradeClose := mkTradeClose p 9.

Definition no_update : TradeUpdate :=
  mkTradeUpdate None None None None None None None None None None.

(** The request bodies [{"exit_price": null}], [{"entry_price": 0}] and
    [{"status": "closed"}]. *)
Definition null_exit_price : TradeUpdate :=
  mkTradeUpdate None None None None None (Some None) None None None None.
Definition zero_entry_price : TradeUpdate :=
  mkTradeUpdate None None (Some (Some (f 0))) None None None None None None None.
Definition mark_closed : TradeUpdate :=
  mkTradeUpdate None None None None None None None (Some (Some CLOSED)) None None.

(** The request body [{"status": "open"}]. *)
Definition reopen : TradeUpdate :=
  mkTradeUpdate None None None None None None None (Some (Some OPEN)) None None.

(** A database with one portfolio and no trade. *)
Definition db_empty : DB := mkDB {[1 := portfolio1]} ∅.

Definition db_of (t : Trade) : DB := mkDB {[1 := portfolio1]} {[1 := t]}.

Definition buy (symbol' : string) (price : float) (date : Z) : TradeCreate :=
  mkTradeCreate symbol' LONG price date (f 1) None None 1.

(** Opened, closed at 120, then edited with a null exit price. *)
Definition exit_cleared : DB :=
  run db_empty
    [Create owner (mkTradeCreate "TCS" LONG (f 100) 5 (f 10) None None 1);
     Close owner 1 (close_at (f 120));
     Edit owner 1 null_exit_price].

(** Ten units entered at 1e308 and closed at 1. *)
Definition overflowed : DB :=
  run db_empty
    [Create owner (mkTradeCreate "MOON" LONG f1e308 5 (f 10) None None 1);
     Close owner 1 (close_at (f 1))].

(** Three closed trades: one gains 1, two lose 1. *)
Definition one_win_in_three : DB :=
  run db_empty
    [Create owner (buy "TCS" (f 1) 1); Create owner (buy "INFY" (f 2) 2);
     Create owner (buy "TCS" (f 3) 3);
     Close owner 1 (close_at (f 2)); Close owner 2 (close_at (f 1));
     Close owner 3 (close_at (f 2))].

(** Two closed trades: one gains 1, one loses 40. *)
Definition win1_loss40 : DB :=
  run db_empty
    [Create owner (buy "TCS" (f 1) 1); Create owner (buy "INFY" (f 40) 2);
     Close owner 1 (close_at (f 2)); Close owner 2 (close_at (f 0))].


(** Two trades entered at the same instant, and a third entered later. *)
Definition same_instant : DB :=
  run db_empty
    [Create owner (buy "TCS" (f 1) 5); Create owner (buy "INFY" (f 2) 5);
     Create owner (buy "WIPRO" (f 3) 6)].

Definition tcs_at_5 : Z * Trade :=
  (1, mkTrade 1 (Some "TCS") (Some LONG) (Some OPEN) (Some (f 1)) (Some 5)
        (Some (f 1)) None None None None None None None).
Definition infy_at_5 : Z * Trade :=
  (2, mkTrade 1 (Some "INFY") (Some LONG) (Some OPEN) (Some (f 2)) (Some 5)
        (Some (f 1)) None None None None None None None).
Definition wipro_at_6 : Z * Trade :=
  (3, mkTrade 1 (Some "WIPRO") (Some LONG) (Some OPEN) (Some (f 3)) (Some 6)
        (Some (f 1)) None None None None None None None).

(** A password context for the examples. *)
Definition plain_context : CryptContext :=
  mkCryptContext (λ salt password, "hash$" +:+ password)
    (λ password hashed, bool_decide (hashed = "hash$" +:+ password)).

Definition admin : User :=
  mkUser (Some "root@example.com") (Some "root") (Some "hash$pw0") None
    (Some true) (Some true).
Definition trader : User :=
  mkUser (Some "t7@example.com") (Some "t7") (Some "hash$pw7") None
    (Some true) (Some false).
Definition alice : UserCreate := mkUserCreate "alice@example.com" "alice" None "pw1".
Definition bob : UserCreate := mkUserCreate "bob@example.com" "bob" None "pw2".

End sample.

(** * Properties *)

Import trade_crud.

(** ** Floats as SQLite stores them *)

Lemma sqlite_real_idem (x : option float) : sqlite_real (sqlite_real x) = sqlite_real x.
Proof. by destruct x as [[]|]. Qed.

Lemma sqlite_real_None (x : option float) :
  sqlite_real x = None ↔ x = None ∨ x = Some nan.
Proof. destruct x as [[]|]; simpl; split; intros H; try done; auto; by destruct H. Qed.

Lemma sqlite_real_is_Some (x : option float) (y : float) :
  sqlite_real x = Some y → ∃ x', x = Some x' ∧ same_stored y x'.
Proof.
  destruct x as [x|]; [|done]. intros H. exists x. split; [done|].
  unfold same_stored. by rewrite <- H, sqlite_real_idem.
Qed.

Lemma flush_idem (t : Trade) : flush (flush t) = flush t.
Proof. unfold flush. simpl. by rewrite !sqlite_real_idem. Qed.

Lemma same_stored_cases (x y : float) :
  same_stored x y ↔ x = y ∨ ∃ s s' : bool, x = S754_zero s ∧ y = S754_zero s'.
Proof.
  unfold same_stored. split.
  - destruct x, y; simpl; intros H; try discriminate H; try (left; congruence);
      try (by left); right; eauto.
  - intros [->|(s & s' & -> & ->)]; reflexivity.
Qed.

Global Instance same_stored_equiv : Equivalence same_stored.
Proof.
  unfold same_stored. split.
  - by intros x.
  - by intros x y.
  - intros x y z. congruence.
Qed.

Lemma fsub_same_stored (x x' y y' : float) :
  same_stored x x' → same_stored y y' → same_stored (fsub x y) (fsub x' y').
Proof.
  intros [->|(s & s' & -> & ->)]%same_stored_cases
         [->|(r & r' & -> & ->)]%same_stored_cases.
  - reflexivity.
  - destruct x' as [[]|[]| |[] m e], r, r'; reflexivity.
  - destruct y' as [[]|[]| |[] m e], s, s'; reflexivity.
  - destruct s, s', r, r'; reflexivity.
Qed.

Lemma fmul_same_stored (x x' y y' : float) :
  same_stored x x' → same_stored y y' → same_stored (fmul x y) (fmul x' y').
Proof.
  intros [->|(s & s' & -> & ->)]%same_stored_cases
         [->|(r & r' & -> & ->)]%same_stored_cases.
  - reflexivity.
  - destruct x' as [[]|[]| |[] m e], r, r'; reflexivity.
  - destruct y' as [[]|[]| |[] m e], s, s'; reflexivity.
  - destruct s, s', r, r'; reflexivity.
Qed.

Lemma feqb_same_stored (x x' : float) :
  same_stored x x' → feqb x fzero = feqb x' fzero.
Proof. intros [->|(s & s' & -> & ->)]%same_stored_cases; reflexivity. Qed.

Lemma fdiv_same_stored (x x' y y' : float) :
  same_stored x x' → same_stored y y' → feqb y fzero = false →
  same_stored (fdiv x y) (fdiv x' y').
Proof.
  intros [->|(s & s' & -> & ->)]%same_stored_cases
         [->|(r & r' & -> & ->)]%same_stored_cases Hy; try discriminate Hy.
  - reflexivity.
  - destruct y' as [[]|[]| |[] m e], s, s'; try discriminate Hy; reflexivity.
Qed.

Lemma fsub_nan_l (y : float) : fsub nan y = nan.
Proof. reflexivity. Qed.
Lemma fsub_nan_r (x : float) : fsub x nan = nan.
Proof. by destruct x. Qed.
Lemma fmul_nan_l (y : float) : fmul nan y = nan.
Proof. reflexivity. Qed.
Lemma fdiv_nan_l (y : float) : fdiv nan y = nan.
Proof. reflexivity. Qed.

(** ** The calculator (C1) *)

(** What the calculator does on a trade with all three prices present. *)
Lemma calculate_profit_loss_exited (t : Trade) (ex e q : float) :
  exit_price t = Some ex → entry_price t = Some e → quantity t = Some q →
  calculate_profit_loss t =
    let pl := if is_long (trade_type t) then fmul (fsub ex e) q else fmul (fsub e ex) q in
    if feqb (fmul e q) fzero then Raise ZeroDivisionError
    else Ok (pl, fmul (fdiv pl (fmul e q)) (float_of_Z 100)).
Proof.
  intros Hx He Hq. unfold calculate_profit_loss.
  rewrite Hx, He, Hq. simpl.
  destruct (is_long (trade_type t)); simpl;
    destruct (feqb (fmul e q) fzero); reflexivity.
Qed.

(** C1, as the code has it: every operation is one on doubles.  The
    formulas hold where the product [entry_price * quantity], as a double, is
    not zero; an absent exit price gives the pair (0.0, 0.0); where the
    product is zero, also by underflow, the calculator raises
    [ZeroDivisionError]. *)
Theorem C1_calculate_profit_loss (t : Trade) :
  (exit_price t = None → calculate_profit_loss t = Ok (fzero, fzero)) ∧
  (∀ ex e q : float,
     exit_price t = Some ex → entry_price t = Some e → quantity t = Some q →
     (feqb (fmul e q) fzero = false →
        (trade_type t = Some LONG →
           calculate_profit_loss t =
             Ok (fmul (fsub ex e) q,
                 fmul (fdiv (fmul (fsub ex e) q) (fmul e q)) (float_of_Z 100))) ∧
        (trade_type t = Some SHORT →
           calculate_profit_loss t =
             Ok (fmul (fsub e ex) q,
                 fmul (fdiv (fmul (fsub e ex) q) (fmul e q)) (float_of_Z 100)))) ∧
     (feqb (fmul e q) fzero = true →
        calculate_profit_loss t = Raise ZeroDivisionError)).
Proof.
  split.
  - intros Hx. unfold calculate_profit_loss. by rewrite Hx.
  - intros ex e q Hx He Hq.
    rewrite (calculate_profit_loss_exited t ex e q Hx He Hq).
    split.
    + intros Hne. rewrite Hne.
      split; intros ->; reflexivity.
    + intros Heq. by rewrite Heq.
Qed.

Lemma C1_witness :
  calculate_profit_loss sample.long_open = Ok (fzero, fzero) ∧
  calculate_profit_loss sample.short_exited =
    Ok (fmul (fsub (sample.f 100) (sample.f 80)) (sample.f 10),
        fmul (fdiv (fmul (fsub (sample.f 100) (sample.f 80)) (sample.f 10))
                   (fmul (sample.f 100) (sample.f 10))) (float_of_Z 100)) ∧
  calculate_profit_loss sample.free_exited = Raise ZeroDivisionError ∧
  calculate_profit_loss
    (set_exit sample.tiny_open (Some (sample.f 1)) (Some 9) (Some OPEN)) =
    Raise ZeroDivisionError.
Proof.
  split; [|split; [|split]].
  - apply (proj1 (C1_calculate_profit_loss sample.long_open)). reflexivity.
  - refine (proj2 (proj1 (proj2 (C1_calculate_profit_loss sample.short_exited)
              (sample.f 80) (sample.f 100) (sample.f 10) _ _ _) _) _);
      try reflexivity.
  - apply (proj2 (proj2 (C1_calculate_profit_loss sample.free_exited)
              (sample.f 5) (sample.f 0) (sample.f 1) eq_refl eq_refl eq_refl)).
    vm_compute. reflexivity.
  - apply (proj2 (proj2 (C1_calculate_profit_loss
              (set_exit sample.tiny_open (Some (sample.f 1)) (Some 9) (Some OPEN)))
              (sample.f 1) sample.f1e_200 sample.f1e_200 eq_refl eq_refl eq_refl)).
    vm_compute. reflexivity.
Defined.

(** C1 as stated fails: a trade with an exit price of 5, entered at price 0,
    makes the calculator raise instead of returning a pair. *)
Lemma C1_counterexample :
  exit_price sample.free_exited = Some (sample.f 5) ∧
  ∀ amount percentage : float,
    calculate_profit_loss sample.free_exited ≠ Ok (amount, percentage).
Proof.
  split; [reflexivity|]. intros amount percentage.
  assert (calculate_profit_loss sample.free_exited = Raise ZeroDivisionError) as ->
    by (vm_compute; reflexivity).
  discriminate.
Qed.

(** LONG, entry 100, exit 120, quantity 10: P&L 200.0, 20.0 percent. *)
Example long_100_120_10 :
  calculate_profit_loss
    (set_exit sample.long_open (Some (sample.f 120)) (Some 9) (Some CLOSED)) =
  Ok (sample.f 200, sample.f 20).
Proof. vm_compute. reflexivity. Qed.

(** SHORT, entry 100, exit 80, quantity 10: P&L 200.0, 20.0 percent. *)
Example short_100_80_10 :
  calculate_profit_loss sample.short_exited = Ok (sample.f 200, sample.f 20).
Proof. vm_compute. reflexivity. Qed.

(** LONG, entry 1.1, exit 2.2, quantity 3: the P&L is the double
    3.3000000000000003, not the double nearest to 3.3. *)
Example long_rounding :
  ∃ pl pct : float,
    calculate_profit_loss
      (mkTrade 1 (Some "TCS") (Some LONG) (Some OPEN) (Some (float_of_Q (11 # 10)))
         (Some 5) (Some (sample.f 3)) (Some (float_of_Q (22 # 10))) (Some 9)
         None None None None None) = Ok (pl, pct) ∧
    pl = float_of_Q (33000000000000003 # 10000000000000000) ∧
    pl ≠ float_of_Q (33 # 10).
Proof. eexists _, _. split; [vm_compute; reflexivity|]. split; vm_compute; [reflexivity|discriminate]. Qed.

(** Entry 1e308, quantity 10, exit 1: the amount is minus infinity and the
    percentage is NaN; nothing is raised. *)
Example overflow_gives_nan :
  calculate_profit_loss
    (set_exit sample.huge_open (Some (sample.f 1)) (Some 9) (Some CLOSED)) =
  Ok (S754_infinity true, nan).
Proof. vm_compute. reflexivity. Qed.

(** ** Closing a trade (C2, C4) *)

Lemma not_null_prices (t : Trade) :
  not_null t = true → is_Some (entry_price t) ∧ is_Some (quantity t).
Proof.
  unfold not_null. rewrite !andb_true_iff, !bool_decide_eq_true. tauto.
Qed.

Lemma not_null_set_exit (t : Trade) p d s :
  not_null (set_exit t p d s) = not_null t.
Proof. reflexivity. Qed.

Lemma not_null_set_profit_loss (t : Trade) pl pct :
  not_null (set_profit_loss t pl pct) = not_null t.
Proof. reflexivity. Qed.

Lemma not_null_flush_set_profit_loss (t : Trade) pl pct :
  not_null (flush (set_profit_loss t pl pct)) = not_null (flush t).
Proof. reflexivity. Qed.

Lemma not_null_flush_set_exit (t : Trade) p d s :
  not_null (flush (set_exit t p d s)) = not_null (flush t).
Proof. reflexivity. Qed.

Lemma stored_row_flush (t : Trade) :
  not_null (flush t) = true → stored_row (flush t).
Proof. intros H. split; [apply flush_idem|done]. Qed.

Lemma stored_row_not_null_flush (t : Trade) :
  stored_row t → not_null (flush t) = true.
Proof. intros [Hf Hn]. by rewrite Hf. Qed.

(** The router's guards, once the trade is found and the caller owns its
    portfolio. *)
Lemma router_close_trade_authorised (db : DB) (u trade_id : Z) (tc : TradeClose)
    (t : Trade) (p : Portfolio) :
  trades db !! trade_id = Some t →
  verify_portfolio_ownership db (portfolio_id t) u = Ok p →
  trades_router.close_trade db u trade_id tc =
    if bool_decide (status t = Some CLOSED)
    then (Raise (HTTPException HTTP_400_BAD_REQUEST "Trade is already closed"), db)
    else trade_crud.close_trade db trade_id tc.
Proof.
  intros Ht Hp. unfold trades_router.close_trade, get_trade_by_id.
  by rewrite Ht, Hp.
Qed.

Lemma router_update_trade_authorised (db : DB) (u trade_id : Z)
    (upd : TradeUpdate) (t : Trade) (p : Portfolio) :
  trades db !! trade_id = Some t →
  verify_portfolio_ownership db (portfolio_id t) u = Ok p →
  trades_router.update_trade db u trade_id upd =
    trade_crud.update_trade db trade_id upd.
Proof.
  intros Ht Hp. unfold trades_router.update_trade, get_trade_by_id.
  by rewrite Ht, Hp.
Qed.

(** [crud.close_trade] on a stored trade, by the calculator's outcome. *)
Lemma crud_close_trade_found (db : DB) (trade_id : Z) (tc : TradeClose) (t : Trade) :
  trades db !! trade_id = Some t →
  trade_crud.close_trade db trade_id tc =
    let closing :=
      set_exit t (Some (x_exit_price tc)) (Some (x_exit_date tc)) (Some CLOSED) in
    match calculate_profit_loss closing with
    | Raise e => (Raise e, db)
    | Ok (pl, pct) =>
        let closed := flush (set_profit_loss closing (Some pl) (Some pct)) in
        if not_null (flush t)
        then (Ok (Some closed),
              mkDB (portfolios db) (<[trade_id := closed]> (trades db)))
        else (Raise IntegrityError, db)
    end.
Proof.
  intros Ht. unfold trade_crud.close_trade. rewrite Ht. cbv zeta.
  destruct (calculate_profit_loss _) as [[pl pct]|e]; [|done].
  unfold commit. cbv zeta.
  rewrite not_null_flush_set_profit_loss, not_null_flush_set_exit.
  by destruct (not_null (flush t)).
Qed.

(** The row that a close writes over the stored row [t]. *)
Lemma flush_closed (t : Trade) (tc : TradeClose) (pl pct : float) :
  flush t = t →
  flush (set_profit_loss
           (set_exit t (Some (x_exit_price tc)) (Some (x_exit_date tc)) (Some CLOSED))
           (Some pl) (Some pct)) =
  mkTrade (portfolio_id t) (symbol t) (trade_type t) (Some CLOSED)
    (entry_price t) (entry_date t) (quantity t)
    (sqlite_real (Some (x_exit_price tc))) (Some (x_exit_date tc))
    (sqlite_real (Some pl)) (sqlite_real (Some pct))
    (notes t) (tags t) (screenshot_path t).
Proof.
  intros Hf. unfold flush at 1. cbn [set_profit_loss set_exit portfolio_id symbol
    trade_type status entry_price entry_date quantity exit_price exit_date
    profit_loss profit_loss_percentage notes tags screenshot_path].
  assert (sqlite_real (entry_price t) = entry_price t) as ->
    by (by rewrite <- Hf at 2).
  assert (sqlite_real (quantity t) = quantity t) as ->
    by (by rewrite <- Hf at 2).
  reflexivity.
Qed.

(** C2, as the code has it: closing a CLOSED trade is refused with HTTP 400
    and stores nothing.  Closing a trade that is not CLOSED, be its status
    OPEN or null, whose entry_price * quantity is not zero as a double
    stores the exit price, the exit date, status CLOSED and the pair the
    calculator returns, each float as SQLite stores it, and changes no other
    column; when entry_price * quantity is zero the close raises
    [ZeroDivisionError] and stores nothing. *)
Theorem C2_close_requires_open (db : DB) (u trade_id : Z) (tc : TradeClose)
    (t : Trade) (p : Portfolio) :
  trades db !! trade_id = Some t →
  verify_portfolio_ownership db (portfolio_id t) u = Ok p →
  (status t = Some CLOSED →
     trades_router.close_trade db u trade_id tc =
       (Raise (HTTPException HTTP_400_BAD_REQUEST "Trade is already closed"), db)) ∧
  (status t ≠ Some CLOSED → stored_row t →
     ∀ e q : float, entry_price t = Some e → quantity t = Some q →
     let closing :=
       set_exit t (Some (x_exit_price tc)) (Some (x_exit_date tc)) (Some CLOSED) in
     (feqb (fmul e q) fzero = false →
        ∃ pl pct : float,
          calculate_profit_loss closing = Ok (pl, pct) ∧
          let closed :=
            mkTrade (portfolio_id t) (symbol t) (trade_type t) (Some CLOSED)
              (entry_price t) (entry_date t) (quantity t)
              (sqlite_real (Some (x_exit_price tc))) (Some (x_exit_date tc))
              (sqlite_real (Some pl)) (sqlite_real (Some pct))
              (notes t) (tags t) (screenshot_path t) in
          trades_router.close_trade db u trade_id tc =
            (Ok (Some closed),
             mkDB (portfolios db) (<[trade_id := closed]> (trades db)))) ∧
     (feqb (fmul e q) fzero = true →
        trades_router.close_trade db u trade_id tc = (Raise ZeroDivisionError, db))).
Proof.
  intros Ht Hp.
  rewrite (router_close_trade_authorised db u trade_id tc t p Ht Hp).
  split.
  - intros Hs. by rewrite bool_decide_eq_true_2.
  - intros Hs Hrow e q He Hq closing.
    rewrite bool_decide_eq_false_2 by done.
    rewrite (crud_close_trade_found db trade_id tc t Ht). fold closing. cbv zeta.
    rewrite (calculate_profit_loss_exited closing (x_exit_price tc) e q)
      by done.
    split.
    + intros Hne. rewrite Hne. cbv zeta.
      rewrite (stored_row_not_null_flush t Hrow).
      eexists _, _. split; [reflexivity|]. cbv zeta.
      unfold closing. by rewrite (flush_closed t tc _ _ (proj1 Hrow)).
    + intros Heq. by rewrite Heq.
Qed.

Lemma C2_witness :
  trades_router.close_trade (sample.db_of sample.long_closed) sample.owner 1
      (sample.close_at (sample.f 130)) =
    (Raise (HTTPException HTTP_400_BAD_REQUEST "Trade is already closed"),
     sample.db_of sample.long_closed) ∧
  (trades_router.close_trade (sample.db_of sample.long_open) sample.owner 1
     (sample.close_at (sample.f 120))).1 = Ok (Some sample.long_closed) ∧
  (trades_router.close_trade (sample.db_of sample.long_null_status) sample.owner 1
     (sample.close_at (sample.f 120))).1 = Ok (Some sample.long_closed) ∧
  trades_router.close_trade (sample.db_of sample.free_open) sample.owner 1
      (sample.close_at (sample.f 5)) =
    (Raise ZeroDivisionError, sample.db_of sample.free_open).
Proof.
  split; [|split; [|split]].
  - apply (C2_close_requires_open (sample.db_of sample.long_closed) sample.owner 1
             (sample.close_at (sample.f 130)) sample.long_closed sample.portfolio1);
      reflexivity.
  - destruct (C2_close_requires_open (sample.db_of sample.long_open) sample.owner 1
                (sample.close_at (sample.f 120)) sample.long_open sample.portfolio1
                eq_refl eq_refl) as [_ Hopen].
    destruct (Hopen ltac:(discriminate) ltac:(split; vm_compute; reflexivity)
                (sample.f 100) (sample.f 10) eq_refl eq_refl) as [Hok _].
    destruct Hok as (pl & pct & Hcalc & Hres); [vm_compute; reflexivity|].
    rewrite Hres. vm_compute in Hcalc. injection Hcalc as <- <-.
    vm_compute. reflexivity.
  - destruct (C2_close_requires_open (sample.db_of sample.long_null_status)
                sample.owner 1 (sample.close_at (sample.f 120))
                sample.long_null_status sample.portfolio1
                eq_refl eq_refl) as [_ Hopen].
    destruct (Hopen ltac:(discriminate) ltac:(split; vm_compute; reflexivity)
                (sample.f 100) (sample.f 10) eq_refl eq_refl) as [Hok _].
    destruct Hok as (pl & pct & Hcalc & Hres); [vm_compute; reflexivity|].
    rewrite Hres. vm_compute in Hcalc. injection Hcalc as <- <-.
    vm_compute. reflexivity.
  - destruct (C2_close_requires_open (sample.db_of sample.free_open) sample.owner 1
                (sample.close_at (sample.f 5)) sample.free_open sample.portfolio1
                eq_refl eq_refl) as [_ Hopen].
    apply (Hopen ltac:(discriminate) ltac:(split; vm_compute; reflexivity)
             (sample.f 0) (sample.f 1) eq_refl eq_refl).
    vm_compute. reflexivity.
Defined.

(** C2 as stated fails: an OPEN trade entered at price 0 is not closed by a
    close request; the request raises and the trade stays as it was. *)
Lemma C2_counterexample :
  trades (sample.db_of sample.free_open) !! 1 = Some sample.free_open ∧
  status sample.free_open = Some OPEN ∧
  verify_portfolio_ownership (sample.db_of sample.free_open)
    (portfolio_id sample.free_open) sample.owner = Ok sample.portfolio1 ∧
  trades_router.close_trade (sample.db_of sample.free_open) sample.owner 1
      (sample.close_at (sample.f 5)) =
    (Raise ZeroDivisionError, sample.db_of sample.free_open).
Proof. repeat split; vm_compute; reflexivity. Qed.

(** The same on a trade of 1e-200 units entered at 1e-200: no factor is zero,
    the product underflows to zero and the close raises. *)
Example close_underflow :
  trades_router.close_trade (sample.db_of sample.tiny_open) sample.owner 1
      (sample.close_at (sample.f 1)) =
    (Raise ZeroDivisionError, sample.db_of sample.tiny_open).
Proof. vm_compute. reflexivity. Qed.

(** Closing at 1 a trade of 10 units entered at 1e308 stores the amount minus
    infinity and a null percentage. *)
Example close_overflow :
  ∃ t : Trade,
    (trades_router.close_trade (sample.db_of sample.huge_open) sample.owner 1
       (sample.close_at (sample.f 1))).1 = Ok (Some t) ∧
    exit_price t = Some (sample.f 1) ∧
    profit_loss t = Some (S754_infinity true) ∧
    profit_loss_percentage t = None.
Proof. eexists. split; [vm_compute; reflexivity|]. repeat split. Qed.

(** ** Zero denominator (C4) *)

(** [crud.update_trade] on a stored trade, by the exit price after the
    assignments and the calculator's outcome. *)
Lemma crud_update_trade_found (db : DB) (trade_id : Z) (upd : TradeUpdate) (t : Trade) :
  trades db !! trade_id = Some t →
  trade_crud.update_trade db trade_id upd =
    let edited := setattrs t upd in
    match exit_price edited with
    | None =>
        if not_null (flush edited)
        then (Ok (Some (flush edited)),
              mkDB (portfolios db) (<[trade_id := flush edited]> (trades db)))
        else (Raise IntegrityError, db)
    | Some _ =>
        match calculate_profit_loss edited with
        | Raise e => (Raise e, db)
        | Ok (pl, pct) =>
            let stored := flush (set_profit_loss edited (Some pl) (Some pct)) in
            if not_null (flush edited)
            then (Ok (Some stored),
                  mkDB (portfolios db) (<[trade_id := stored]> (trades db)))
            else (Raise IntegrityError, db)
        end
    end.
Proof.
  intros Ht. unfold trade_crud.update_trade. rewrite Ht. cbv zeta.
  destruct (exit_price (setattrs t upd)) as [ex|].
  - destruct (calculate_profit_loss _) as [[pl pct]|e];
      unfold mbind, result_bind; [|done].
    unfold commit. cbv zeta. rewrite not_null_flush_set_profit_loss.
    by destruct (not_null _).
  - unfold commit. cbv zeta. by destruct (not_null _).
Qed.

(** C4, as the code has it: a close or an edit that leaves the trade with an
    exit price and entry_price * quantity = 0 raises [ZeroDivisionError], an
    exception no handler turns into an HTTP error, and commits nothing. *)
Theorem C4_zero_denominator (db : DB) (u trade_id : Z) (t : Trade) (p : Portfolio) :
  trades db !! trade_id = Some t →
  verify_portfolio_ownership db (portfolio_id t) u = Ok p →
  (∀ (tc : TradeClose) (e q : float),
     status t ≠ Some CLOSED →
     entry_price t = Some e → quantity t = Some q → feqb (fmul e q) fzero = true →
     trades_router.close_trade db u trade_id tc = (Raise ZeroDivisionError, db)) ∧
  (∀ (upd : TradeUpdate) (ex e q : float),
     exit_price (setattrs t upd) = Some ex →
     entry_price (setattrs t upd) = Some e →
     quantity (setattrs t upd) = Some q → feqb (fmul e q) fzero = true →
     trades_router.update_trade db u trade_id upd = (Raise ZeroDivisionError, db)).
Proof.
  intros Ht Hp. split.
  - intros tc e q Hs He Hq Hz.
    rewrite (router_close_trade_authorised db u trade_id tc t p Ht Hp).
    rewrite bool_decide_eq_false_2 by done.
    rewrite (crud_close_trade_found db trade_id tc t Ht). cbv zeta.
    rewrite (calculate_profit_loss_exited _ (x_exit_price tc) e q) by done.
    cbv zeta. by rewrite Hz.
  - intros upd ex e q Hx He Hq Hz.
    rewrite (router_update_trade_authorised db u trade_id upd t p Ht Hp).
    rewrite (crud_update_trade_found db trade_id upd t Ht). cbv zeta.
    rewrite Hx.
    rewrite (calculate_profit_loss_exited _ ex e q) by done.
    cbv zeta. by rewrite Hz.
Qed.

Lemma C4_witness :
  trades_router.close_trade (sample.db_of sample.free_open) sample.owner 1
      (sample.close_at (sample.f 5)) =
    (Raise ZeroDivisionError, sample.db_of sample.free_open) ∧
  trades_router.update_trade (sample.db_of sample.long_closed) sample.owner 1
      sample.zero_entry_price =
    (Raise ZeroDivisionError, sample.db_of sample.long_closed).
Proof.
  split.
  - apply (proj1 (C4_zero_denominator (sample.db_of sample.free_open)
             sample.owner 1 sample.free_open sample.portfolio1 eq_refl eq_refl)
             (sample.close_at (sample.f 5)) (sample.f 0) (sample.f 1));
      try reflexivity. discriminate.
  - apply (proj2 (C4_zero_denominator (sample.db_of sample.long_closed)
             sample.owner 1 sample.long_closed sample.portfolio1 eq_refl eq_refl)
             sample.zero_entry_price (sample.f 120) (sample.f 0) (sample.f 10));
      reflexivity.
Defined.

(** C4 as stated fails: on an open trade entered at price 0 the close request
    ends in no HTTP error response of the application, whatever its status
    code; it ends in an unhandled [ZeroDivisionError]. *)
Lemma C4_counterexample :
  (trades_router.close_trade (sample.db_of sample.free_open) sample.owner 1
     (sample.close_at (sample.f 5))).1 = Raise ZeroDivisionError ∧
  ∀ (status_code : Z) (detail : string),
    (trades_router.close_trade (sample.db_of sample.free_open) sample.owner 1
       (sample.close_at (sample.f 5))).1 ≠ Raise (HTTPException status_code detail).
Proof.
  assert ((trades_router.close_trade (sample.db_of sample.free_open) sample.owner 1
             (sample.close_at (sample.f 5))).1 = Raise ZeroDivisionError) as ->
    by (vm_compute; reflexivity).
  split; [reflexivity | intros ?? H; discriminate H].
Qed.

(** ** Recomputation on edit (C10) *)

(** C10, as the code has it: an edit recomputes the derived pair exactly when
    the trade has an exit price after the supplied fields are assigned,
    whether or not the edit supplied it.  With no exit price the stored pair
    is kept; with one, and entry_price * quantity not zero as a double, the
    stored pair becomes the calculator's result on the new fields, as SQLite
    stores it; with entry_price * quantity zero the edit raises and stores
    nothing. *)
Theorem C10_edit_recomputes (db : DB) (trade_id : Z) (upd : TradeUpdate) (t : Trade) :
  trades db !! trade_id = Some t →
  let edited := setattrs t upd in
  not_null (flush edited) = true →
  (u_exit_price upd = None → exit_price edited = exit_price t) ∧
  (exit_price edited = None →
     profit_loss edited = profit_loss t ∧
     profit_loss_percentage edited = profit_loss_percentage t ∧
     trade_crud.update_trade db trade_id upd =
       (Ok (Some (flush edited)),
        mkDB (portfolios db) (<[trade_id := flush edited]> (trades db)))) ∧
  (∀ ex e q : float,
     exit_price edited = Some ex → entry_price edited = Some e →
     quantity edited = Some q →
     (feqb (fmul e q) fzero = false →
        ∃ pl pct : float,
          calculate_profit_loss edited = Ok (pl, pct) ∧
          let stored := flush (set_profit_loss edited (Some pl) (Some pct)) in
          profit_loss stored = sqlite_real (Some pl) ∧
          profit_loss_percentage stored = sqlite_real (Some pct) ∧
          trade_crud.update_trade db trade_id upd =
            (Ok (Some stored),
             mkDB (portfolios db) (<[trade_id := stored]> (trades db)))) ∧
     (feqb (fmul e q) fzero = true →
        trade_crud.update_trade db trade_id upd = (Raise ZeroDivisionError, db))).
Proof.
  intros Ht edited Hnn.
  rewrite (crud_update_trade_found db trade_id upd t Ht). fold edited. cbv zeta.
  split; [|split].
  - intros Hu. unfold edited, setattrs. simpl. by rewrite Hu.
  - intros Hx. rewrite Hx, Hnn. done.
  - intros ex e q Hx He Hq. rewrite Hx.
    rewrite (calculate_profit_loss_exited edited ex e q Hx He Hq). cbv zeta.
    split.
    + intros Hne. rewrite Hne, Hnn. eexists _, _. eauto.
    + intros Hz. by rewrite Hz.
Qed.

Lemma C10_witness :
  (∃ t : Trade,
     (trade_crud.update_trade (sample.db_of sample.short_exited) 1
        sample.mark_closed).1 = Ok (Some t) ∧
     profit_loss t = Some (sample.f 200) ∧
     profit_loss_percentage t = Some (sample.f 20)) ∧
  trade_crud.update_trade (sample.db_of sample.long_open) 1 sample.mark_closed =
    (Ok (Some (flush (setattrs sample.long_open sample.mark_closed))),
     mkDB (portfolios (sample.db_of sample.long_open))
       (<[1 := flush (setattrs sample.long_open sample.mark_closed)]>
          (trades (sample.db_of sample.long_open)))).
Proof.
  split.
  - destruct (C10_edit_recomputes (sample.db_of sample.short_exited) 1
                sample.mark_closed sample.short_exited eq_refl eq_refl)
      as (_ & _ & Hsome).
    destruct (Hsome (sample.f 80) (sample.f 100) (sample.f 10)
                eq_refl eq_refl eq_refl) as [Hok _].
    destruct Hok as (pl & pct & Hcalc & Hpl & Hpct & Hres); [vm_compute; reflexivity|].
    eexists. split; [by rewrite Hres|].
    vm_compute in Hcalc. injection Hcalc as <- <-.
    split; [rewrite Hpl|rewrite Hpct]; vm_compute; reflexivity.
  - destruct (C10_edit_recomputes (sample.db_of sample.long_open) 1
                sample.mark_closed sample.long_open eq_refl eq_refl)
      as (_ & Hnone & _).
    apply Hnone. reflexivity.
Defined.

(** C10 as stated fails: the edit [{"entry_price": 0}] changes only the entry
    price of a trade with exit data, yet the stored pair is not overwritten;
    the recomputation raises. *)
Lemma C10_counterexample :
  exit_price sample.long_closed = Some (sample.f 120) ∧
  u_exit_price sample.zero_entry_price = None ∧
  trade_crud.update_trade (sample.db_of sample.long_closed) 1
      sample.zero_entry_price =
    (Raise ZeroDivisionError, sample.db_of sample.long_closed) ∧
  profit_loss <$> trades (sample.db_of sample.long_closed) !! 1 =
    Some (Some (sample.f 200)).
Proof. repeat split; vm_compute; reflexivity. Qed.

(** ** Derived pair and exit price (C3) *)

Lemma calculate_profit_loss_ignores_pair (t : Trade) (pl pct : option float) :
  calculate_profit_loss (set_profit_loss t pl pct) = calculate_profit_loss t.
Proof. reflexivity. Qed.

(** The calculator gives the same pair, as far as SQLite can tell, on two
    objects whose prices SQLite cannot tell apart. *)
Lemma calculate_profit_loss_same_stored (t t' : Trade) (ex e q ex' e' q' pl pct : float) :
  exit_price t = Some ex → entry_price t = Some e → quantity t = Some q →
  exit_price t' = Some ex' → entry_price t' = Some e' → quantity t' = Some q' →
  trade_type t' = trade_type t →
  same_stored ex' ex → same_stored e' e → same_stored q' q →
  calculate_profit_loss t = Ok (pl, pct) →
  ∃ pl' pct' : float,
    calculate_profit_loss t' = Ok (pl', pct') ∧
    same_stored pl' pl ∧ same_stored pct' pct.
Proof.
  intros Hx He Hq Hx' He' Hq' Htt Hsx Hse Hsq Hcalc.
  rewrite (calculate_profit_loss_exited t ex e q Hx He Hq) in Hcalc.
  cbv zeta in Hcalc.
  destruct (feqb (fmul e q) fzero) eqn:Hden; [discriminate Hcalc|].
  injection Hcalc as <- <-.
  assert (same_stored (fmul e' q') (fmul e q)) as Hsden
    by by apply fmul_same_stored.
  rewrite (calculate_profit_loss_exited t' ex' e' q' Hx' He' Hq').
  cbv zeta. rewrite (feqb_same_stored _ _ Hsden), Hden, Htt.
  assert (same_stored
            (if is_long (trade_type t) then fmul (fsub ex' e') q'
             else fmul (fsub e' ex') q')
            (if is_long (trade_type t) then fmul (fsub ex e) q
             else fmul (fsub e ex) q)) as Hspl.
  { destruct (is_long (trade_type t));
      by apply fmul_same_stored; [apply fsub_same_stored|]. }
  eexists _, _. split; [reflexivity|]. split; [done|].
  apply fmul_same_stored; [|done].
  apply fdiv_same_stored; [done|done|].
  by rewrite (feqb_same_stored _ _ Hsden).
Qed.

(** In particular on an object and on the row that is written for it. *)
Lemma calculate_profit_loss_flush (t : Trade) (pl pct : float) :
  calculate_profit_loss t = Ok (pl, pct) →
  not_null (flush t) = true → is_Some (exit_price (flush t)) →
  ∃ pl' pct' : float,
    calculate_profit_loss (flush t) = Ok (pl', pct') ∧
    same_stored pl' pl ∧ same_stored pct' pct.
Proof.
  intros Hcalc Hnn [ex' Hx'].
  apply not_null_prices in Hnn as [[e' He'] [q' Hq']].
  cbn [flush exit_price entry_price quantity] in Hx', He', Hq'.
  pose proof Hx' as Hx0. pose proof He' as He0. pose proof Hq' as Hq0.
  apply sqlite_real_is_Some in Hx' as (ex & Hx & Hsx).
  apply sqlite_real_is_Some in He' as (e & He & Hse).
  apply sqlite_real_is_Some in Hq' as (q & Hq & Hsq).
  by apply (calculate_profit_loss_same_stored t (flush t) ex e q ex' e' q').
Qed.

(** An exit price that is NaN gives a pair of NaN. *)
Lemma calculate_profit_loss_nan (t : Trade) (pl pct : float) :
  exit_price t = Some nan → calculate_profit_loss t = Ok (pl, pct) →
  pl = nan ∧ pct = nan.
Proof.
  intros Hx. unfold calculate_profit_loss. rewrite Hx.
  destruct (entry_price t) as [e|]; [|by destruct (is_long _)].
  destruct (quantity t) as [q|]; [|by destruct (is_long _)].
  assert ((if is_long (trade_type t)
           then d ← py_sub (Some nan) (Some e) ; py_mul (Some d) (Some q)
           else d ← py_sub (Some e) (Some nan) ; py_mul (Some d) (Some q)) =
          Ok nan) as ->.
  { destruct (is_long (trade_type t)); simpl; [done|].
    by rewrite fsub_nan_r. }
  simpl. destruct (feqb (fmul e q) fzero); [done|].
  intros [= <- <-]. done.
Qed.

(** The row written after a recomputation. *)
Lemma recomputed_row (t : Trade) (pl pct : float) :
  calculate_profit_loss t = Ok (pl, pct) →
  is_Some (exit_price t) → not_null (flush t) = true →
  let stored := flush (set_profit_loss t (Some pl) (Some pct)) in
  stored_row stored ∧ pnl_of_fields stored ∧ pnl_has_exit stored.
Proof.
  intros Hcalc [ex Hx] Hnn stored. split; [|split].
  - by apply stored_row_flush.
  - intros Hsome.
    destruct (calculate_profit_loss_flush t pl pct Hcalc Hnn Hsome)
      as (pl' & pct' & Hcalc' & Hpl & Hpct).
    exists pl', pct'. split; [exact Hcalc'|]. split; symmetry; assumption.
  - intros Hnone. cbn [stored flush set_profit_loss exit_price] in Hnone.
    rewrite Hx in Hnone. apply sqlite_real_None in Hnone as [[=]|[= ->]].
    destruct (calculate_profit_loss_nan t pl pct Hx Hcalc) as [-> ->].
    done.
Qed.

(** What a create, an edit or a close can commit. *)
Lemma apply_op_commits (db : DB) (o : operation) :
  apply_op db o = db ∨
  ∃ (trade_id : Z) (stored : Trade),
    apply_op db o = mkDB (portfolios db) (<[trade_id := stored]> (trades db)) ∧
    stored_row stored ∧ pnl_of_fields stored ∧
    (keeps_exit_price o →
     (∀ t : Trade, trades db !! trade_id = Some t → pnl_has_exit t) →
     pnl_has_exit stored).
Proof.
  destruct o as [u c|u i upd|u i tc]; simpl.
  - unfold trades_router.create_trade.
    destruct (verify_portfolio_ownership _ _ _); [|by left].
    unfold trade_crud.create_trade, commit. cbv zeta.
    destruct (not_null (flush _)) eqn:Hnn; [|by left].
    right. eexists _, _. split; [reflexivity|].
    split; [by apply stored_row_flush|].
    split; [by intros [? [=]]|done].
  - unfold trades_router.update_trade, get_trade_by_id.
    destruct (trades db !! i) as [t|] eqn:Ht; [|by left].
    destruct (verify_portfolio_ownership _ _ _); [|by left].
    rewrite (crud_update_trade_found db i upd t Ht). cbv zeta.
    destruct (exit_price (setattrs t upd)) as [ex|] eqn:Hx.
    + destruct (calculate_profit_loss _) as [[pl pct]|e] eqn:Hcalc; [|by left].
      destruct (not_null (flush (setattrs t upd))) eqn:Hnn; [|by left].
      right. eexists _, _. split; [reflexivity|].
      destruct (recomputed_row _ pl pct Hcalc ltac:(by rewrite Hx) Hnn)
        as (? & ? & ?).
      done.
    + destruct (not_null (flush (setattrs t upd))) eqn:Hnn; [|by left].
      right. eexists _, _. split; [reflexivity|].
      split; [by apply stored_row_flush|].
      split.
      { intros [? Hsome]. cbn [flush exit_price] in Hsome.
        by rewrite Hx in Hsome. }
      intros Hkeep Hinv _.
      assert (exit_price t = None) as Hxt.
      { revert Hx. unfold setattrs, setattr. cbn [exit_price].
        destruct (u_exit_price upd) as [[v|]|]; done. }
      destruct (Hinv t Ht Hxt) as [Hpl Hpct].
      cbn [flush setattrs profit_loss profit_loss_percentage].
      by rewrite Hpl, Hpct.
  - unfold trades_router.close_trade, get_trade_by_id.
    destruct (trades db !! i) as [t|] eqn:Ht; [|by left].
    destruct (verify_portfolio_ownership _ _ _); [|by left].
    destruct (bool_decide _); [by left|].
    rewrite (crud_close_trade_found db i tc t Ht). cbv zeta.
    destruct (calculate_profit_loss _) as [[pl pct]|e] eqn:Hcalc; [|by left].
    destruct (not_null (flush t)) eqn:Hnn; [|by left].
    right. eexists _, _. split; [reflexivity|].
    destruct (recomputed_row _ pl pct Hcalc ltac:(by eexists) Hnn)
      as (? & ? & ?).
    done.
Qed.

Lemma apply_op_pnl_of_fields (db : DB) (o : operation) :
  map_Forall (λ _ t, stored_row t ∧ pnl_of_fields t) (trades db) →
  map_Forall (λ _ t, stored_row t ∧ pnl_of_fields t) (trades (apply_op db o)).
Proof.
  intros Hinv.
  destruct (apply_op_commits db o) as [->|(i & stored & -> & H1 & H2 & _)];
    [done|].
  by apply map_Forall_insert_2.
Qed.

Lemma apply_op_pnl_has_exit (db : DB) (o : operation) :
  keeps_exit_price o →
  map_Forall (λ _, pnl_has_exit) (trades db) →
  map_Forall (λ _, pnl_has_exit) (trades (apply_op db o)).
Proof.
  intros Hkeep Hinv.
  destruct (apply_op_commits db o) as [->|(i & stored & -> & _ & _ & H)];
    [done|].
  apply map_Forall_insert_2; [|done].
  apply H; [done|]. intros t Ht. exact (Hinv i t Ht).
Qed.

Lemma run_pnl_of_fields (ops : list operation) (db : DB) :
  map_Forall (λ _ t, stored_row t ∧ pnl_of_fields t) (trades db) →
  map_Forall (λ _ t, stored_row t ∧ pnl_of_fields t) (trades (run db ops)).
Proof.
  revert db. induction ops as [|o ops IH]; intros db Hinv; [done|].
  simpl. apply IH. by apply apply_op_pnl_of_fields.
Qed.

Lemma run_pnl_has_exit (ops : list operation) (db : DB) :
  Forall keeps_exit_price ops →
  map_Forall (λ _, pnl_has_exit) (trades db) →
  map_Forall (λ _, pnl_has_exit) (trades (run db ops)).
Proof.
  revert db. induction ops as [|o ops IH]; intros db Hops Hinv; [done|].
  inversion Hops as [|?? Ho Hops']; subst. simpl.
  apply IH; [done|]. by apply apply_op_pnl_has_exit.
Qed.

(** C3, as the code has it: on every trade that create, edit and close
    requests can produce, an exit price comes with the pair that the
    calculator computes from the stored fields, in which SQLite has replaced
    a NaN by null; and as long as no edit supplies exit_price = null, a trade
    without exit price has no derived pair. *)
Theorem C3_derived_pair_invariant (db : DB) (ops : list operation) :
  trades db = ∅ →
  (∀ (trade_id : Z) (t : Trade),
     trades (run db ops) !! trade_id = Some t →
     stored_row t ∧ pnl_of_fields t) ∧
  (Forall keeps_exit_price ops →
   ∀ (trade_id : Z) (t : Trade),
     trades (run db ops) !! trade_id = Some t → pnl_has_exit t).
Proof.
  intros Hempty. split.
  - apply (run_pnl_of_fields ops db). rewrite Hempty. apply map_Forall_empty.
  - intros Hops. apply (run_pnl_has_exit ops db); [done|].
    rewrite Hempty. apply map_Forall_empty.
Qed.

Lemma C3_witness :
  pnl_of_fields sample.long_closed ∧ pnl_has_exit sample.long_closed.
Proof.
  pose (ops := [Create sample.owner
                  (mkTradeCreate "TCS" LONG (sample.f 100) 5 (sample.f 10) None None 1);
                Close sample.owner 1 (sample.close_at (sample.f 120))]).
  destruct (C3_derived_pair_invariant sample.db_empty ops eq_refl) as [H1 H2].
  split.
  - apply (H1 1). vm_compute. reflexivity.
  - apply (H2 ltac:(repeat constructor) 1). vm_compute. reflexivity.
Defined.

(** C3 as stated fails in both directions.  Create, close at 120, then the
    edit [{"exit_price": null}] leave a trade without exit price whose derived
    pair is still populated; and closing at 1 a trade of 10 units entered at
    1e308 leaves a trade with an exit price whose percentage is null. *)
Lemma C3_counterexample :
  (∃ t : Trade,
     trades sample.exit_cleared !! 1 = Some t ∧
     exit_price t = None ∧
     profit_loss t = Some (sample.f 200) ∧
     is_Some (profit_loss_percentage t) ∧
     ¬ pnl_iff_exit t) ∧
  (∃ t : Trade,
     trades sample.overflowed !! 1 = Some t ∧
     is_Some (exit_price t) ∧
     profit_loss_percentage t = None ∧
     ¬ pnl_iff_exit t).
Proof.
  split.
  - eexists. split; [vm_compute; reflexivity|].
    repeat split; [by eexists|].
    intros [H _]. destruct (proj1 H) as [? [=]]. by eexists.
  - eexists. split; [vm_compute; reflexivity|].
    repeat split; [by eexists|].
    intros [_ H]. destruct (proj2 H) as [? [=]]. by eexists.
Qed.

(** ** Listing and deleting (C6, C9) *)

Lemma scan_Permutation (table : gmap Z Trade) : scan table ≡ₚ map_to_list table.
Proof. apply merge_sort_Permutation. Qed.

Lemma elem_of_scan (table : gmap Z Trade) (trade_id : Z) (t : Trade) :
  (trade_id, t) ∈ scan table ↔ table !! trade_id = Some t.
Proof. rewrite scan_Permutation. apply elem_of_map_to_list. Qed.

Lemma NoDup_scan (table : gmap Z Trade) : NoDup (scan table).
Proof. rewrite scan_Permutation. apply NoDup_map_to_list. Qed.

Global Instance id_le_trans : Transitive id_le.
Proof. intros x y z. unfold id_le. lia. Qed.

Global Instance id_le_total : Total id_le.
Proof. intros x y. unfold id_le. lia. Qed.

Lemma StronglySorted_filter {A} (R : relation A) (P : A → Prop)
    `{!∀ x, Decision (P x)} (l : list A) :
  StronglySorted R l → StronglySorted R (filter P l).
Proof.
  induction 1 as [|x l Hl IH Hx]; [constructor|].
  rewrite filter_cons. destruct (decide (P x)); [|done].
  constructor; [done|].
  clear -Hx. induction Hx as [|y l' Hy _ IH']; [constructor|].
  rewrite filter_cons. destruct (decide (P y)); [by constructor|done].
Qed.

(** The scan delivers the rows by ascending id. *)
Lemma scan_ascending (table : gmap Z Trade) :
  StronglySorted (λ row1 row2 : Z * Trade, row1.1 < row2.1) (scan table).
Proof.
  assert (StronglySorted id_le (scan table)) as Hsorted
    by (apply StronglySorted_merge_sort; apply _).
  assert (NoDup (scan table).*1) as Hnodup.
  { rewrite scan_Permutation. apply NoDup_fst_map_to_list. }
  induction Hsorted as [|x l Hl IH Hx]; [constructor|].
  rewrite fmap_cons in Hnodup. apply NoDup_cons in Hnodup as [Hnotin Hnodup].
  constructor; [by apply IH|].
  apply Forall_forall. intros y Hy.
  pose proof (proj1 (Forall_forall _ _) Hx y Hy) as Hle. unfold id_le in Hle.
  destruct (decide (x.1 = y.1)) as [Heq|Hne]; [|lia].
  destruct Hnotin. rewrite Heq. apply list_elem_of_fmap. by exists y.
Qed.

Lemma elem_of_where_portfolio_trades (db : DB) (pid : Z)
    (st : option TradeStatus) (trade_id : Z) (t : Trade) :
  (trade_id, t) ∈ where_portfolio_trades db pid st ↔
  trades db !! trade_id = Some t ∧ portfolio_id t = pid ∧
  match st with
  | None => True
  | Some s => status t = Some s
  end.
Proof.
  unfold where_portfolio_trades.
  rewrite list_elem_of_filter, elem_of_scan. unfold trade_matches. simpl. tauto.
Qed.

Global Instance date_le_trans : Transitive date_le.
Proof. intros [x|] [y|] [z|]; simpl; try done. lia. Qed.

Global Instance date_le_total : Total date_le.
Proof. intros [x|] [y|]; simpl; try tauto. lia. Qed.

Global Instance date_le_refl : Reflexive date_le.
Proof. intros [x|]; simpl; [lia|done]. Qed.

Lemma date_le_antisym (a b : option Z) : date_le a b → date_le b a → a = b.
Proof. destruct a, b; simpl; try done. intros. f_equal. lia. Qed.

Lemma sorter_insert_Permutation (row : Z * Trade) (sorted : list (Z * Trade)) :
  sorter_insert row sorted ≡ₚ row :: sorted.
Proof.
  induction sorted as [|first rest IH]; [done|]. simpl.
  destruct (decide _); [|done].
  rewrite IH. apply Permutation_swap.
Qed.

(** A row from further down the scan goes into the sorter behind the rows
    with its entry date. *)
Lemma sorter_insert_sorted (row : Z * Trade) (sorted : list (Z * Trade)) :
  StronglySorted listed_before sorted →
  Forall (λ r, r.1 < row.1) sorted →
  StronglySorted listed_before (sorter_insert row sorted).
Proof.
  induction 1 as [|first rest Hrest IH Hfirst]; intros Hids.
  { repeat constructor. }
  apply Forall_cons in Hids as [Hid Hids]. simpl.
  destruct (decide (date_le (entry_date row.2) (entry_date first.2))) as [Hle|Hnle].
  - constructor; [by apply IH|].
    rewrite sorter_insert_Permutation. constructor; [|done].
    split; [done|]. done.
  - assert (date_le (entry_date first.2) (entry_date row.2)) as Hle'
      by (destruct (total date_le (entry_date first.2) (entry_date row.2)); done).
    constructor; [by constructor|].
    constructor.
    + split; [done|]. intros Heq. destruct Hnle. rewrite Heq. reflexivity.
    + apply Forall_forall. intros x Hx.
      pose proof (proj1 (Forall_forall _ _) Hfirst x Hx) as [Hxf _].
      split; [by etrans|].
      intros Heq. destruct Hnle. rewrite Heq. exact Hxf.
Qed.

Lemma order_by_entry_date_desc_from (rows sorted : list (Z * Trade)) :
  StronglySorted listed_before sorted →
  StronglySorted (λ row1 row2 : Z * Trade, row1.1 < row2.1) rows →
  Forall (λ r, Forall (λ row, r.1 < row.1) rows) sorted →
  let result := fold_left (λ sorted row, sorter_insert row sorted) rows sorted in
  StronglySorted listed_before result ∧ result ≡ₚ sorted ++ rows.
Proof.
  revert sorted. induction rows as [|row rows IH]; intros sorted Hs Hrows Hlt.
  { simpl. by rewrite app_nil_r. }
  apply StronglySorted_inv in Hrows as [Hrows Hrow]. simpl.
  destruct (IH (sorter_insert row sorted)) as [H1 H2].
  - apply sorter_insert_sorted; [done|].
    eapply Forall_impl; [exact Hlt|]. intros r Hr. by apply Forall_cons in Hr as [? _].
  - done.
  - rewrite sorter_insert_Permutation. constructor; [done|].
    eapply Forall_impl; [exact Hlt|]. intros r Hr. by apply Forall_cons in Hr as [_ ?].
  - split; [done|]. rewrite H2, sorter_insert_Permutation.
    by rewrite <- Permutation_middle.
Qed.

(** C9: the listing holds exactly the trades of the portfolio (with the given
    status when a filter is supplied), each once, by entry date descending,
    and trades with the same entry date by ascending id. *)
Theorem C9_get_portfolio_trades (db : DB) (pid : Z) (st : option TradeStatus) :
  let rows := get_portfolio_trades db pid st in
  (∀ (trade_id : Z) (t : Trade),
     (trade_id, t) ∈ rows ↔
     trades db !! trade_id = Some t ∧ portfolio_id t = pid ∧
     match st with
     | None => True
     | Some s => status t = Some s
     end) ∧
  NoDup rows ∧
  StronglySorted (λ row1 row2, date_le (entry_date row2.2) (entry_date row1.2)) rows ∧
  StronglySorted
    (λ row1 row2, entry_date row1.2 = entry_date row2.2 → row1.1 < row2.1) rows.
Proof.
  intros rows.
  destruct (order_by_entry_date_desc_from (where_portfolio_trades db pid st) [])
    as [Hsorted Hperm].
  { constructor. }
  { apply StronglySorted_filter, scan_ascending. }
  { constructor. }
  fold (order_by_entry_date_desc (where_portfolio_trades db pid st)) in Hsorted, Hperm.
  fold (get_portfolio_trades db pid st) in Hsorted, Hperm. fold rows in Hsorted, Hperm.
  simpl in Hperm.
  split; [|split; [|split]].
  - intros i t. rewrite Hperm. apply elem_of_where_portfolio_trades.
  - rewrite Hperm. unfold where_portfolio_trades.
    apply NoDup_filter, NoDup_scan.
  - clear Hperm. induction Hsorted as [|x l Hl IH Hx]; constructor; [done|].
    eapply Forall_impl; [exact Hx|]. by intros y [? _].
  - clear Hperm. induction Hsorted as [|x l Hl IH Hx]; constructor; [done|].
    eapply Forall_impl; [exact Hx|]. by intros y [_ ?].
Qed.

(** Of the trades entered at 5, the one with the smaller id is listed first;
    the trade entered at 6 precedes both. *)
Example same_instant_listing :
  get_portfolio_trades sample.same_instant 1 None =
    [sample.wipro_at_6; sample.tcs_at_5; sample.infy_at_5].
Proof. vm_compute. reflexivity. Qed.

(** C6: [delete_portfolio] either finds no portfolio and changes nothing, or
    removes the portfolio together with every trade whose portfolio_id is its
    id and nothing else; afterwards the CRUD listing of the portfolio is empty
    and the endpoint answers 404. *)
Theorem C6_delete_portfolio_cascade (db : DB) (pid : Z) :
  (portfolios db !! pid = None ∧
   portfolio_crud.delete_portfolio db pid = (false, db)) ∨
  (∃ db' : DB,
     is_Some (portfolios db !! pid) ∧
     portfolio_crud.delete_portfolio db pid = (true, db') ∧
     portfolios db' !! pid = None ∧
     (∀ j : Z, j ≠ pid → portfolios db' !! j = portfolios db !! j) ∧
     (∀ (trade_id : Z) (t : Trade),
        trades db' !! trade_id = Some t ↔
        trades db !! trade_id = Some t ∧ portfolio_id t ≠ pid) ∧
     (∀ st : option TradeStatus, get_portfolio_trades db' pid st = []) ∧
     (∀ (u : Z) (st : option TradeStatus),
        trades_router.get_portfolio_trades db' u pid st =
          Raise (HTTPException HTTP_404_NOT_FOUND "Portfolio not found"))).
Proof.
  unfold portfolio_crud.delete_portfolio.
  destruct (portfolios db !! pid) as [p|] eqn:Hp; [right|by left].
  eexists. split; [by eexists|]. split; [reflexivity|]. simpl.
  assert (∀ (trade_id : Z) (t : Trade),
            filter (λ row : Z * Trade, portfolio_id row.2 ≠ pid) (trades db)
              !! trade_id = Some t ↔
            trades db !! trade_id = Some t ∧ portfolio_id t ≠ pid) as Hrows.
  { intros i t. by rewrite map_lookup_filter_Some. }
  split; [apply lookup_delete_eq|].
  split; [by intros j Hj; apply lookup_delete_ne|].
  split; [exact Hrows|].
  split.
  - intros st. unfold get_portfolio_trades.
    rewrite (elem_of_nil_inv (where_portfolio_trades _ pid st)); [done|].
    intros [i t] Hin.
    apply elem_of_where_portfolio_trades in Hin as (Hin & Hpid & _).
    simpl in Hin. apply Hrows in Hin as [_ Hne]. done.
  - intros u st. unfold trades_router.get_portfolio_trades,
      verify_portfolio_ownership, portfolio_crud.get_portfolio_by_id. simpl.
    by rewrite lookup_delete_eq.
Qed.

Lemma C6_witness :
  (portfolio_crud.delete_portfolio (sample.db_of sample.long_open) 1).1 = true ∧
  portfolios (portfolio_crud.delete_portfolio (sample.db_of sample.long_open) 1).2
    !! 1 = None ∧
  trades (portfolio_crud.delete_portfolio (sample.db_of sample.long_open) 1).2
    !! 1 = None.
Proof.
  destruct (C6_delete_portfolio_cascade (sample.db_of sample.long_open) 1)
    as [[Hnone _]|(db' & _ & Hdel & Hgone & _ & Htrades & _)].
  - discriminate Hnone.
  - rewrite Hdel. simpl. split; [reflexivity|]. split; [exact Hgone|].
    destruct (trades db' !! 1) as [t|] eqn:Ht; [|reflexivity].
    apply Htrades in Ht as [Ht Hne]. injection Ht as <-. by destruct Hne.
Defined.

(** ** Numbers *)

Import analytics.

Lemma Q_of_float_sign (s : bool) (m : positive) (e : Z) :
  (Q_of_float (S754_finite s m e) ?= 0)%Q = if s then Lt else Gt.
Proof.
  unfold Q_of_float.
  assert (0 < Qpower 2 e)%Q as Hpow by (by apply Qpower_0_lt).
  revert Hpow. generalize (Qpower 2 e). intros [n d] Hpow.
  unfold Qlt in Hpow. simpl in Hpow.
  destruct s.
  - apply (proj1 (Qlt_alt _ _)). unfold Qlt. simpl. nia.
  - apply (proj1 (Qgt_alt _ _)). unfold Qlt. simpl. nia.
Qed.

(** [(x or 0) > 0] is [x > 0], and [(x or 0) <= 0] is [x <= 0]. *)
Lemma num_ltb_zero_or0 (v : float) :
  num_ltb (Int 0) (py_or0 (Some v)) = fltb fzero v.
Proof.
  destruct v as [s|s| |s m e]; try reflexivity.
  - by destruct s.
  - unfold py_or0, num_ltb, num_compare, float_compare_Z.
    destruct s.
    + change (feqb (S754_finite true m e) fzero) with false. cbv iota.
      change (inject_Z 0) with 0%Q. by rewrite Q_of_float_sign.
    + change (feqb (S754_finite false m e) fzero) with false. cbv iota.
      change (inject_Z 0) with 0%Q. by rewrite Q_of_float_sign.
Qed.

Lemma num_leb_or0_zero (v : float) :
  num_leb (py_or0 (Some v)) (Int 0) = fleb v fzero.
Proof.
  destruct v as [s|s| |s m e]; try reflexivity.
  - by destruct s.
  - unfold py_or0, num_leb, num_compare, float_compare_Z.
    destruct s.
    + change (feqb (S754_finite true m e) fzero) with false. cbv iota.
      change (inject_Z 0) with 0%Q. by rewrite Q_of_float_sign.
    + change (feqb (S754_finite false m e) fzero) with false. cbv iota.
      change (inject_Z 0) with 0%Q. by rewrite Q_of_float_sign.
Qed.

Lemma num_compare_zero_flip (k : number) :
  num_compare (Int 0) k = CompOpp <$> num_compare k (Int 0).
Proof.
  destruct k as [n|x]; [|reflexivity].
  unfold num_compare. by destruct n.
Qed.

Lemma num_ltb_zero_not_eqb (b : number) :
  num_ltb (Int 0) b = true → num_eqb b (Int 0) = false.
Proof.
  unfold num_ltb, num_eqb. rewrite num_compare_zero_flip.
  by destruct (num_compare b (Int 0)) as [[]|].
Qed.

Lemma num_truediv_len (a : number) (n : nat) :
  (0 < n)%nat → num_truediv a (Int_of_nat n) = Ok (num_div a (Int_of_nat n)).
Proof.
  intros Hn. unfold num_truediv, num_eqb, num_compare, Int_of_nat.
  assert ((Z.of_nat n ?= 0) = Gt) as -> by (apply Z.compare_gt_iff; lia).
  done.
Qed.

(** A stored P&L is a winner or a loser, not both. *)
Lemma is_winning_not_losing (row : Z * Trade) :
  profit_loss row.2 ≠ Some nan →
  is_winning row = negb (is_losing row).
Proof.
  intros Hnan. unfold is_winning, is_losing, pl_key.
  destruct (profit_loss row.2) as [v|]; [|reflexivity].
  rewrite num_ltb_zero_or0, num_leb_or0_zero.
  destruct v as [s|s| |s m e];
    [by destruct s|by destruct s|by destruct Hnan|by destruct s].
Qed.

Lemma is_winning_spec (row : Z * Trade) (v : float) :
  profit_loss row.2 = Some v →
  is_winning row = fltb fzero v ∧ is_losing row = fleb v fzero.
Proof.
  intros Hv. unfold is_winning, is_losing, pl_key. rewrite Hv.
  by rewrite num_ltb_zero_or0, num_leb_or0_zero.
Qed.

Lemma is_losing_null (row : Z * Trade) :
  profit_loss row.2 = None → is_losing row = true ∧ is_winning row = false.
Proof. intros Hv. unfold is_winning, is_losing, pl_key. by rewrite Hv. Qed.

Lemma stored_not_nan (t : Trade) : flush t = t → profit_loss t ≠ Some nan.
Proof.
  intros Hf Hnan. assert (profit_loss (flush t) = Some nan) as H by by rewrite Hf.
  cbn [flush profit_loss] in H. by rewrite Hnan in H.
Qed.

Lemma wins_plus_losses (rows : list (Z * Trade)) :
  Forall (λ row, flush row.2 = row.2) rows →
  (length (List.filter is_winning rows) + length (List.filter is_losing rows))%nat =
  length rows.
Proof.
  induction 1 as [|row rows Hrow _ IH]; [done|]. simpl.
  rewrite (is_winning_not_losing row) by by apply stored_not_nan.
  destruct (is_losing row); simpl; lia.
Qed.

(** ** The query of the analytics *)

Lemma elem_of_closed_trades (db : DB) (pid : Z) (row : Z * Trade) :
  row ∈ closed_trades db pid ↔ closed_in db pid row.
Proof.
  destruct row as [i t]. unfold closed_trades, closed_in.
  rewrite list_elem_of_filter, elem_of_scan.
  unfold is_closed_in. simpl. tauto.
Qed.

Lemma NoDup_closed_trades (db : DB) (pid : Z) : NoDup (closed_trades db pid).
Proof. apply NoDup_filter, NoDup_scan. Qed.

Lemma closed_trades_stored (db : DB) (pid : Z) :
  stored_table (trades db) →
  Forall (λ row, flush row.2 = row.2) (closed_trades db pid).
Proof.
  intros Hst. apply Forall_forall. intros [i t] Hin.
  apply elem_of_closed_trades in Hin as (Hin & _). exact (Hst i t Hin).
Qed.

(** ** Per-symbol breakdown (C8) *)

Lemma total_of_app (d1 d2 : stats_dict) :
  total_of (d1 ++ d2) = (total_of d1 + total_of d2)%nat.
Proof. apply sum_list_with_app. Qed.

Lemma modify_absent (symbol' : option string) f (d : stats_dict) (v : SymbolStats) :
  symbol' ∉ d.*1 →
  modify symbol' f (d ++ [(symbol', v)]) = d ++ [(symbol', f v)].
Proof.
  induction d as [|[k w] d IH]; intros Hnot; simpl.
  - by rewrite bool_decide_eq_true_2.
  - rewrite fmap_cons, not_elem_of_cons in Hnot. destruct Hnot as [Hne Hnot].
    rewrite bool_decide_eq_false_2 by done. by rewrite IH.
Qed.

Lemma modify_present_total (symbol' : option string) f (d : stats_dict) :
  symbol' ∈ d.*1 →
  (∀ v, ss_total_trades (f v) = S (ss_total_trades v)) →
  total_of (modify symbol' f d) = S (total_of d).
Proof.
  intros Hin Hf. induction d as [|[k w] d IH]; simpl.
  - by apply elem_of_nil in Hin.
  - case_bool_decide as Hk.
    + unfold total_of. simpl. by rewrite Hf.
    + rewrite fmap_cons, elem_of_cons in Hin.
      destruct Hin as [Heq|Hin]; [by destruct Hk|].
      unfold total_of in *. simpl. rewrite (IH Hin). lia.
Qed.

Lemma modify_Forall (P : option string * SymbolStats → Prop)
    (symbol' : option string) f (d : stats_dict) :
  (∀ k v, P (k, v) → P (k, f v)) →
  Forall P d → Forall P (modify symbol' f d).
Proof.
  intros Hf. induction 1 as [|[k v] d Hkv Hd IH]; simpl; [constructor|].
  case_bool_decide; constructor; auto.
Qed.

Lemma count_trade_total (trade : Trade) (v : SymbolStats) :
  ss_total_trades (count_trade trade v) = S (ss_total_trades v).
Proof. unfold count_trade. simpl. lia. Qed.

Lemma add_trade_total (d : stats_dict) (row : Z * Trade) :
  total_of (add_trade d row) = S (total_of d).
Proof.
  unfold add_trade, has_key. case_bool_decide as Hin.
  - apply modify_present_total; [done|apply count_trade_total].
  - rewrite modify_absent by done. rewrite total_of_app.
    unfold total_of at 2. simpl. lia.
Qed.

Lemma fold_add_trade_total (rows : list (Z * Trade)) (d : stats_dict) :
  total_of (fold_left add_trade rows d) = (total_of d + length rows)%nat.
Proof.
  revert d. induction rows as [|row rows IH]; intros d; simpl; [lia|].
  rewrite IH, add_trade_total. lia.
Qed.

Lemma add_trade_entry_ok (seen : option string → Prop) (d : stats_dict)
    (row : Z * Trade) :
  Forall (entry_ok seen) d →
  Forall (entry_ok (λ s, seen s ∨ s = symbol row.2)) (add_trade d row).
Proof.
  intros Hd.
  assert (Forall (entry_ok (λ s, seen s ∨ s = symbol row.2)) d) as Hd'.
  { eapply Forall_impl; [exact Hd|]. intros kv (?&?&?). repeat split; auto. }
  unfold add_trade, has_key. case_bool_decide as Hin.
  - apply modify_Forall; [|done].
    intros k v (?&?&?). repeat split; simpl in *; auto; lia.
  - rewrite modify_absent by done. apply Forall_app. split; [done|].
    constructor; [|constructor]. repeat split; simpl; auto; lia.
Qed.

Lemma fold_add_trade_entry_ok (rows : list (Z * Trade))
    (seen : option string → Prop) (d : stats_dict) :
  Forall (entry_ok seen) d →
  Forall (entry_ok (λ s, seen s ∨ ∃ row, row ∈ rows ∧ symbol row.2 = s))
    (fold_left add_trade rows d).
Proof.
  revert seen d. induction rows as [|row rows IH]; intros seen d Hd; simpl.
  - eapply Forall_impl; [exact Hd|]. intros kv (?&?&?). repeat split; auto.
  - eapply Forall_impl; [apply (IH _ _ (add_trade_entry_ok seen d row Hd))|].
    intros kv (?&?&Hs). repeat split; auto.
    destruct Hs as [[Hs|Hs]|(r & Hr & Hs)].
    + by left.
    + right. exists row. split; [apply list_elem_of_here|done].
    + right. exists r. split; [by apply list_elem_of_further|done].
Qed.


(** Every entry of the dictionary gets its win rate. *)
Lemma finish_returns (st : SymbolStats) :
  ∃ rate : number,
    finish st =
      Ok (mkSymbolStats (ss_symbol st) (ss_total_trades st)
            (float_round2 (ss_total_profit_loss st)) (ss_wins st) (ss_losses st)
            (Some rate)) ∧
    ((0 < ss_total_trades st)%nat →
     rate = py_round2 (num_mul (Float (num_div (Int_of_nat (ss_wins st))
                                               (Int_of_nat (ss_total_trades st))))
                               (Int 100))).
Proof.
  unfold finish, group_win_rate.
  destruct (decide (0 < ss_total_trades st)%nat) as [Hpos|Hzero].
  - rewrite bool_decide_eq_true_2 by done.
    rewrite num_truediv_len by done. simpl. eauto.
  - rewrite bool_decide_eq_false_2 by done. simpl. eexists. split; [done|].
    intros. lia.
Qed.

Lemma mapM_result {A B} (f : A → result B) (l : list A) :
  (∀ x, x ∈ l → ∃ y, f x = Ok y) →
  ∃ k, mapM f l = Ok k ∧ Forall2 (λ x y, f x = Ok y) l k.
Proof.
  induction l as [|x l IH]; intros H.
  - exists []. split; [done|constructor].
  - destruct (H x) as [y Hy]; [apply list_elem_of_here|].
    destruct IH as (k & Hk & HF).
    { intros z Hz. apply H. by apply list_elem_of_further. }
    exists (y :: k). split; [|by constructor].
    simpl. rewrite Hy. simpl. by rewrite Hk.
Qed.

(** The breakdown returns: one group for each entry of the dictionary, in
    its order, with the entry's symbol and counts. *)
Lemma analytics_by_symbol_returns (closed : list (Z * Trade)) :
  ∃ groups : list SymbolStats,
    analytics_by_symbol closed = Ok groups ∧
    Forall2 (λ kv g,
               ss_symbol g = ss_symbol kv.2 ∧
               ss_total_trades g = ss_total_trades kv.2 ∧
               ss_wins g = ss_wins kv.2 ∧ ss_losses g = ss_losses kv.2 ∧
               ss_total_profit_loss g = float_round2 (ss_total_profit_loss kv.2) ∧
               ((0 < ss_total_trades g)%nat →
                ss_win_rate g =
                  Some (py_round2
                          (num_mul (Float (num_div (Int_of_nat (ss_wins g))
                                                   (Int_of_nat (ss_total_trades g))))
                                   (Int 100)))))
            (fold_left add_trade closed []) groups.
Proof.
  unfold analytics_by_symbol.
  destruct (mapM_result (λ kv : option string * SymbolStats, finish kv.2)
              (fold_left add_trade closed [])) as (groups & Hgroups & HF).
  { intros kv _. destruct (finish_returns kv.2) as (rate & -> & _). eauto. }
  exists groups. split; [done|].
  eapply Forall2_impl; [exact HF|].
  intros kv g Hg. destruct (finish_returns kv.2) as (rate & Hfin & Hrate).
  cbv beta in Hg. rewrite Hfin in Hg. injection Hg as <-. simpl.
  repeat split; try done. intros Hpos. f_equal. by apply Hrate.
Qed.

Lemma sum_profit_loss_nil (alg : sum_algorithm) :
  sum_profit_loss alg [] = Ok (Int 0).
Proof. reflexivity. Qed.

Lemma sum_profit_loss_returns (alg : sum_algorithm) (rows : list (Z * Trade)) :
  Forall (λ row, is_Some (profit_loss row.2)) rows →
  ∃ s : number, sum_profit_loss alg rows = Ok s.
Proof.
  intros Hall. unfold sum_profit_loss, py_sum_attr.
  destruct (mapM id ((λ t : Z * Trade, profit_loss t.2) <$> rows)) as [values|] eqn:Hm;
    [eauto|].
  apply mapM_None_1 in Hm. apply Exists_exists in Hm as (x & Hx & Hnone).
  apply list_elem_of_fmap in Hx as (row & -> & Hrow).
  pose proof (proj1 (Forall_forall _ _) Hall row Hrow) as [v Hv].
  simpl in Hnone. congruence.
Qed.

(** The sum over trades that all have a profit_loss is Python's [sum] of
    those values, in the order of the rows. *)
Lemma sum_profit_loss_values (alg : sum_algorithm) (rows : list (Z * Trade)) :
  Forall (λ row, is_Some (profit_loss row.2)) rows →
  ∃ values : list float,
    Forall2 (λ row v, profit_loss row.2 = Some v) rows values ∧
    sum_profit_loss alg rows = Ok (py_sum alg (Float <$> values)).
Proof.
  intros Hall.
  assert (∃ values : list float,
            Forall2 (λ row v, profit_loss row.2 = Some v) rows values ∧
            mapM id ((λ t : Z * Trade, profit_loss t.2) <$> rows) = Some values)
    as (values & HF & Hm).
  { induction Hall as [|row rows [v Hv] _ (values & HF & Hm)].
    - exists []. split; [constructor|done].
    - exists (v :: values). split; [by constructor|].
      rewrite fmap_cons. cbn [mapM]. rewrite Hv. simpl. by rewrite Hm. }
  exists values. split; [done|].
  unfold sum_profit_loss, py_sum_attr. by rewrite Hm.
Qed.

Lemma sum_profit_loss_null (alg : sum_algorithm) (rows : list (Z * Trade)) :
  Exists (λ row, profit_loss row.2 = None) rows →
  sum_profit_loss alg rows = Raise TypeError.
Proof.
  intros Hex. unfold sum_profit_loss, py_sum_attr.
  rewrite (mapM_None_2 id); [done|].
  apply Exists_exists in Hex as (row & Hrow & Hnone).
  apply Exists_exists. exists (profit_loss row.2). split; [|done].
  apply list_elem_of_fmap. by exists row.
Qed.

Lemma Forall_List_filter {A} (P : A → Prop) (f : A → bool) (l : list A) :
  Forall P l → Forall P (List.filter f l).
Proof.
  induction 1 as [|x l Hx _ IH]; [constructor|]. simpl.
  destruct (f x); [by constructor|done].
Qed.

Lemma elem_of_List_filter {A} (f : A → bool) (l : list A) (x : A) :
  x ∈ List.filter f l ↔ x ∈ l ∧ f x = true.
Proof.
  rewrite !list_elem_of_In. apply filter_In.
Qed.

(** Without a null profit_loss among the closed trades the analytics
    return. *)
Lemma portfolio_analytics_returns (alg : sum_algorithm) (pid : Z) (p : Portfolio)
    (first : Z * Trade) (rest : list (Z * Trade)) :
  Forall (λ row, is_Some (profit_loss row.2)) (first :: rest) →
  ∃ win_sum loss_sum : number,
    sum_profit_loss alg (List.filter is_winning (first :: rest)) = Ok win_sum ∧
    sum_profit_loss alg (List.filter is_losing (first :: rest)) = Ok loss_sum ∧
    portfolio_analytics alg pid p (first :: rest) =
      Ok (aggregate alg pid p first rest win_sum loss_sum).
Proof.
  intros Hall.
  destruct (sum_profit_loss_returns alg (List.filter is_winning (first :: rest)))
    as [win_sum Hwin]; [by apply Forall_List_filter|].
  destruct (sum_profit_loss_returns alg (List.filter is_losing (first :: rest)))
    as [loss_sum Hloss]; [by apply Forall_List_filter|].
  exists win_sum, loss_sum. split; [done|]. split; [done|].
  unfold portfolio_analytics, aggregate. cbv zeta.
  set (closed := first :: rest) in *.
  rewrite bool_decide_eq_false_2 by done.
  rewrite (bool_decide_eq_true_2 (0 < length closed)%nat) by (simpl; lia).
  rewrite !num_truediv_len by (simpl; lia).
  rewrite Hwin, Hloss.
  set (wins := length (List.filter is_winning closed)).
  set (losses := length (List.filter is_losing closed)).
  unfold mbind, result_bind, fmap, result_fmap.
  destruct (decide (0 < wins)%nat) as [Hw|Hw].
  - rewrite (bool_decide_eq_true_2 (0 < wins)%nat) by done.
    rewrite (num_truediv_len win_sum wins) by done.
    destruct (decide (0 < losses)%nat) as [Hl|Hl].
    + rewrite (bool_decide_eq_true_2 (0 < losses)%nat) by done.
      rewrite (num_truediv_len loss_sum losses) by done.
      destruct (num_ltb (Int 0) (num_abs loss_sum)) eqn:Hpos; [|done].
      unfold num_truediv. by rewrite (num_ltb_zero_not_eqb _ Hpos).
    + rewrite (bool_decide_eq_false_2 (0 < losses)%nat) by done.
      destruct (num_ltb (Int 0) (num_abs loss_sum)) eqn:Hpos; [|done].
      unfold num_truediv. by rewrite (num_ltb_zero_not_eqb _ Hpos).
  - rewrite (bool_decide_eq_false_2 (0 < wins)%nat) by done.
    destruct (decide (0 < losses)%nat) as [Hl|Hl].
    + rewrite (bool_decide_eq_true_2 (0 < losses)%nat) by done.
      rewrite (num_truediv_len loss_sum losses) by done.
      destruct (num_ltb (Int 0) (num_abs loss_sum)) eqn:Hpos; [|done].
      unfold num_truediv. by rewrite (num_ltb_zero_not_eqb _ Hpos).
    + rewrite (bool_decide_eq_false_2 (0 < losses)%nat) by done.
      destruct (num_ltb (Int 0) (num_abs loss_sum)) eqn:Hpos; [|done].
      unfold num_truediv. by rewrite (num_ltb_zero_not_eqb _ Hpos).
Qed.

(** A closed trade with a null profit_loss makes the analytics raise:
    it is a losing trade, and [sum(t.profit_loss for t in losing_trades)]
    lacks the [or 0] of the lines above it. *)
Lemma portfolio_analytics_null (alg : sum_algorithm) (pid : Z) (p : Portfolio)
    (closed : list (Z * Trade)) :
  Exists (λ row, profit_loss row.2 = None) closed →
  portfolio_analytics alg pid p closed = Raise TypeError.
Proof.
  intros Hex.
  assert (Exists (λ row, profit_loss row.2 = None) (List.filter is_losing closed))
    as Hlosers.
  { apply Exists_exists in Hex as (row & Hrow & Hnone).
    apply Exists_exists. exists row. split; [|done].
    apply elem_of_List_filter. split; [done|]. by apply is_losing_null. }
  assert (Forall (λ row, is_Some (profit_loss row.2)) (List.filter is_winning closed))
    as Hwinners.
  { apply Forall_forall. intros row [_ Hrow]%elem_of_List_filter.
    destruct (profit_loss row.2) as [v|] eqn:Hv; [by eexists|].
    destruct (is_losing_null row Hv) as [_ Hno]. congruence. }
  destruct (sum_profit_loss_returns alg _ Hwinners) as [win_sum Hwin].
  pose proof (sum_profit_loss_null alg _ Hlosers) as Hloss.
  assert (0 < length (List.filter is_losing closed))%nat as Hl.
  { destruct (List.filter is_losing closed); [by apply Exists_nil in Hlosers|].
    simpl. lia. }
  assert (0 < length closed)%nat as Hc.
  { destruct closed; [by apply Exists_nil in Hex|]. simpl. lia. }
  unfold portfolio_analytics. cbv zeta.
  rewrite bool_decide_eq_false_2 by lia.
  rewrite (bool_decide_eq_true_2 (0 < length closed)%nat) by done.
  rewrite !num_truediv_len by done.
  rewrite Hwin, Hloss.
  rewrite (bool_decide_eq_true_2 (0 < length (List.filter is_losing closed))%nat)
    by done.
  unfold mbind, result_bind, fmap, result_fmap.
  destruct (bool_decide (0 < length (List.filter is_winning closed))%nat) eqn:Hw;
    [|done].
  apply bool_decide_eq_true in Hw. by rewrite (num_truediv_len win_sum _ Hw).
Qed.

Lemma get_portfolio_analytics_authorised (alg : sum_algorithm) (db : DB)
    (u pid : Z) (p : Portfolio) :
  verify_portfolio_ownership db pid u = Ok p →
  get_portfolio_analytics alg db u pid =
    portfolio_analytics alg pid p (closed_trades db pid).
Proof. intros Hp. unfold get_portfolio_analytics. by rewrite Hp. Qed.

Lemma closed_trades_cases (db : DB) (pid : Z) :
  Forall (λ row, is_Some (profit_loss row.2)) (closed_trades db pid) ∨
  Exists (λ row, profit_loss row.2 = None) (closed_trades db pid).
Proof.
  induction (closed_trades db pid) as [|row rows [IH|IH]].
  - left. constructor.
  - destruct (profit_loss row.2) as [v|] eqn:Hv.
    + left. constructor; [by eexists|done].
    + right. by left.
  - right. by right.
Qed.




(** ** Aggregate analytics (C5, C7) *)

(** C5, as the code has it: when no closed trade of the portfolio has a null
    profit_loss, the aggregate analytics return; total_wins counts the closed
    trades with profit_loss > 0, total_losses those with profit_loss <= 0,
    the two add up to total_trades, and win_rate is the double
    wins / total * 100 rounded to two decimals. *)
Theorem C5_wins_and_losses (alg : sum_algorithm) (db : DB) (u pid : Z)
    (p : Portfolio) :
  verify_portfolio_ownership db pid u = Ok p →
  stored_table (trades db) →
  closed_trades db pid ≠ [] →
  Forall (λ row, is_Some (profit_loss row.2)) (closed_trades db pid) →
  (∀ row : Z * Trade, row ∈ closed_trades db pid ↔ closed_in db pid row) ∧
  NoDup (closed_trades db pid) ∧
  ∃ a : PortfolioAnalytics,
    get_portfolio_analytics alg db u pid = Ok a ∧
    total_trades a = length (closed_trades db pid) ∧
    total_wins a = length (List.filter is_winning (closed_trades db pid)) ∧
    total_losses a = length (List.filter is_losing (closed_trades db pid)) ∧
    (∀ (row : Z * Trade) (v : float),
       profit_loss row.2 = Some v →
       is_winning row = fltb fzero v ∧ is_losing row = fleb v fzero) ∧
    (total_wins a + total_losses a)%nat = total_trades a ∧
    win_rate a =
      py_round2 (num_mul (Float (num_div (Int_of_nat (total_wins a))
                                         (Int_of_nat (total_trades a))))
                         (Int 100)).
Proof.
  intros Hp Hstored Hne Hall.
  split; [apply elem_of_closed_trades|].
  split; [apply NoDup_closed_trades|].
  rewrite (get_portfolio_analytics_authorised alg db u pid p Hp).
  pose proof (wins_plus_losses _ (closed_trades_stored db pid Hstored)) as Hsum.
  destruct (closed_trades db pid) as [|first rest]; [done|].
  destruct (portfolio_analytics_returns alg pid p first rest Hall)
    as (win_sum & loss_sum & _ & _ & ->).
  eexists. split; [reflexivity|].
  unfold aggregate. cbv zeta. cbn [total_trades total_wins total_losses win_rate].
  repeat split; try done.
  - by apply is_winning_spec.
  - by apply is_winning_spec.
Qed.

Lemma stored_table_run (ops : list operation) :
  stored_table (trades (run sample.db_empty ops)).
Proof.
  intros i t Ht.
  pose proof (run_pnl_of_fields ops sample.db_empty (map_Forall_empty _)) as H.
  by destruct (H i t Ht) as [[? _] _].
Qed.

Lemma C5_witness :
  ∃ a : PortfolioAnalytics,
    get_portfolio_analytics Plain sample.one_win_in_three sample.owner 1 = Ok a ∧
    total_wins a = 1%nat ∧ total_losses a = 2%nat ∧
    (total_wins a + total_losses a)%nat = total_trades a.
Proof.
  destruct (C5_wins_and_losses Plain sample.one_win_in_three sample.owner 1
              sample.portfolio1)
    as (_ & _ & a & Ha & _ & Hw & Hl & _ & Hsum & _).
  - vm_compute. reflexivity.
  - apply stored_table_run.
  - vm_compute. discriminate.
  - vm_compute. repeat constructor; by eexists.
  - exists a. split; [exact Ha|]. split; [|split; [|exact Hsum]].
    + rewrite Hw. vm_compute. reflexivity.
    + rewrite Hl. vm_compute. reflexivity.
Defined.

(** C5 as stated fails: with one winner among three closed trades the
    reported win_rate is the double 33.33, which is not the double
    1 / 3 * 100. *)
Lemma C5_counterexample :
  ∃ a : PortfolioAnalytics,
    get_portfolio_analytics Plain sample.one_win_in_three sample.owner 1 = Ok a ∧
    get_portfolio_analytics Compensated sample.one_win_in_three sample.owner 1 = Ok a ∧
    total_wins a = 1%nat ∧ total_trades a = 3%nat ∧
    win_rate a = Float (float_of_Q (3333 # 100)) ∧
    win_rate a ≠
      num_mul (Float (num_div (Int_of_nat (total_wins a)) (Int_of_nat (total_trades a))))
              (Int 100).
Proof.
  eexists. split; [vm_compute; reflexivity|].
  split; [vm_compute; reflexivity|].
  split; [reflexivity|]. split; [reflexivity|].
  split; [vm_compute; reflexivity|].
  vm_compute. discriminate.
Qed.

(** With 23 winners among 160 closed trades the win rate is the double
    14.374999999999998, reported as 14.37. *)
Example win_rate_23_of_160 :
  py_round2 (num_mul (Float (num_div (Int 23) (Int 160))) (Int 100)) =
    Float (float_of_Q (1437 # 100)) ∧
  num_mul (Float (num_div (Int 23) (Int 160))) (Int 100) =
    Float (float_of_Q (14374999999999998 # 1000000000000000)).
Proof. split; vm_compute; reflexivity. Qed.

(** C7, as the code has it: when no closed trade of the portfolio has a null
    profit_loss, the winning trades are the closed trades with profit_loss > 0
    and the losing ones those with profit_loss <= 0; profit_factor is Python's
    sum of the winning trades' P&L divided by the absolute value of the sum
    of the losing trades' P&L, rounded to two decimals, and it is the integer
    0 when that absolute value is not greater than 0, as it is when there is
    no losing trade. *)
Theorem C7_profit_factor (alg : sum_algorithm) (db : DB) (u pid : Z)
    (p : Portfolio) :
  verify_portfolio_ownership db pid u = Ok p →
  closed_trades db pid ≠ [] →
  Forall (λ row, is_Some (profit_loss row.2)) (closed_trades db pid) →
  let winners := List.filter is_winning (closed_trades db pid) in
  let losers := List.filter is_losing (closed_trades db pid) in
  (∀ row : Z * Trade, row ∈ closed_trades db pid ↔ closed_in db pid row) ∧
  NoDup (closed_trades db pid) ∧
  (∀ (row : Z * Trade) (v : float),
     profit_loss row.2 = Some v →
     is_winning row = fltb fzero v ∧ is_losing row = fleb v fzero) ∧
  ∃ (a : PortfolioAnalytics) (win_pl loss_pl : list float),
    get_portfolio_analytics alg db u pid = Ok a ∧
    Forall2 (λ row v, profit_loss row.2 = Some v) winners win_pl ∧
    Forall2 (λ row v, profit_loss row.2 = Some v) losers loss_pl ∧
    let win_sum := py_sum alg (Float <$> win_pl) in
    let loss_sum := py_sum alg (Float <$> loss_pl) in
    (num_ltb (Int 0) (num_abs loss_sum) = true →
       profit_factor a =
         Float (float_round2 (num_div win_sum (num_abs loss_sum)))) ∧
    (num_ltb (Int 0) (num_abs loss_sum) = false → profit_factor a = Int 0) ∧
    (losers = [] → profit_factor a = Int 0).
Proof.
  intros Hp Hne Hall winners losers.
  split; [apply elem_of_closed_trades|].
  split; [apply NoDup_closed_trades|].
  split; [intros row v Hv; split; by apply is_winning_spec|].
  rewrite (get_portfolio_analytics_authorised alg db u pid p Hp).
  subst winners losers.
  destruct (closed_trades db pid) as [|first rest]; [done|].
  destruct (portfolio_analytics_returns alg pid p first rest Hall)
    as (win_sum & loss_sum & Hwin & Hloss & ->).
  destruct (sum_profit_loss_values alg (List.filter is_winning (first :: rest)))
    as (win_pl & Hwin_pl & Hwin'); [by apply Forall_List_filter|].
  destruct (sum_profit_loss_values alg (List.filter is_losing (first :: rest)))
    as (loss_pl & Hloss_pl & Hloss'); [by apply Forall_List_filter|].
  rewrite Hwin' in Hwin. injection Hwin as <-.
  rewrite Hloss' in Hloss. injection Hloss as <-.
  eexists _, win_pl, loss_pl.
  split; [reflexivity|]. split; [exact Hwin_pl|]. split; [exact Hloss_pl|].
  unfold aggregate. cbv zeta. cbn [profit_factor].
  split; [|split].
  - by intros ->.
  - by intros ->.
  - intros Hnil. rewrite Hnil in Hloss_pl. apply Forall2_nil_inv_l in Hloss_pl.
    by rewrite Hloss_pl.
Qed.

Lemma C7_witness :
  ∃ a : PortfolioAnalytics,
    get_portfolio_analytics Plain sample.win1_loss40 sample.owner 1 = Ok a ∧
    profit_factor a = Float (float_of_Q (3 # 100)).
Proof.
  destruct (C7_profit_factor Plain sample.win1_loss40 sample.owner 1
              sample.portfolio1)
    as (_ & _ & _ & a & win_pl & loss_pl & Ha & Hwin & Hloss & Hpos & _).
  - vm_compute. reflexivity.
  - vm_compute. discriminate.
  - vm_compute. repeat constructor; by eexists.
  - exists a. split; [exact Ha|].
    vm_compute in Ha. injection Ha as <-. vm_compute. reflexivity.
Defined.

(** C7 as stated fails: with a winning sum of 1 and a losing sum of -40 the
    reported profit_factor is the double 0.03, which is not 1 / 40. *)
Lemma C7_counterexample :
  ∃ a : PortfolioAnalytics,
    get_portfolio_analytics Plain sample.win1_loss40 sample.owner 1 = Ok a ∧
    get_portfolio_analytics Compensated sample.win1_loss40 sample.owner 1 = Ok a ∧
    sum_profit_loss Plain
      (List.filter is_winning (closed_trades sample.win1_loss40 1)) =
      Ok (Float (float_of_Z 1)) ∧
    sum_profit_loss Plain
      (List.filter is_losing (closed_trades sample.win1_loss40 1)) =
      Ok (Float (float_of_Z (-40))) ∧
    profit_factor a = Float (float_of_Q (3 # 100)) ∧
    profit_factor a ≠ Float (fdiv (float_of_Z 1) (float_of_Z 40)).
Proof.
  eexists. split; [vm_compute; reflexivity|].
  split; [vm_compute; reflexivity|].
  split; [vm_compute; reflexivity|].
  split; [vm_compute; reflexivity|].
  split; [vm_compute; reflexivity|].
  vm_compute. discriminate.
Qed.

(** A portfolio whose only closed trade is a winner: the profit factor is the
    integer 0. *)
Example no_loser_profit_factor :
  ∃ a : PortfolioAnalytics,
    get_portfolio_analytics Plain (sample.db_of sample.long_closed) sample.owner 1 =
      Ok a ∧
    profit_factor a = Int 0 ∧ total_profit_loss a = Float (float_of_Z 200).
Proof. eexists. split; [vm_compute; reflexivity|]. split; vm_compute; reflexivity. Qed.

(** * Further properties of the code *)

(** ** Creating and deleting trades *)

Lemma max_key_bound {A} (m : gmap Z A) (k : Z) (v : A) :
  m !! k = Some v → k ≤ map_fold (λ k _ acc, Z.max k acc) 0 m.
Proof.
  revert k v.
  apply (map_fold_weak_ind
           (λ (b : Z) (m : gmap Z A), ∀ k v, m !! k = Some v → k ≤ b)).
  - intros k v Hk. by rewrite lookup_empty in Hk.
  - intros i x m' r Hi IH k v Hk.
    destruct (decide (i = k)) as [->|Hne]; [lia|].
    rewrite lookup_insert_ne in Hk by done.
    specialize (IH k v Hk). lia.
Qed.

Lemma next_id_fresh (m : gmap Z Trade) : m !! next_id m = None.
Proof.
  destruct (m !! next_id m) as [t|] eqn:Hm; [|done].
  apply max_key_bound in Hm. unfold next_id in Hm. lia.
Qed.

Lemma next_portfolio_id_fresh (m : gmap Z Portfolio) :
  m !! portfolio_crud.next_portfolio_id m = None.
Proof.
  destruct (m !! portfolio_crud.next_portfolio_id m) as [t|] eqn:Hm; [|done].
  apply max_key_bound in Hm. unfold portfolio_crud.next_portfolio_id in Hm. lia.
Qed.

Lemma not_null_flush_iff (t : Trade) :
  not_null (flush t) = true ↔
  not_null t = true ∧ entry_price t ≠ Some nan ∧ quantity t ≠ Some nan.
Proof.
  unfold not_null. cbn [flush symbol trade_type entry_price entry_date quantity].
  rewrite !andb_true_iff, !bool_decide_eq_true.
  assert (∀ x, is_Some (sqlite_real x) ↔ is_Some x ∧ x ≠ Some nan) as H.
  { intros x. rewrite <- !not_eq_None_Some, sqlite_real_None. tauto. }
  rewrite !H. tauto.
Qed.

(** X1: [create_trade] takes the id after the largest in use, which no trade
    has.  When neither entry_price nor quantity is NaN it stores the new trade
    under that id; the trade can be read back, is OPEN, has no exit data and
    no derived pair, and no other trade and no portfolio changes.  When one of
    the two is NaN, which SQLite stores as NULL in a [nullable=False] column,
    it raises [IntegrityError] and stores nothing. *)
Theorem X1_create_trade_fresh (db : DB) (c : TradeCreate) :
  let trade_id := next_id (trades db) in
  trades db !! trade_id = None ∧
  (∀ (j : Z) (t0 : Trade), trades db !! j = Some t0 → j < trade_id) ∧
  (c_entry_price c ≠ nan → c_quantity c ≠ nan →
   ∃ (t : Trade) (db' : DB),
     trade_crud.create_trade db c = (Ok (trade_id, t), db') ∧
     get_trade_by_id db' trade_id = Some t ∧
     portfolio_id t = c_portfolio_id c ∧
     symbol t = Some (c_symbol c) ∧ trade_type t = Some (c_trade_type c) ∧
     entry_price t = sqlite_real (Some (c_entry_price c)) ∧
     quantity t = sqlite_real (Some (c_quantity c)) ∧
     entry_date t = Some (c_entry_date c) ∧
     status t = Some OPEN ∧ exit_price t = None ∧ exit_date t = None ∧
     profit_loss t = None ∧ profit_loss_percentage t = None ∧
     (∀ j : Z, j ≠ trade_id → trades db' !! j = trades db !! j) ∧
     portfolios db' = portfolios db) ∧
  (c_entry_price c = nan ∨ c_quantity c = nan →
   trade_crud.create_trade db c = (Raise IntegrityError, db)).
Proof.
  intros trade_id. split; [apply next_id_fresh|]. split.
  { intros j t0 Hj. apply max_key_bound in Hj. unfold trade_id, next_id. lia. }
  unfold trade_crud.create_trade, commit. cbv zeta.
  set (new := mkTrade _ _ _ _ _ _ _ _ _ _ _ _ _ _).
  split.
  - intros He Hq.
    assert (not_null (flush new) = true) as ->.
    { apply not_null_flush_iff. split; [done|].
      split; intros [= Hn]; [by apply He|by apply Hq]. }
    eexists _, _. split; [reflexivity|].
    unfold get_trade_by_id. cbn [trades portfolios]. fold trade_id.
    rewrite lookup_insert_eq.
    repeat split. intros j Hj. by rewrite lookup_insert_ne.
  - intros Hnan.
    assert (not_null (flush new) = false) as ->; [|done].
    destruct (not_null (flush new)) eqn:Hnn; [|done].
    apply not_null_flush_iff in Hnn as (_ & He & Hq).
    destruct Hnan as [Hnan|Hnan]; [destruct He|destruct Hq]; simpl; by rewrite Hnan.
Qed.

Lemma X1_witness :
  ∃ (t : Trade) (db' : DB),
    trade_crud.create_trade (sample.db_of sample.long_open)
      (sample.buy "INFY" (sample.f 2) 6) = (Ok (2, t), db') ∧
    trades db' !! 1 = Some sample.long_open.
Proof.
  destruct (X1_create_trade_fresh (sample.db_of sample.long_open)
              (sample.buy "INFY" (sample.f 2) 6)) as (_ & _ & Hok & _).
  destruct Hok as (t & db' & Hc & Hrest); [vm_compute; discriminate..|].
  exists t, db'. split; [exact Hc|].
  destruct Hrest as (_ & _ & _ & _ & _ & _ & _ & _ & _ & _ & _ & _ & Hother & _).
  rewrite Hother; [reflexivity|]. vm_compute. discriminate.
Defined.

(** A trade entered at price NaN is not stored. *)
Example create_trade_nan :
  trade_crud.create_trade sample.db_empty (sample.buy "TCS" nan 5) =
    (Raise IntegrityError, sample.db_empty).
Proof. vm_compute. reflexivity. Qed.

(** X2: [delete_trade] returns True exactly when the id is stored; the id is
    then gone and every other trade is kept; on an id that is not stored it
    returns False and changes nothing, so a second delete of the same id
    returns False. *)
Theorem X2_delete_trade (db : DB) (trade_id : Z) :
  let db' := (trade_crud.delete_trade db trade_id).2 in
  ((trade_crud.delete_trade db trade_id).1 = true ↔ is_Some (trades db !! trade_id)) ∧
  (trades db !! trade_id = None → db' = db) ∧
  get_trade_by_id db' trade_id = None ∧
  (∀ j : Z, j ≠ trade_id → trades db' !! j = trades db !! j) ∧
  portfolios db' = portfolios db ∧
  trade_crud.delete_trade db' trade_id = (false, db').
Proof.
  unfold trade_crud.delete_trade, get_trade_by_id.
  destruct (trades db !! trade_id) as [t|] eqn:Ht; simpl.
  - rewrite lookup_delete_eq.
    repeat split; eauto; try done; intros j Hj; by rewrite lookup_delete_ne.
  - rewrite Ht. repeat split; try done; by intros [? [=]].
Qed.

Lemma X2_witness :
  (trade_crud.delete_trade (sample.db_of sample.long_open) 2).2 =
    sample.db_of sample.long_open.
Proof.
  apply (X2_delete_trade (sample.db_of sample.long_open) 2). reflexivity.
Defined.

(** X3: deleting the trade that [create_trade] has just stored gives back the
    database as it was before the create; a create that stores nothing raises
    [IntegrityError] and leaves the database as it was. *)
Theorem X3_create_then_delete (db : DB) (c : TradeCreate) :
  match trade_crud.create_trade db c with
  | (Ok (trade_id, _), db') => trade_crud.delete_trade db' trade_id = (true, db)
  | (Raise e, db') => e = IntegrityError ∧ db' = db
  end.
Proof.
  unfold trade_crud.create_trade, commit. cbv zeta.
  destruct (not_null (flush _)); [|done].
  unfold trade_crud.delete_trade. cbn [fmap result_fmap trades portfolios].
  rewrite lookup_insert_eq, delete_insert_eq, (delete_id _ _ (next_id_fresh _)).
  by destruct db.
Qed.

(** ** What a request can commit *)

Lemma verify_portfolio_ownership_Ok (db : DB) (pid u : Z) (p : Portfolio) :
  verify_portfolio_ownership db pid u = Ok p →
  portfolios db !! pid = Some p ∧ user_id p = u.
Proof.
  unfold verify_portfolio_ownership, portfolio_crud.get_portfolio_by_id.
  destruct (portfolios db !! pid) as [p'|]; [|done].
  case_bool_decide as Hu; [done|]. intros [= ->].
  split; [done|]. by destruct (decide (user_id p = u)).
Qed.

Lemma crud_update_trade_commits (db : DB) (trade_id : Z) (upd : TradeUpdate) :
  (trade_crud.update_trade db trade_id upd).2 = db ∨
  ∃ t stored : Trade,
    trades db !! trade_id = Some t ∧
    (trade_crud.update_trade db trade_id upd).2 =
      mkDB (portfolios db) (<[trade_id := stored]> (trades db)) ∧
    stored_row stored ∧ pnl_of_fields stored ∧
    portfolio_id stored = portfolio_id t ∧
    screenshot_path stored = screenshot_path t.
Proof.
  destruct (trades db !! trade_id) as [t|] eqn:Ht.
  - rewrite (crud_update_trade_found db trade_id upd t Ht). cbv zeta.
    destruct (exit_price (setattrs t upd)) as [ex|] eqn:Hx.
    + destruct (calculate_profit_loss _) as [[pl pct]|e] eqn:Hcalc; [|by left].
      destruct (not_null (flush (setattrs t upd))) eqn:Hnn; [|by left].
      right. eexists t, _. split; [done|]. split; [reflexivity|].
      destruct (recomputed_row _ pl pct Hcalc ltac:(by rewrite Hx) Hnn)
        as (? & ? & ?).
      done.
    + destruct (not_null (flush (setattrs t upd))) eqn:Hnn; [|by left].
      right. eexists t, _. split; [done|]. split; [reflexivity|].
      split; [by apply stored_row_flush|]. split; [|done].
      intros [? Hs]. cbn [flush exit_price] in Hs. by rewrite Hx in Hs.
  - left. unfold trade_crud.update_trade. by rewrite Ht.
Qed.

Lemma crud_close_trade_commits (db : DB) (trade_id : Z) (tc : TradeClose) :
  (trade_crud.close_trade db trade_id tc).2 = db ∨
  ∃ t stored : Trade,
    trades db !! trade_id = Some t ∧
    (trade_crud.close_trade db trade_id tc).2 =
      mkDB (portfolios db) (<[trade_id := stored]> (trades db)) ∧
    stored_row stored ∧ pnl_of_fields stored ∧
    portfolio_id stored = portfolio_id t ∧
    screenshot_path stored = screenshot_path t.
Proof.
  destruct (trades db !! trade_id) as [t|] eqn:Ht.
  - rewrite (crud_close_trade_found db trade_id tc t Ht). cbv zeta.
    destruct (calculate_profit_loss _) as [[pl pct]|e] eqn:Hcalc; [|by left].
    destruct (not_null (flush t)) eqn:Hnn; [|by left].
    right. eexists t, _. split; [done|]. split; [reflexivity|].
    destruct (recomputed_row _ pl pct Hcalc ltac:(by eexists) Hnn)
      as (? & ? & ?).
    done.
  - left. unfold trade_crud.close_trade. by rewrite Ht.
Qed.

(** A request commits nothing, or one trade row of a portfolio of the
    requester, or removes one, or commits one portfolio row of the requester,
    or removes one together with its trades. *)
Lemma handle_cases (db : DB) (r : request) :
  handle db r = db ∨
  (∃ (trade_id : Z) (stored : Trade),
     handle db r = mkDB (portfolios db) (<[trade_id := stored]> (trades db)) ∧
     owned_by db (requester r) stored ∧
     stored_row stored ∧ pnl_of_fields stored ∧
     ((trades db !! trade_id = None ∧ screenshot_path stored = None) ∨
      ∃ t : Trade,
        trades db !! trade_id = Some t ∧
        portfolio_id stored = portfolio_id t ∧
        screenshot_path stored = screenshot_path t)) ∨
  (∃ (trade_id : Z) (t : Trade),
     trades db !! trade_id = Some t ∧ owned_by db (requester r) t ∧
     handle db r = mkDB (portfolios db) (delete trade_id (trades db))) ∨
  (∃ (pid : Z) (stored : Portfolio),
     handle db r = mkDB (<[pid := stored]> (portfolios db)) (trades db) ∧
     user_id stored = requester r ∧
     (portfolios db !! pid = None ∨
      ∃ p : Portfolio, portfolios db !! pid = Some p ∧ user_id p = requester r)) ∨
  (∃ (pid : Z) (p : Portfolio),
     portfolios db !! pid = Some p ∧ user_id p = requester r ∧
     handle db r =
       mkDB (delete pid (portfolios db))
            (filter (λ row : Z * Trade, portfolio_id row.2 ≠ pid) (trades db))).
Proof.
  destruct r as [[u c|u i upd|u i tc]|u i|u i ct ts ext|u pc|u pid upd|u pid];
    simpl.
  - unfold trades_router.create_trade.
    destruct (verify_portfolio_ownership _ _ _) as [p|] eqn:Hp; [|by left].
    apply verify_portfolio_ownership_Ok in Hp as [Hp Hu].
    unfold trade_crud.create_trade, commit. cbv zeta.
    destruct (not_null (flush _)) eqn:Hnn; [|by left].
    right. left. eexists _, _. split; [reflexivity|].
    split; [by exists p|]. split; [by apply stored_row_flush|].
    split; [by intros [? [=]]|].
    left. split; [apply next_id_fresh|done].
  - unfold trades_router.update_trade, get_trade_by_id.
    destruct (trades db !! i) as [t|] eqn:Ht; [|by left].
    destruct (verify_portfolio_ownership _ _ _) as [p|] eqn:Hp; [|by left].
    apply verify_portfolio_ownership_Ok in Hp as [Hp Hu].
    destruct (crud_update_trade_commits db i upd)
      as [->|(t' & stored & Ht' & -> & Hnn & Hex & Hpid & Hshot)]; [by left|].
    rewrite Ht in Ht'. injection Ht' as <-.
    right. left. exists i, stored. split; [done|].
    split; [exists p; by rewrite Hpid|]. split; [done|]. split; [done|].
    right. exists t. eauto.
  - unfold trades_router.close_trade, get_trade_by_id.
    destruct (trades db !! i) as [t|] eqn:Ht; [|by left].
    destruct (verify_portfolio_ownership _ _ _) as [p|] eqn:Hp; [|by left].
    apply verify_portfolio_ownership_Ok in Hp as [Hp Hu].
    case_bool_decide; [by left|].
    destruct (crud_close_trade_commits db i tc)
      as [->|(t' & stored & Ht' & -> & Hnn & Hex & Hpid & Hshot)]; [by left|].
    rewrite Ht in Ht'. injection Ht' as <-.
    right. left. exists i, stored. split; [done|].
    split; [exists p; by rewrite Hpid|]. split; [done|]. split; [done|].
    right. exists t. eauto.
  - unfold trades_router.delete_trade, get_trade_by_id.
    destruct (trades db !! i) as [t|] eqn:Ht; [|by left].
    destruct (verify_portfolio_ownership _ _ _) as [p|] eqn:Hp; [|by left].
    apply verify_portfolio_ownership_Ok in Hp as [Hp Hu].
    right. right. left. exists i, t. split; [done|]. split; [by exists p|].
    simpl. unfold trade_crud.delete_trade. by rewrite Ht.
  - unfold trades_router.upload_screenshot, get_trade_by_id.
    destruct (trades db !! i) as [t|] eqn:Ht; [|by left].
    destruct (verify_portfolio_ownership _ _ _) as [p|] eqn:Hp; [|by left].
    apply verify_portfolio_ownership_Ok in Hp as [Hp Hu].
    case_bool_decide; [by left|].
    destruct (trade_crud.update_trade db i trades_router.screenshot_update)
      as [res db'] eqn:Hupd. simpl.
    destruct (crud_update_trade_commits db i trades_router.screenshot_update)
      as [Hsame|(t' & stored & Ht' & Hdb & Hnn & Hex & Hpid & Hshot)];
      rewrite Hupd in *; simpl in *; [by left|].
    rewrite Ht in Ht'. injection Ht' as <-.
    right. left. exists i, stored. split; [done|].
    split; [exists p; by rewrite Hpid|]. split; [done|]. split; [done|].
    right. exists t. eauto.
  - right. right. right. left. eexists _, _. split; [reflexivity|].
    split; [done|]. left. apply next_portfolio_id_fresh.
  - unfold portfolios_router.update_portfolio, portfolio_crud.get_portfolio_by_id,
      portfolio_crud.update_portfolio.
    destruct (portfolios db !! pid) as [p|] eqn:Hp; [|by left].
    case_bool_decide as Hu; [by left|].
    destruct (setattr _ _) as [name'|]; [|by left].
    right. right. right. left. eexists _, _. split; [reflexivity|].
    assert (user_id p = u) by (by destruct (decide (user_id p = u))).
    split; [done|]. right. by exists p.
  - unfold portfolios_router.delete_portfolio, portfolio_crud.get_portfolio_by_id,
      portfolio_crud.delete_portfolio.
    destruct (portfolios db !! pid) as [p|] eqn:Hp; [|by left].
    case_bool_decide as Hu; [by left|]. simpl.
    assert (user_id p = u) by (by destruct (decide (user_id p = u))).
    right. right. right. right. by exists pid, p.
Qed.

(** ** Invariants of the stored data *)

Lemma handle_no_orphans (db : DB) (r : request) :
  no_orphans db → no_orphans (handle db r).
Proof.
  intros Hdb.
  destruct (handle_cases db r)
    as [->|[(i & stored & -> & (p & Hp & _) & _)|[(i & t & _ & _ & ->)|
        [(pid & stored & -> & _)|(pid & p & Hp & _ & ->)]]]]; [done|..];
    intros j t' Hj; simpl in *.
  - destruct (decide (i = j)) as [->|Hne].
    + rewrite lookup_insert_eq in Hj. injection Hj as <-. by eexists.
    + rewrite lookup_insert_ne in Hj by done. by apply (Hdb j).
  - apply lookup_delete_Some in Hj as [_ Hj]. by apply (Hdb j).
  - destruct (decide (pid = portfolio_id t')) as [->|Hne].
    + rewrite lookup_insert_eq. by eexists.
    + rewrite lookup_insert_ne by done. by apply (Hdb j).
  - apply map_lookup_filter_Some in Hj as [Hj Hne]. simpl in Hne.
    rewrite lookup_delete_ne by done. by apply (Hdb j).
Qed.

(** X4: no request leaves a trade without its portfolio: if every stored
    trade belongs to a stored portfolio, the same holds after any sequence of
    requests. *)
Theorem X4_no_orphans (db : DB) (rs : list request) :
  no_orphans db → no_orphans (serve db rs).
Proof.
  revert db. induction rs as [|r rs IH]; intros db Hdb; [done|].
  apply IH. by apply handle_no_orphans.
Qed.

Lemma X4_witness :
  no_orphans
    (serve empty_db
       [CreatePortfolio 7 (mkPortfolioCreate "swing" None (sample.f 0));
        TradeRequest (Create 7 (sample.buy "TCS" (sample.f 1) 1));
        DeletePortfolio 7 1]).
Proof.
  apply X4_no_orphans. intros i t Hi. discriminate Hi.
Defined.

Lemma handle_map_Forall (P : Trade → Prop) (db : DB) (r : request) :
  (∀ (trade_id : Z) (stored : Trade),
     handle db r = mkDB (portfolios db) (<[trade_id := stored]> (trades db)) →
     stored_row stored → pnl_of_fields stored →
     (trades db !! trade_id = None ∧ screenshot_path stored = None) ∨
     (∃ t : Trade, trades db !! trade_id = Some t ∧
                   screenshot_path stored = screenshot_path t) →
     P stored) →
  map_Forall (λ _, P) (trades db) →
  map_Forall (λ _, P) (trades (handle db r)).
Proof.
  intros Hstored Hdb.
  destruct (handle_cases db r)
    as [->|[(i & stored & Hh & _ & Hnn & Hex & Hold)|[(i & t & _ & _ & ->)|
        [(pid & stored & -> & _)|(pid & p & Hp & _ & ->)]]]]; [done|..].
  - rewrite Hh. simpl. apply map_Forall_insert_2; [|done].
    apply (Hstored i); [done..|].
    destruct Hold as [?|(t & ? & _ & ?)]; [by left|right; by exists t].
  - simpl. by apply map_Forall_delete.
  - done.
  - simpl. intros j t Hj. apply map_lookup_filter_Some in Hj as [Hj _].
    by apply (Hdb j).
Qed.

(** X5: every stored trade is a row as SQLite holds it, with all its
    [nullable=False] columns set and no NaN, and when it has an exit price it
    carries the derived pair that the calculator computes from its fields, a
    NaN of the pair stored as null: if that holds of a database, it holds
    after any sequence of trade and portfolio requests. *)
Theorem X5_stored_trades_well_formed (db : DB) (rs : list request) :
  map_Forall (λ _ t, stored_row t ∧ pnl_of_fields t) (trades db) →
  map_Forall (λ _ t, stored_row t ∧ pnl_of_fields t) (trades (serve db rs)).
Proof.
  revert db. induction rs as [|r rs IH]; intros db Hdb; [done|].
  apply IH. apply handle_map_Forall; [|done]. by intros.
Qed.

Lemma X5_witness :
  map_Forall (λ _ t, stored_row t ∧ pnl_of_fields t)
    (trades (serve (sample.db_of sample.huge_open)
               [TradeRequest (Close sample.owner 1 (sample.close_at (sample.f 1)));
                TradeRequest (Edit sample.owner 1 sample.null_exit_price)])).
Proof.
  apply X5_stored_trades_well_formed.
  apply map_Forall_singleton. split; [split; vm_compute; reflexivity|].
  intros [? [=]].
Defined.

(** X6: no request stores a screenshot path.  A successful upload answers
    with the path of the file and leaves the trade's [screenshot_path] as it
    was; if no stored trade has a screenshot path, none has one after any
    sequence of requests. *)
Theorem X6_screenshot_path_never_stored (db : DB) :
  (∀ (u trade_id : Z) (ct : option string) (ts ext : string) (t t' : Trade),
     trades db !! trade_id = Some t →
     trades (trades_router.upload_screenshot db u trade_id ct ts ext).2
       !! trade_id = Some t' →
     screenshot_path t' = screenshot_path t) ∧
  (∀ rs : list request,
     map_Forall (λ _ t, screenshot_path t = None) (trades db) →
     map_Forall (λ _ t, screenshot_path t = None) (trades (serve db rs))).
Proof.
  split.
  - intros u i ct ts ext t t' Ht Ht'.
    pose proof (handle_cases db (UploadScreenshot u i ct ts ext)) as Hc.
    simpl in Hc.
    destruct Hc as [Hc|[(j & stored & Hc & _ & _ & _ & Hold)|
                   [(j & t0 & _ & _ & Hc)|
                   [(pid & stored & Hc & _)|(pid & p & _ & _ & Hc)]]]];
      rewrite Hc in Ht'; simpl in Ht'.
    + congruence.
    + destruct (decide (j = i)) as [->|Hne].
      * rewrite lookup_insert_eq in Ht'. injection Ht' as <-.
        destruct Hold as [[Hn _]|(t0 & Ht0 & _ & Hs)]; congruence.
      * rewrite lookup_insert_ne in Ht' by done. congruence.
    + apply lookup_delete_Some in Ht' as [_ Ht']. congruence.
    + congruence.
    + apply map_lookup_filter_Some in Ht' as [Ht' _]. congruence.
  - intros rs. revert db. induction rs as [|r rs IH]; intros db Hdb; [done|].
    apply IH. apply handle_map_Forall; [|done].
    intros i stored _ _ _ [[_ Hs]|(t & Ht & Hs)]; [done|].
    rewrite Hs. by apply (Hdb i).
Qed.

Lemma X6_witness :
  (trades_router.upload_screenshot (sample.db_of sample.long_open) sample.owner 1
     (Some "image/png") "20240101_120000" ".png").1 =
    Ok ("trade_1_20240101_120000.png",
        "uploads/screenshots/trade_1_20240101_120000.png") ∧
  screenshot_path <$>
    trades (trades_router.upload_screenshot (sample.db_of sample.long_open)
              sample.owner 1 (Some "image/png") "20240101_120000" ".png").2 !! 1 =
    Some None.
Proof.
  split; [reflexivity|].
  destruct (trades (trades_router.upload_screenshot
                      (sample.db_of sample.long_open) sample.owner 1
                      (Some "image/png") "20240101_120000" ".png").2 !! 1)
    as [t'|] eqn:Ht'; [|discriminate Ht'].
  simpl. f_equal.
  apply (proj1 (X6_screenshot_path_never_stored (sample.db_of sample.long_open))
           sample.owner 1 (Some "image/png") "20240101_120000" ".png"
           sample.long_open t' eq_refl Ht').
Defined.

(** ** Isolation between users *)



(** ** Edits *)

Lemma setattr_idem {A} (old : option A) (new : field A) :
  setattr (setattr old new) new = setattr old new.
Proof. by destruct new. Qed.

Lemma setattrs_idem (t : Trade) (upd : TradeUpdate) :
  setattrs (setattrs t upd) upd = setattrs t upd.
Proof. unfold setattrs. simpl. by rewrite !setattr_idem. Qed.

Lemma sqlite_real_setattr (x : option float) (u : field float) :
  sqlite_real (setattr (sqlite_real (setattr x u)) u) = sqlite_real (setattr x u).
Proof. destruct u as [v|]; simpl; [done|apply sqlite_real_idem]. Qed.

(** Assigning the same fields to the row that was written gives an object
    for which the same row is written. *)
Lemma flush_setattrs_flush (t : Trade) (upd : TradeUpdate) (a b : option float) :
  flush (setattrs (flush (set_profit_loss (setattrs t upd) a b)) upd) =
  flush (set_profit_loss (setattrs t upd) a b).
Proof.
  unfold flush, setattrs, set_profit_loss.
  cbn [portfolio_id symbol trade_type status entry_price entry_date quantity
       exit_price exit_date profit_loss profit_loss_percentage notes tags
       screenshot_path].
  by rewrite !sqlite_real_setattr, !setattr_idem, !sqlite_real_idem.
Qed.

Lemma flush_set_profit_loss (t : Trade) (a b : option float) :
  flush (set_profit_loss t a b) =
  set_profit_loss (flush t) (sqlite_real a) (sqlite_real b).
Proof. reflexivity. Qed.

(** X8: an edit is idempotent: sending the same update a second time returns
    what the first returned and leaves the database as the first left it. *)
Theorem X8_update_trade_idempotent (db : DB) (trade_id : Z) (upd : TradeUpdate) :
  trade_crud.update_trade (trade_crud.update_trade db trade_id upd).2 trade_id upd =
  trade_crud.update_trade db trade_id upd.
Proof.
  destruct (trades db !! trade_id) as [t|] eqn:Ht.
  2:{ unfold trade_crud.update_trade. rewrite Ht. simpl. by rewrite Ht. }
  rewrite (crud_update_trade_found db trade_id upd t Ht). cbv zeta.
  destruct (exit_price (setattrs t upd)) as [ex|] eqn:Hx.
  - destruct (calculate_profit_loss (setattrs t upd)) as [[pl pct]|e] eqn:Hc.
    2:{ cbn [snd]. rewrite (crud_update_trade_found db trade_id upd t Ht). cbv zeta.
        by rewrite Hx, Hc. }
    destruct (not_null (flush (setattrs t upd))) eqn:Hnn.
    2:{ cbn [snd]. rewrite (crud_update_trade_found db trade_id upd t Ht). cbv zeta.
        by rewrite Hx, Hc, Hnn. }
    cbn [snd].
    set (S1 := flush (set_profit_loss (setattrs t upd) (Some pl) (Some pct))).
    erewrite crud_update_trade_found by (cbn [trades]; apply lookup_insert_eq).
    cbv zeta.
    assert (flush (setattrs S1 upd) = S1) as HF2 by apply flush_setattrs_flush.
    assert (not_null (flush (setattrs S1 upd)) = true) as Hnn2 by by rewrite HF2.
    rewrite Hnn2. cbn [portfolios trades].
    destruct (exit_price (setattrs S1 upd)) as [ex2|] eqn:Hx2.
    + pose proof Hnn as Hnn1.
      apply not_null_prices in Hnn1 as [[e' He'] [q' Hq']].
      cbn [flush entry_price quantity] in He', Hq'.
      apply sqlite_real_is_Some in He' as (e & He & _).
      apply sqlite_real_is_Some in Hq' as (q & Hq & _).
      pose proof Hnn2 as Hnn3.
      apply not_null_prices in Hnn3 as [[e2' He2'] [q2' Hq2']].
      cbn [flush entry_price quantity] in He2', Hq2'.
      apply sqlite_real_is_Some in He2' as (e2 & He2 & _).
      apply sqlite_real_is_Some in Hq2' as (q2 & Hq2 & _).
      assert (same_stored ex2 ex ∧ same_stored e2 e ∧ same_stored q2 q ∧
              trade_type (setattrs S1 upd) = trade_type (setattrs t upd))
        as (Hsx & Hse & Hsq & Htt).
      { pose proof (f_equal exit_price HF2) as H1.
        pose proof (f_equal entry_price HF2) as H2.
        pose proof (f_equal quantity HF2) as H3.
        pose proof (f_equal trade_type HF2) as H4.
        cbn [flush S1 set_profit_loss exit_price entry_price quantity trade_type]
          in H1, H2, H3, H4.
        rewrite Hx2, Hx in H1. rewrite He2, He in H2. rewrite Hq2, Hq in H3.
        done. }
      destruct (calculate_profit_loss_same_stored (setattrs t upd) (setattrs S1 upd)
                  ex e q ex2 e2 q2 pl pct Hx He Hq Hx2 He2 Hq2 Htt Hsx Hse Hsq Hc)
        as (pl2 & pct2 & -> & Hpl & Hpct).
      rewrite flush_set_profit_loss, HF2, Hpl, Hpct.
      change (set_profit_loss S1 (sqlite_real (Some pl)) (sqlite_real (Some pct)))
        with S1.
      by rewrite insert_insert_eq.
    + rewrite HF2. by rewrite insert_insert_eq.
  - destruct (not_null (flush (setattrs t upd))) eqn:Hnn.
    2:{ cbn [snd]. rewrite (crud_update_trade_found db trade_id upd t Ht). cbv zeta.
        by rewrite Hx, Hnn. }
    cbn [snd].
    set (S1 := flush (setattrs t upd)) in *.
    erewrite crud_update_trade_found by (cbn [trades]; apply lookup_insert_eq).
    cbv zeta.
    assert (flush (setattrs S1 upd) = S1) as HF2.
    { apply (flush_setattrs_flush t upd (profit_loss t) (profit_loss_percentage t)). }
    assert (exit_price (setattrs S1 upd) = None) as ->.
    { revert Hx. unfold S1, setattrs, flush. cbn [exit_price].
      destruct (u_exit_price upd) as [v|]; simpl; [done|]. by intros ->. }
    rewrite HF2, Hnn. cbn [portfolios trades].
    by rewrite insert_insert_eq.
Qed.

Lemma calculate_profit_loss_raises (t : Trade) (e : exn) :
  calculate_profit_loss t = Raise e → e = TypeError ∨ e = ZeroDivisionError.
Proof.
  unfold calculate_profit_loss.
  destruct (exit_price t) as [ex|]; [|done].
  destruct (entry_price t) as [en|], (quantity t) as [q|];
    destruct (is_long (trade_type t)); simpl;
    try (intros [= <-]; by left).
  all: destruct (feqb (fmul en q) fzero); simpl; intros [= <-]; by right.
Qed.

(** X9: an edit that assigns null to a [nullable=False] column never commits:
    it raises and the database stays as it was.  The exception is
    [IntegrityError] when the trade has no exit price after the assignments,
    [TypeError] when it has one and entry_price or quantity is null, and
    otherwise whatever the calculator or the flush raises. *)
Theorem X9_null_in_required_column (db : DB) (trade_id : Z) (upd : TradeUpdate)
    (t : Trade) :
  trades db !! trade_id = Some t →
  not_null (setattrs t upd) = false →
  (∃ e : exn,
     trade_crud.update_trade db trade_id upd = (Raise e, db) ∧
     (e = TypeError ∨ e = ZeroDivisionError ∨ e = IntegrityError)) ∧
  (exit_price (setattrs t upd) = None →
     trade_crud.update_trade db trade_id upd = (Raise IntegrityError, db)) ∧
  (is_Some (exit_price (setattrs t upd)) →
   entry_price (setattrs t upd) = None ∨ quantity (setattrs t upd) = None →
     trade_crud.update_trade db trade_id upd = (Raise TypeError, db)).
Proof.
  intros Ht Hnn0.
  assert (not_null (flush (setattrs t upd)) = false) as Hnn.
  { destruct (not_null (flush _)) eqn:H; [|done].
    apply not_null_flush_iff in H as [H _]. congruence. }
  rewrite (crud_update_trade_found db trade_id upd t Ht). cbv zeta.
  rewrite Hnn. split; [|split].
  - destruct (exit_price (setattrs t upd)) as [ex|]; [|eauto 6].
    destruct (calculate_profit_loss (setattrs t upd)) as [[pl pct]|e] eqn:Hc;
      [eauto 6|].
    apply calculate_profit_loss_raises in Hc as [->| ->]; eauto 6.
  - by intros ->.
  - intros [ex Hx] Hnull. rewrite Hx.
    unfold calculate_profit_loss. rewrite Hx.
    destruct (entry_price (setattrs t upd)) as [en|],
      (quantity (setattrs t upd)) as [q|];
      [by destruct Hnull|..]; by destruct (is_long _).
Qed.

Lemma X9_witness :
  trade_crud.update_trade (sample.db_of sample.long_closed) 1
      (mkTradeUpdate None None (Some None) None None None None None None None) =
    (Raise TypeError, sample.db_of sample.long_closed) ∧
  trade_crud.update_trade (sample.db_of sample.long_open) 1
      (mkTradeUpdate (Some None) None None None None None None None None None) =
    (Raise IntegrityError, sample.db_of sample.long_open).
Proof.
  split.
  - apply (X9_null_in_required_column (sample.db_of sample.long_closed) 1
             (mkTradeUpdate None None (Some None) None None None None None None None)
             sample.long_closed eq_refl eq_refl).
    + by eexists.
    + by left.
  - apply (X9_null_in_required_column (sample.db_of sample.long_open) 1
             (mkTradeUpdate (Some None) None None None None None None None None None)
             sample.long_open eq_refl eq_refl).
    reflexivity.
Defined.

(** An edit that assigns NaN to entry_price is refused in the same way: the
    NaN is a NULL to SQLite. *)
Example edit_entry_price_nan :
  trade_crud.update_trade (sample.db_of sample.long_open) 1
      (mkTradeUpdate None None (Some (Some nan)) None None None None None None None) =
    (Raise IntegrityError, sample.db_of sample.long_open).
Proof. vm_compute. reflexivity. Qed.

(** ** Portfolios *)

Lemma elem_of_scan_portfolios (table : gmap Z Portfolio) (pid : Z) (p : Portfolio) :
  (pid, p) ∈ portfolio_crud.scan_portfolios table ↔ table !! pid = Some p.
Proof.
  unfold portfolio_crud.scan_portfolios.
  rewrite merge_sort_Permutation. apply elem_of_map_to_list.
Qed.

Lemma get_portfolio_Ok (db : DB) (u pid : Z) (p : Portfolio) :
  portfolios_router.get_portfolio db u pid = Ok p ↔
  portfolios db !! pid = Some p ∧ user_id p = u.
Proof.
  unfold portfolios_router.get_portfolio, portfolio_crud.get_portfolio_by_id.
  destruct (portfolios db !! pid) as [p'|].
  - case_bool_decide as Hu.
    + split; [done|]. intros [[= ->] ?]. done.
    + assert (user_id p' = u) as Hu' by (by destruct (decide (user_id p' = u))).
      split.
      * by intros [= ->].
      * by intros [[= ->] _].
  - split; [done|]. by intros [? _].
Qed.

(** X10: the portfolios that [get_my_portfolios] lists for a user are exactly
    those that [get_portfolio] lets the user read, each listed once. *)
Theorem X10_listed_iff_readable (db : DB) (u : Z) :
  NoDup (portfolios_router.get_my_portfolios db u) ∧
  ∀ (pid : Z) (p : Portfolio),
    (pid, p) ∈ portfolios_router.get_my_portfolios db u ↔
    portfolios_router.get_portfolio db u pid = Ok p.
Proof.
  unfold portfolios_router.get_my_portfolios, portfolio_crud.get_user_portfolios.
  split.
  - apply NoDup_filter. unfold portfolio_crud.scan_portfolios.
    rewrite merge_sort_Permutation. apply NoDup_map_to_list.
  - intros pid p.
    rewrite list_elem_of_filter, elem_of_scan_portfolios, get_portfolio_Ok.
    simpl. tauto.
Qed.

(** X11: [create_portfolio] stores the portfolio under an id that no
    portfolio had, with the requester as owner and the balance given as the
    REAL column holds it (a NaN as NULL); the owner can read it back and finds
    it in the list, and no other portfolio and no trade changes. *)
Theorem X11_create_portfolio (db : DB) (u : Z) (pc : PortfolioCreate) :
  let pid := (portfolios_router.create_portfolio db u pc).1.1 in
  let p := (portfolios_router.create_portfolio db u pc).1.2 in
  let db' := (portfolios_router.create_portfolio db u pc).2 in
  portfolios db !! pid = None ∧
  user_id p = u ∧ name p = pc_name pc ∧
  initial_balance p = sqlite_real (Some (pc_initial_balance pc)) ∧
  portfolios_router.get_portfolio db' u pid = Ok p ∧
  (pid, p) ∈ portfolios_router.get_my_portfolios db' u ∧
  (∀ j : Z, j ≠ pid → portfolios db' !! j = portfolios db !! j) ∧
  trades db' = trades db.
Proof.
  intros pid p db'.
  assert (portfolios_router.get_portfolio db' u pid = Ok p) as Hget.
  { apply get_portfolio_Ok. split; [|done]. apply lookup_insert_eq. }
  split; [apply next_portfolio_id_fresh|].
  repeat split; try done.
  - by apply X10_listed_iff_readable.
  - intros j Hj. unfold db'. simpl. by rewrite lookup_insert_ne.
Qed.

Lemma X11_witness :
  portfolios (portfolios_router.create_portfolio sample.db_empty 8
                (mkPortfolioCreate "day" None (sample.f 0))).2 !! 1 =
    Some sample.portfolio1.
Proof.
  destruct (X11_create_portfolio sample.db_empty 8
              (mkPortfolioCreate "day" None (sample.f 0)))
    as (_ & _ & _ & _ & _ & _ & Hother & _).
  rewrite Hother; [reflexivity|]. vm_compute. discriminate.
Defined.

(** X12: [update_portfolio] never changes the owner or any trade.  A field
    that the update does not supply keeps its value and a supplied one takes
    the supplied value, the balance as the REAL column holds it; a null
    [name] raises [IntegrityError] and changes nothing. *)
Theorem X12_update_portfolio (db : DB) (pid : Z) (upd : PortfolioUpdate)
    (p : Portfolio) :
  portfolios db !! pid = Some p →
  (pu_name upd = Some None →
     portfolio_crud.update_portfolio db pid upd = (Raise IntegrityError, db)) ∧
  (pu_name upd ≠ Some None →
     ∃ p' : Portfolio,
       portfolio_crud.update_portfolio db pid upd =
         (Ok (Some p'), mkDB (<[pid := p']> (portfolios db)) (trades db)) ∧
       user_id p' = user_id p ∧
       (pu_name upd = None → name p' = name p) ∧
       (∀ v, pu_name upd = Some (Some v) → name p' = v) ∧
       (pu_description upd = None → description p' = description p) ∧
       (∀ v, pu_description upd = Some v → description p' = v) ∧
       (pu_initial_balance upd = None → initial_balance p' = initial_balance p) ∧
       (∀ v, pu_initial_balance upd = Some v →
          initial_balance p' = sqlite_real v)).
Proof.
  intros Hp. unfold portfolio_crud.update_portfolio. rewrite Hp.
  split.
  - by intros ->.
  - intros Hname.
    destruct (pu_name upd) as [[v|]|] eqn:Hn; [|done|]; simpl;
      eexists; (split; [reflexivity|]); simpl;
      repeat split; try done; try (by intros ->); try (by intros ? ->);
      by intros ? [= ->].
Qed.

Lemma X12_witness :
  portfolio_crud.update_portfolio (sample.db_of sample.long_open) 1
      (mkPortfolioUpdate (Some None) None None) =
    (Raise IntegrityError, sample.db_of sample.long_open) ∧
  ∃ p' : Portfolio,
    (portfolio_crud.update_portfolio (sample.db_of sample.long_open) 1
       (mkPortfolioUpdate None (Some (Some "notes")) None)).1 = Ok (Some p') ∧
    user_id p' = sample.owner.
Proof.
  split.
  - apply (X12_update_portfolio (sample.db_of sample.long_open) 1
             (mkPortfolioUpdate (Some None) None None) sample.portfolio1 eq_refl).
    reflexivity.
  - destruct (proj2 (X12_update_portfolio (sample.db_of sample.long_open) 1
                       (mkPortfolioUpdate None (Some (Some "notes")) None)
                       sample.portfolio1 eq_refl))
      as (p' & Hupd & Hu & _); [discriminate|].
    exists p'. rewrite Hupd. split; [reflexivity|exact Hu].
Defined.



(** ** Reopening through an edit *)

(** X14: CLOSED is not terminal.  A close request on a CLOSED trade is refused,
    but after the owner's edit [{"status": "open"}] the same close request is
    accepted: it stores the new exit price and exit date over the old ones and
    sets the status to CLOSED again. *)
Theorem X14_reopen_then_close (db : DB) (u trade_id : Z) (tc : TradeClose)
    (t : Trade) (p : Portfolio) (e q : float) :
  trades db !! trade_id = Some t →
  verify_portfolio_ownership db (portfolio_id t) u = Ok p →
  status t = Some CLOSED → stored_row t →
  entry_price t = Some e → quantity t = Some q → feqb (fmul e q) fzero = false →
  let db1 := (trades_router.update_trade db u trade_id sample.reopen).2 in
  trades_router.close_trade db u trade_id tc =
    (Raise (HTTPException HTTP_400_BAD_REQUEST "Trade is already closed"), db) ∧
  (status <$> trades db1 !! trade_id) = Some (Some OPEN) ∧
  ∃ closed : Trade,
    (trades_router.close_trade db1 u trade_id tc).1 = Ok (Some closed) ∧
    trades (trades_router.close_trade db1 u trade_id tc).2 !! trade_id =
      Some closed ∧
    exit_price closed = sqlite_real (Some (x_exit_price tc)) ∧
    exit_date closed = Some (x_exit_date tc) ∧
    status closed = Some CLOSED.
Proof.
  intros Ht Hp Hs [Hfl Hnn] He Hq Hne db1.
  split.
  { rewrite (router_close_trade_authorised db u trade_id tc t p Ht Hp).
    by rewrite bool_decide_eq_true_2. }
  assert (sqlite_real (Some e) = Some e) as Hse.
  { rewrite <- He. exact (f_equal entry_price Hfl). }
  assert (sqlite_real (Some q) = Some q) as Hsq.
  { rewrite <- Hq. exact (f_equal quantity Hfl). }
  assert (not_null (flush (setattrs t sample.reopen)) = true) as Hnn1.
  { change (not_null (flush (setattrs t sample.reopen))) with (not_null (flush t)).
    by rewrite Hfl. }
  assert (∃ t1 : Trade,
            db1 = mkDB (portfolios db) (<[trade_id := t1]> (trades db)) ∧
            status t1 = Some OPEN ∧ stored_row t1 ∧
            entry_price t1 = Some e ∧ quantity t1 = Some q ∧
            portfolio_id t1 = portfolio_id t)
    as (t1 & Hdb1 & Hs1 & Hst1 & He1 & Hq1 & Hpid1).
  { unfold db1.
    rewrite (router_update_trade_authorised db u trade_id _ t p Ht Hp).
    rewrite (crud_update_trade_found db trade_id _ t Ht). cbv zeta.
    rewrite Hnn1.
    destruct (exit_price (setattrs t sample.reopen)) as [ex|] eqn:Hx.
    - rewrite (calculate_profit_loss_exited _ ex e q Hx He Hq).
      cbv zeta. rewrite Hne.
      eexists. split; [reflexivity|]. split; [done|].
      split; [by apply stored_row_flush|].
      cbn [flush set_profit_loss setattrs setattr sample.reopen entry_price quantity
           portfolio_id u_entry_price u_quantity].
      by rewrite He, Hq, Hse, Hsq.
    - eexists. split; [reflexivity|]. split; [done|].
      split; [by apply stored_row_flush|].
      cbn [flush setattrs setattr sample.reopen entry_price quantity
           portfolio_id u_entry_price u_quantity].
      by rewrite He, Hq, Hse, Hsq. }
  rewrite Hdb1. cbn [trades]. rewrite lookup_insert_eq.
  split; [by rewrite <- Hs1|].
  assert (verify_portfolio_ownership
            (mkDB (portfolios db) (<[trade_id := t1]> (trades db)))
            (portfolio_id t1) u = Ok p) as Hp1 by (by rewrite Hpid1).
  rewrite (router_close_trade_authorised _ u trade_id tc t1 p
             (lookup_insert_eq _ _ _) Hp1).
  rewrite bool_decide_eq_false_2 by (rewrite Hs1; discriminate).
  rewrite (crud_close_trade_found _ trade_id tc t1 (lookup_insert_eq _ _ _)).
  cbv zeta.
  rewrite (calculate_profit_loss_exited _ (x_exit_price tc) e q) by done.
  cbv zeta. rewrite Hne, (stored_row_not_null_flush t1 Hst1).
  cbn [fst snd trades].
  eexists. split; [reflexivity|]. rewrite lookup_insert_eq. by repeat split.
Qed.

Lemma X14_witness :
  ∃ closed : Trade,
    (trades_router.close_trade
       (trades_router.update_trade (sample.db_of sample.long_closed)
          sample.owner 1 sample.reopen).2
       sample.owner 1 (sample.close_at (sample.f 130))).1 = Ok (Some closed) ∧
    exit_price closed = Some (sample.f 130).
Proof.
  destruct (X14_reopen_then_close (sample.db_of sample.long_closed) sample.owner 1
              (sample.close_at (sample.f 130)) sample.long_closed sample.portfolio1
              (sample.f 100) (sample.f 10) eq_refl eq_refl eq_refl)
    as (_ & _ & closed & Hres & _ & Hx & _).
  - split; vm_compute; reflexivity.
  - reflexivity.
  - reflexivity.
  - vm_compute. reflexivity.
  - exists closed. split; [exact Hres|]. rewrite Hx. vm_compute. reflexivity.
Defined.

(** ** Analytics: the empty state *)

Lemma portfolio_analytics_total_trades (alg : sum_algorithm) (pid : Z)
    (p : Portfolio) (closed : list (Z * Trade)) (a : PortfolioAnalytics) :
  portfolio_analytics alg pid p closed = Ok a →
  total_trades a = length closed ∧
  total_wins a = length (List.filter is_winning closed) ∧
  total_losses a = length (List.filter is_losing closed) ∧
  (closed = [] → best_trade a = None ∧ worst_trade a = None) ∧
  (∀ first rest, closed = first :: rest →
     best_trade a = Some (summary (max_from first rest)) ∧
     worst_trade a = Some (summary (min_from first rest))).
Proof.
  intros Ha.
  assert (Forall (λ row, is_Some (profit_loss row.2)) closed ∨
          Exists (λ row, profit_loss row.2 = None) closed) as [Hall|Hex].
  { clear Ha. induction closed as [|row rows [IH|IH]].
    - left. constructor.
    - destruct (profit_loss row.2) as [v|] eqn:Hv.
      + left. constructor; [by eexists|done].
      + right. by left.
    - right. by right. }
  - destruct closed as [|first rest].
    + injection Ha as <-. by repeat split.
    + destruct (portfolio_analytics_returns alg pid p first rest Hall)
        as (win_sum & loss_sum & _ & _ & Hagg).
      rewrite Hagg in Ha. injection Ha as <-.
      split; [done|]. split; [done|]. split; [done|]. split; [done|].
      by intros ? ? [= <- <-].
  - by rewrite (portfolio_analytics_null alg pid p closed Hex) in Ha.
Qed.

Lemma analytics_by_symbol_nil (closed : list (Z * Trade)) :
  analytics_by_symbol closed = Ok [] ↔ closed = [].
Proof.
  split; [|by intros ->].
  intros Hnil.
  destruct (analytics_by_symbol_returns closed) as (groups & Hgroups & HF).
  rewrite Hnil in Hgroups. injection Hgroups as <-.
  apply Forall2_nil_inv_r in HF.
  pose proof (fold_add_trade_total closed []) as Htot.
  rewrite HF in Htot. simpl in Htot. by destruct closed.
Qed.

(** X15: for the owner of a portfolio without closed trades the aggregate
    analytics are the zero record, without best and worst trade, and the
    per-symbol breakdown is empty; conversely an empty breakdown, or an
    aggregate with total_trades = 0, means that no trade of the portfolio is
    closed. *)
Theorem X15_empty_state (alg : sum_algorithm) (db : DB) (u pid : Z) (p : Portfolio) :
  verify_portfolio_ownership db pid u = Ok p →
  (closed_trades db pid = [] →
     get_portfolio_analytics alg db u pid =
       Ok (mkPortfolioAnalytics pid (name p) 0 (Float fzero) (Float fzero)
             (Float fzero) None None 0 0 (Float fzero) (Float fzero) (Float fzero)) ∧
     get_analytics_by_symbol db u pid = Ok []) ∧
  (get_analytics_by_symbol db u pid = Ok [] → closed_trades db pid = []) ∧
  (∀ a : PortfolioAnalytics,
     get_portfolio_analytics alg db u pid = Ok a → total_trades a = 0%nat →
     closed_trades db pid = [] ∧ best_trade a = None ∧ worst_trade a = None).
Proof.
  intros Hp.
  rewrite (get_portfolio_analytics_authorised alg db u pid p Hp).
  unfold get_analytics_by_symbol. rewrite Hp. simpl.
  split; [|split].
  - intros ->. done.
  - apply analytics_by_symbol_nil.
  - intros a Ha Hzero.
    destruct (portfolio_analytics_total_trades alg pid p _ a Ha)
      as (Hlen & _ & _ & Hnone & _).
    rewrite Hzero in Hlen.
    destruct (closed_trades db pid) as [|row rows]; [|done].
    split; [done|]. by apply Hnone.
Qed.

Lemma X15_witness :
  get_analytics_by_symbol (sample.db_of sample.long_open) sample.owner 1 = Ok [] ∧
  total_trades <$>
    get_portfolio_analytics Plain (sample.db_of sample.long_open) sample.owner 1 =
    Ok 0%nat.
Proof.
  destruct (X15_empty_state Plain (sample.db_of sample.long_open) sample.owner 1
              sample.portfolio1 eq_refl) as [Hempty _].
  destruct (Hempty eq_refl) as [Hagg Hsym].
  split; [exact Hsym|]. by rewrite Hagg.
Defined.

(** ** Analytics: the per-symbol groups *)

Lemma modify_keys (symbol' : option string) f (d : stats_dict) :
  (modify symbol' f d).*1 = d.*1.
Proof.
  induction d as [|[k v] d IH]; simpl; [done|].
  case_bool_decide; simpl; [done|]. f_equal. exact IH.
Qed.

Lemma modify_Forall_keyed (P P' : option string * SymbolStats → Prop)
    (symbol' : option string) f (d : stats_dict) :
  (∀ v, P (symbol', v) → P' (symbol', f v)) →
  (∀ k v, k ≠ symbol' → P (k, v) → P' (k, v)) →
  NoDup d.*1 → Forall P d → Forall P' (modify symbol' f d).
Proof.
  intros Hhit Hmiss Hnd Hd.
  induction Hd as [|[k v] d Hkv Hd IH]; simpl; [constructor|].
  rewrite fmap_cons in Hnd. apply NoDup_cons in Hnd as [Hk Hnd].
  case_bool_decide as Heq.
  - subst k. constructor; [by apply Hhit|].
    apply Forall_forall. intros [k' v'] Hin.
    apply Hmiss; [|by apply (proj1 (Forall_forall _ _) Hd)].
    intros ->. apply Hk. apply list_elem_of_fmap. by exists (symbol', v').
  - constructor; [by apply Hmiss|by apply IH].
Qed.

Lemma rows_of_symbol_snoc (s : option string) (seen : list (Z * Trade))
    (row : Z * Trade) :
  rows_of_symbol s (seen ++ [row]) =
  rows_of_symbol s seen ++ (if decide (symbol row.2 = s) then [row] else []).
Proof.
  unfold rows_of_symbol. by rewrite filter_app.
Qed.

Lemma sum_plain_snoc (f : float) (xs : list number) (x : number) :
  sum_plain f (xs ++ [x]) = fadd (sum_plain f xs) (to_float x).
Proof. revert f. induction xs as [|y xs IH]; intros f; simpl; [done|apply IH]. Qed.

Lemma entry_counts_hit (seen : list (Z * Trade)) (row : Z * Trade)
    (v : SymbolStats) :
  entry_counts seen (symbol row.2, v) →
  entry_counts (seen ++ [row]) (symbol row.2, count_trade row.2 v).
Proof.
  intros (Hs & Ht & Hpl & Hw & Hl). unfold entry_counts in *.
  cbv zeta in *. cbn [fst snd] in *.
  rewrite rows_of_symbol_snoc, decide_True by done.
  rewrite !List.filter_app, !length_app, fmap_app.
  change (pl_key <$> [row]) with [pl_key row]. rewrite sum_plain_snoc.
  unfold count_trade.
  cbn [ss_symbol ss_total_trades ss_total_profit_loss ss_wins ss_losses
       List.filter length].
  rewrite Ht, Hpl, Hw, Hl.
  change (is_winning row) with (num_ltb (Int 0) (py_or0 (profit_loss row.2))).
  change (pl_key row) with (py_or0 (profit_loss row.2)).
  destruct (num_ltb (Int 0) (py_or0 (profit_loss row.2))); cbn [negb length];
    repeat split; try done; lia.
Qed.

Lemma entry_counts_miss (seen : list (Z * Trade)) (row : Z * Trade)
    (k : option string) (v : SymbolStats) :
  k ≠ symbol row.2 →
  entry_counts seen (k, v) → entry_counts (seen ++ [row]) (k, v).
Proof.
  intros Hk (Hs & Ht & Hpl & Hw & Hl). unfold entry_counts in *.
  cbv zeta in *. cbn [fst snd] in *.
  rewrite rows_of_symbol_snoc, decide_False by done.
  by rewrite app_nil_r.
Qed.

Lemma add_trade_entry_counts (seen : list (Z * Trade)) (d : stats_dict)
    (row : Z * Trade) :
  NoDup d.*1 →
  (∀ r, r ∈ seen → symbol r.2 ∈ d.*1) →
  Forall (entry_counts seen) d →
  NoDup (add_trade d row).*1 ∧
  (∀ r, r ∈ seen ++ [row] → symbol r.2 ∈ (add_trade d row).*1) ∧
  Forall (entry_counts (seen ++ [row])) (add_trade d row).
Proof.
  intros Hnd Hcov Hd. unfold add_trade, has_key.
  case_bool_decide as Hin.
  - rewrite modify_keys. split; [done|]. split.
    + intros r Hr. apply elem_of_app in Hr as [Hr|Hr]; [by apply Hcov|].
      apply list_elem_of_singleton in Hr as ->. done.
    + apply (modify_Forall_keyed (entry_counts seen)); [| |done|done].
      * intros v. apply entry_counts_hit.
      * intros k v Hk. by apply entry_counts_miss.
  - rewrite modify_absent by done. rewrite fmap_app. simpl.
    split; [|split].
    + apply NoDup_app. split; [done|]. split; [|apply NoDup_singleton].
      intros k Hk Hk'. apply list_elem_of_singleton in Hk' as ->. done.
    + intros r Hr. apply elem_of_app. apply elem_of_app in Hr as [Hr|Hr].
      * left. by apply Hcov.
      * right. apply list_elem_of_singleton in Hr as ->.
        apply list_elem_of_here.
    + apply Forall_app. split.
      * apply Forall_forall. intros [k v] Hkv.
        apply entry_counts_miss; [|by apply (proj1 (Forall_forall _ _) Hd)].
        intros ->. apply Hin. apply list_elem_of_fmap. by exists (symbol row.2, v).
      * constructor; [|constructor].
        apply (entry_counts_hit seen row
                 (mkSymbolStats (symbol row.2) 0 fzero 0 0 None)).
        assert (rows_of_symbol (symbol row.2) seen = []) as Hnone.
        { apply elem_of_nil_inv. intros r Hr.
          apply list_elem_of_filter in Hr as [Hr Hr'].
          apply Hin. rewrite <- Hr. by apply Hcov. }
        unfold entry_counts. simpl. by rewrite Hnone.
Qed.

Lemma fold_add_trade_entry_counts (rows seen : list (Z * Trade)) (d : stats_dict) :
  NoDup d.*1 →
  (∀ r, r ∈ seen → symbol r.2 ∈ d.*1) →
  Forall (entry_counts seen) d →
  NoDup (fold_left add_trade rows d).*1 ∧
  (∀ r, r ∈ seen ++ rows → symbol r.2 ∈ (fold_left add_trade rows d).*1) ∧
  Forall (entry_counts (seen ++ rows)) (fold_left add_trade rows d).
Proof.
  revert seen d. induction rows as [|row rows IH]; intros seen d Hnd Hcov Hd.
  - rewrite app_nil_r. done.
  - simpl. replace (seen ++ row :: rows) with ((seen ++ [row]) ++ rows)
      by (by rewrite <- app_assoc).
    destruct (add_trade_entry_counts seen d row Hnd Hcov Hd) as (H1 & H2 & H3).
    by apply IH.
Qed.

Lemma losing_is_not_winning (rows : list (Z * Trade)) :
  Forall (λ row, flush row.2 = row.2) rows →
  List.filter (λ row, negb (is_winning row)) rows = List.filter is_losing rows.
Proof.
  induction 1 as [|row rows Hrow _ IH]; [done|]. simpl.
  rewrite (is_winning_not_losing row) by by apply stored_not_nan.
  rewrite negb_involutive, IH. done.
Qed.

Lemma rows_of_symbol_stored (s : option string) (rows : list (Z * Trade)) :
  Forall (λ row, flush row.2 = row.2) rows →
  Forall (λ row, flush row.2 = row.2) (rows_of_symbol s rows).
Proof.
  intros H. apply Forall_forall. intros row Hrow.
  apply list_elem_of_filter in Hrow as [_ Hrow].
  by apply (proj1 (Forall_forall _ _) H).
Qed.

(** X18: the per-symbol breakdown has one group per symbol: the symbols of
    the groups are pairwise different, every closed trade's symbol has its
    group, and a group's total_trades, wins and losses are the numbers of
    closed trades, of closed trades with profit_loss > 0 and of closed trades
    with profit_loss <= 0 (null counted as 0) on its symbol; wins and losses
    add up to total_trades, win_rate is wins / total_trades * 100 rounded to
    two decimals, and total_profit_loss is the sum, from 0.0 and in the order
    of the ids, of the P&L of those trades, rounded to two decimals. *)
Theorem X18_by_symbol_groups (db : DB) (pid : Z) :
  stored_table (trades db) →
  let closed := closed_trades db pid in
  ∃ groups : list SymbolStats,
    analytics_by_symbol closed = Ok groups ∧
    NoDup (ss_symbol <$> groups) ∧
    (∀ row : Z * Trade, row ∈ closed → symbol row.2 ∈ ss_symbol <$> groups) ∧
    Forall (λ g,
              let mine := rows_of_symbol (ss_symbol g) closed in
              ss_total_trades g = length mine ∧
              ss_wins g = length (List.filter is_winning mine) ∧
              ss_losses g = length (List.filter is_losing mine) ∧
              (ss_wins g + ss_losses g)%nat = ss_total_trades g ∧
              ss_win_rate g =
                Some (py_round2
                        (num_mul (Float (num_div (Int_of_nat (ss_wins g))
                                                 (Int_of_nat (ss_total_trades g))))
                                 (Int 100))) ∧
              ss_total_profit_loss g =
                float_round2 (sum_plain fzero (pl_key <$> mine)))
           groups.
Proof.
  intros Hstored closed.
  pose proof (closed_trades_stored db pid Hstored) as Hst. fold closed in Hst.
  destruct (fold_add_trade_entry_counts closed [] [] (NoDup_nil_2 (A:=option string)))
    as (Hnd & Hcov & Hcounts); [by intros r Hr%elem_of_nil|constructor|].
  simpl in Hcov, Hcounts.
  pose proof (fold_add_trade_entry_ok closed (λ _, False) [] (Forall_nil_2 _))
    as Hok.
  destruct (analytics_by_symbol_returns closed) as (groups & Hgroups & HF).
  exists groups. split; [done|].
  assert (ss_symbol <$> groups = (fold_left add_trade closed []).*1) as Hkeys.
  { clear -HF Hcounts.
    induction HF as [|kv g d gs (Hs & _) _ IH]; [done|].
    apply Forall_cons in Hcounts as [(Hk & _) Hcounts].
    rewrite !fmap_cons, IH by done. f_equal. congruence. }
  rewrite Hkeys. split; [done|]. split; [done|].
  clear Hkeys Hnd Hcov Hgroups.
  induction HF as [|kv g d gs (Hs & Ht & Hw & Hl & Hpl & Hrate) _ IH];
    [constructor|].
  apply Forall_cons in Hcounts as [(Hk & Hct & Hcpl & Hcw & Hcl) Hcounts].
  apply Forall_cons in Hok as [(_ & Hone & _) Hok].
  constructor; [|by apply IH].
  cbv zeta in *. rewrite Hs, Hk.
  pose proof (rows_of_symbol_stored kv.1 closed Hst) as Hmine.
  rewrite losing_is_not_winning in Hcl by done.
  assert (ss_wins g + ss_losses g = ss_total_trades g)%nat as Hsum.
  { rewrite Hw, Hl, Ht, Hcw, Hcl, Hct. by apply wins_plus_losses. }
  split; [congruence|]. split; [congruence|]. split; [congruence|].
  split; [done|]. split; [apply Hrate; lia|congruence].
Qed.

Lemma X18_witness :
  ∃ groups : list SymbolStats,
    analytics_by_symbol (closed_trades sample.one_win_in_three 1) = Ok groups ∧
    NoDup (ss_symbol <$> groups).
Proof.
  destruct (X18_by_symbol_groups sample.one_win_in_three 1)
    as (groups & Hg & Hnd & _).
  - apply stored_table_run.
  - by exists groups.
Defined.

(** X17: the wins of all groups of the per-symbol breakdown add up to the
    number of closed trades with a positive P&L and the losses to the number
    of the others, which are the total_wins and total_losses of the aggregate
    analytics of the same state whenever those return. *)
Theorem X17_by_symbol_wins_and_losses (alg : sum_algorithm) (db : DB) (u pid : Z) :
  stored_table (trades db) →
  let closed := closed_trades db pid in
  ∃ groups : list SymbolStats,
    analytics_by_symbol closed = Ok groups ∧
    sum_list_with ss_wins groups = length (List.filter is_winning closed) ∧
    sum_list_with ss_losses groups = length (List.filter is_losing closed) ∧
    ∀ a : PortfolioAnalytics,
      get_portfolio_analytics alg db u pid = Ok a →
      sum_list_with ss_wins groups = total_wins a ∧
      sum_list_with ss_losses groups = total_losses a.
Proof.
  intros Hstored closed.
  pose proof (closed_trades_stored db pid Hstored) as Hst. fold closed in Hst.
  destruct (analytics_by_symbol_returns closed) as (groups & Hgroups & HF).
  exists groups. split; [done|].
  assert (∀ (m : SymbolStats → nat) (g : Z * Trade → bool),
            (∀ row v, m (count_trade row.2 v) = (m v + if g row then 1 else 0)%nat) →
            (∀ s, m (mkSymbolStats s 0 fzero 0 0 None) = 0%nat) →
            ∀ (rows : list (Z * Trade)) (d : stats_dict),
              sum_list_with (λ kv, m kv.2) (fold_left add_trade rows d) =
              (sum_list_with (λ kv, m kv.2) d + length (List.filter g rows))%nat)
    as Hfold.
  { intros m g Hstep Hinit rows.
    induction rows as [|row rows IH]; intros d; simpl; [lia|].
    rewrite IH.
    assert (sum_list_with (λ kv, m kv.2) (add_trade d row) =
            (sum_list_with (λ kv, m kv.2) d + if g row then 1 else 0)%nat) as ->.
    { unfold add_trade, has_key. case_bool_decide as Hin.
      - clear -Hin Hstep. induction d as [|[k w] d IH]; simpl.
        + by apply elem_of_nil in Hin.
        + case_bool_decide as Hk; simpl.
          * rewrite Hstep. lia.
          * rewrite fmap_cons, elem_of_cons in Hin.
            destruct Hin as [Heq|Hin]; [by destruct Hk|].
            rewrite (IH Hin). lia.
      - rewrite modify_absent by done. rewrite sum_list_with_app. simpl.
        rewrite Hstep, Hinit. lia. }
    destruct (g row); simpl; lia. }
  assert (sum_list_with ss_wins groups = length (List.filter is_winning closed))
    as Hw.
  { transitivity (sum_list_with (λ kv, ss_wins kv.2) (fold_left add_trade closed [])).
    - clear -HF. induction HF as [|kv g d gs (_ & _ & Hg & _) _ IH]; [done|].
      simpl. by rewrite Hg, IH.
    - rewrite (Hfold ss_wins is_winning); [done| |done].
      intros row v. unfold count_trade, is_winning, pl_key. simpl.
      destruct (num_ltb (Int 0) (py_or0 (profit_loss row.2))); lia. }
  assert (sum_list_with ss_losses groups = length (List.filter is_losing closed))
    as Hl.
  { rewrite <- losing_is_not_winning by done.
    transitivity (sum_list_with (λ kv, ss_losses kv.2) (fold_left add_trade closed [])).
    - clear -HF. induction HF as [|kv g d gs (_ & _ & _ & Hg & _) _ IH]; [done|].
      simpl. by rewrite Hg, IH.
    - rewrite (Hfold ss_losses (λ row, negb (is_winning row))); [done| |done].
      intros row v. unfold count_trade, is_winning, pl_key. simpl.
      destruct (num_ltb (Int 0) (py_or0 (profit_loss row.2))); simpl; lia. }
  split; [done|]. split; [done|].
  intros a Ha. rewrite Hw, Hl. unfold get_portfolio_analytics in Ha.
  destruct (verify_portfolio_ownership db pid u) as [p|]; [|done]. simpl in Ha.
  fold closed in Ha.
  by destruct (portfolio_analytics_total_trades alg pid p closed a Ha)
    as (_ & -> & -> & _).
Qed.

Lemma X17_witness :
  ∃ (groups : list SymbolStats) (a : PortfolioAnalytics),
    analytics_by_symbol (closed_trades sample.one_win_in_three 1) = Ok groups ∧
    get_portfolio_analytics Plain sample.one_win_in_three sample.owner 1 = Ok a ∧
    sum_list_with ss_wins groups = total_wins a.
Proof.
  destruct (X17_by_symbol_wins_and_losses Plain sample.one_win_in_three
              sample.owner 1) as (groups & Hg & _ & _ & Hagg).
  - apply stored_table_run.
  - exists groups. eexists. split; [exact Hg|].
    split; [vm_compute; reflexivity|].
    apply Hagg. vm_compute. reflexivity.
Defined.

(** ** Analytics: what they depend on *)

(** Two states that store the same closed trades of a portfolio give the same
    query result. *)
Lemma closed_trades_ext (db1 db2 : DB) (pid : Z) :
  (∀ (i : Z) (t : Trade),
     portfolio_id t = pid → status t = Some CLOSED →
     (trades db1 !! i = Some t ↔ trades db2 !! i = Some t)) →
  closed_trades db1 pid = closed_trades db2 pid.
Proof.
  intros Hsame.
  assert (∀ x, x ∈ closed_trades db1 pid ↔ x ∈ closed_trades db2 pid) as Hmem.
  { intros [i t]. rewrite !elem_of_closed_trades. unfold closed_in. simpl.
    specialize (Hsame i t). tauto. }
  apply (StronglySorted_unique_strong id_le).
  - intros [i t1] [j t2] H1 H2 Hij Hji. unfold id_le in Hij, Hji. simpl in *.
    assert (i = j) as -> by lia.
    apply Hmem in H1.
    apply elem_of_closed_trades in H1 as (H1 & _).
    apply elem_of_closed_trades in H2 as (H2 & _). simpl in *. congruence.
  - apply StronglySorted_filter, StronglySorted_merge_sort; apply _.
  - apply StronglySorted_filter, StronglySorted_merge_sort; apply _.
  - apply NoDup_Permutation; [apply NoDup_filter, NoDup_scan..|done].
Qed.

(** X19: the analytics of a portfolio are a function of its portfolio row and
    of its closed trades: two database states that agree on both give the
    same answers on both analytics endpoints, whatever else they store. *)
Theorem X19_analytics_depend_on_closed_trades (alg : sum_algorithm)
    (db1 db2 : DB) (u pid : Z) :
  portfolios db1 !! pid = portfolios db2 !! pid →
  (∀ (i : Z) (t : Trade),
     portfolio_id t = pid → status t = Some CLOSED →
     (trades db1 !! i = Some t ↔ trades db2 !! i = Some t)) →
  get_portfolio_analytics alg db1 u pid = get_portfolio_analytics alg db2 u pid ∧
  get_analytics_by_symbol db1 u pid = get_analytics_by_symbol db2 u pid.
Proof.
  intros Hp Hsame.
  unfold get_portfolio_analytics, get_analytics_by_symbol,
    verify_portfolio_ownership, portfolio_crud.get_portfolio_by_id.
  by rewrite Hp, (closed_trades_ext db1 db2 pid Hsame).
Qed.

Lemma X19_witness :
  get_portfolio_analytics Plain (sample.db_of sample.long_closed) sample.owner 1 =
  get_portfolio_analytics Plain
    (mkDB (portfolios (sample.db_of sample.long_closed))
       (<[2 := sample.long_open]> (trades (sample.db_of sample.long_closed))))
    sample.owner 1.
Proof.
  apply (X19_analytics_depend_on_closed_trades Plain
           (sample.db_of sample.long_closed)).
  - reflexivity.
  - intros i t _ Hs. simpl.
    destruct (decide (i = 2)) as [->|Hne].
    + rewrite lookup_insert_eq. split; [discriminate|]. intros [= <-].
      discriminate Hs.
    + by rewrite lookup_insert_ne.
Defined.

(** X20: an open position is invisible to the analytics: a create request,
    stored or refused, changes the answer of neither analytics endpoint, for
    any user and any portfolio. *)
Theorem X20_create_trade_keeps_analytics (alg : sum_algorithm) (db : DB) (u : Z)
    (c : TradeCreate) (u' pid : Z) :
  let db' := (trades_router.create_trade db u c).2 in
  get_portfolio_analytics alg db' u' pid = get_portfolio_analytics alg db u' pid ∧
  get_analytics_by_symbol db' u' pid = get_analytics_by_symbol db u' pid.
Proof.
  intros db'.
  assert (portfolios db' = portfolios db ∧
          ∀ (i : Z) (t : Trade),
            status t = Some CLOSED →
            (trades db' !! i = Some t ↔ trades db !! i = Some t)) as [Hp Hsame].
  { unfold db', trades_router.create_trade.
    destruct (verify_portfolio_ownership _ _ _); [|done].
    unfold trade_crud.create_trade, commit. cbv zeta.
    destruct (not_null (flush _)); [|done]. cbn [snd fmap result_fmap portfolios trades].
    split; [done|]. intros i t Hs.
    destruct (decide (next_id (trades db) = i)) as [<-|Hne].
    - rewrite lookup_insert_eq, next_id_fresh.
      split; [|done]. intros [= <-]. discriminate Hs.
    - by rewrite lookup_insert_ne. }
  unfold get_portfolio_analytics, get_analytics_by_symbol,
    verify_portfolio_ownership, portfolio_crud.get_portfolio_by_id.
  rewrite Hp, (closed_trades_ext db' db pid); [done|].
  intros i t _. apply Hsame.
Qed.

(** ** Analytics: best and worst trade *)

Lemma SFltb_rank (x y : float) :
  is_nan x = false → is_nan y = false →
  (fltb x y = true ↔ rank_lt (rank x) (rank y)).
Proof.
  intros Hx Hy. unfold fltb, SFltb, rank_lt.
  destruct x as [sx|sx| |sx mx ex], y as [sy|sy| |sy my ey]; try done;
    try (destruct sx); try (destruct sy); simpl; try (split; [done|lia]);
    try (split; [lia|done]); try (split; intros; lia).
  - change (Pos.compare_cont Eq mx my) with (Pos.compare mx my).
    destruct (Z.compare_spec ex ey), (Pos.compare_spec mx my); simpl;
      split; intros; try done; try lia.
  - change (Pos.compare_cont Eq mx my) with (Pos.compare mx my).
    destruct (Z.compare_spec ex ey), (Pos.compare_spec mx my); simpl;
      split; intros; try done; try lia.
Qed.

Lemma pl_key_cases (row : Z * Trade) :
  pl_key row = Int 0 ∨
  ∃ v : float, profit_loss row.2 = Some v ∧ pl_key row = Float v.
Proof.
  unfold pl_key, py_or0. destruct (profit_loss row.2) as [v|]; [|by left].
  destruct (feqb v fzero); [by left|right; eauto].
Qed.

Lemma float_compare_Z_zero (x : float) :
  float_compare_Z x 0 = SFcompare x fzero.
Proof.
  destruct x as [s|s| |s m e]; [done..|].
  unfold float_compare_Z. change (inject_Z 0) with 0%Q.
  by rewrite Q_of_float_sign.
Qed.

Lemma SFcompare_zero_l (y : float) :
  CompOpp <$> SFcompare y fzero = SFcompare fzero y.
Proof. destruct y as [s|s| |s m e]; simpl; try done; by destruct s. Qed.

Lemma num_ltb_key (a b : number) :
  (a = Int 0 ∨ ∃ v, a = Float v) → (b = Int 0 ∨ ∃ v, b = Float v) →
  num_ltb a b = fltb (key_float a) (key_float b).
Proof.
  intros [->|[x ->]] [->|[y ->]]; unfold num_ltb, num_compare, fltb, SFltb;
    cbn [key_float]; try done.
  - by rewrite float_compare_Z_zero, SFcompare_zero_l.
  - by rewrite float_compare_Z_zero.
Qed.

Lemma pl_key_not_nan (row : Z * Trade) :
  flush row.2 = row.2 → is_nan (key_float (pl_key row)) = false.
Proof.
  intros Hst. destruct (pl_key_cases row) as [->|(v & Hv & ->)]; [done|].
  simpl. destruct v; try done.
  by destruct (stored_not_nan row.2 Hst).
Qed.

(** On stored rows the comparison of two keys is the order of their
    ranks. *)
Lemma pl_key_ltb (row1 row2 : Z * Trade) :
  flush row1.2 = row1.2 → flush row2.2 = row2.2 →
  (num_ltb (pl_key row1) (pl_key row2) = true ↔
   rank_lt (rank (key_float (pl_key row1))) (rank (key_float (pl_key row2)))).
Proof.
  intros H1 H2.
  rewrite num_ltb_key.
  - apply SFltb_rank; by apply pl_key_not_nan.
  - destruct (pl_key_cases row1) as [->|(v & _ & ->)]; eauto.
  - destruct (pl_key_cases row2) as [->|(v & _ & ->)]; eauto.
Qed.

Lemma pl_key_not_ltb (row1 row2 : Z * Trade) :
  flush row1.2 = row1.2 → flush row2.2 = row2.2 →
  (num_ltb (pl_key row1) (pl_key row2) = false ↔
   ¬ rank_lt (rank (key_float (pl_key row1))) (rank (key_float (pl_key row2)))).
Proof.
  intros H1 H2. rewrite <- (pl_key_ltb row1 row2 H1 H2).
  by destruct (num_ltb (pl_key row1) (pl_key row2)).
Qed.

Lemma max_from_spec (best : Z * Trade) (xs : list (Z * Trade)) :
  Forall (λ row, flush row.2 = row.2) (best :: xs) →
  max_from best xs ∈ best :: xs ∧
  Forall (λ y, num_ltb (pl_key (max_from best xs)) (pl_key y) = false) (best :: xs).
Proof.
  revert best. induction xs as [|x xs IH]; intros best Hst.
  - apply Forall_cons in Hst as [Hb _]. simpl.
    split; [apply list_elem_of_here|]. constructor; [|constructor].
    apply pl_key_not_ltb; [done..|]. unfold rank_lt. lia.
  - pose proof Hst as Hst0.
    apply Forall_cons in Hst as [Hb Hst]. apply Forall_cons in Hst as [Hx Hst].
    simpl.
    destruct (num_ltb (pl_key best) (pl_key x)) eqn:Hlt.
    + destruct (IH x) as [Hin Hall]; [by constructor|].
      assert (flush (max_from x xs).2 = (max_from x xs).2) as Hr.
      { apply (proj1 (Forall_forall _ _) (Forall_cons_2 _ _ _ Hx Hst) _ Hin). }
      split; [by apply list_elem_of_further|].
      constructor; [|done].
      apply Forall_cons in Hall as [Hrx _].
      apply pl_key_ltb in Hlt; [|done..].
      apply pl_key_not_ltb in Hrx; [|done..].
      apply pl_key_not_ltb; [done..|]. unfold rank_lt in *. lia.
    + destruct (IH best) as [Hin Hall]; [by constructor|].
      assert (flush (max_from best xs).2 = (max_from best xs).2) as Hr.
      { apply (proj1 (Forall_forall _ _) (Forall_cons_2 _ _ _ Hb Hst) _ Hin). }
      split.
      { apply elem_of_cons in Hin as [->|Hin];
          [apply list_elem_of_here|by do 2 apply list_elem_of_further]. }
      apply Forall_cons in Hall as [Hrb Hall].
      constructor; [done|]. constructor; [|done].
      apply pl_key_not_ltb in Hlt; [|done..].
      apply pl_key_not_ltb in Hrb; [|done..].
      apply pl_key_not_ltb; [done..|]. unfold rank_lt in *. lia.
Qed.

Lemma min_from_spec (best : Z * Trade) (xs : list (Z * Trade)) :
  Forall (λ row, flush row.2 = row.2) (best :: xs) →
  min_from best xs ∈ best :: xs ∧
  Forall (λ y, num_ltb (pl_key y) (pl_key (min_from best xs)) = false) (best :: xs).
Proof.
  revert best. induction xs as [|x xs IH]; intros best Hst.
  - apply Forall_cons in Hst as [Hb _]. simpl.
    split; [apply list_elem_of_here|]. constructor; [|constructor].
    apply pl_key_not_ltb; [done..|]. unfold rank_lt. lia.
  - pose proof Hst as Hst0.
    apply Forall_cons in Hst as [Hb Hst]. apply Forall_cons in Hst as [Hx Hst].
    simpl.
    destruct (num_ltb (pl_key x) (pl_key best)) eqn:Hlt.
    + destruct (IH x) as [Hin Hall]; [by constructor|].
      assert (flush (min_from x xs).2 = (min_from x xs).2) as Hr.
      { apply (proj1 (Forall_forall _ _) (Forall_cons_2 _ _ _ Hx Hst) _ Hin). }
      split; [by apply list_elem_of_further|].
      constructor; [|done].
      apply Forall_cons in Hall as [Hrx _].
      apply pl_key_ltb in Hlt; [|done..].
      apply pl_key_not_ltb in Hrx; [|done..].
      apply pl_key_not_ltb; [done..|]. unfold rank_lt in *. lia.
    + destruct (IH best) as [Hin Hall]; [by constructor|].
      assert (flush (min_from best xs).2 = (min_from best xs).2) as Hr.
      { apply (proj1 (Forall_forall _ _) (Forall_cons_2 _ _ _ Hb Hst) _ Hin). }
      split.
      { apply elem_of_cons in Hin as [->|Hin];
          [apply list_elem_of_here|by do 2 apply list_elem_of_further]. }
      apply Forall_cons in Hall as [Hrb Hall].
      constructor; [done|]. constructor; [|done].
      apply pl_key_not_ltb in Hlt; [|done..].
      apply pl_key_not_ltb in Hrb; [|done..].
      apply pl_key_not_ltb; [done..|]. unfold rank_lt in *. lia.
Qed.

(** X16: when the aggregate analytics return for a portfolio with closed
    trades, best_trade and worst_trade are the summaries (id, symbol, P&L
    rounded to two decimals, null counted as 0) of closed trades of the
    portfolio; no closed trade has a P&L above the best one's, and none has
    one below the worst one's. *)
Theorem X16_best_and_worst (alg : sum_algorithm) (db : DB) (u pid : Z)
    (a : PortfolioAnalytics) :
  stored_table (trades db) →
  get_portfolio_analytics alg db u pid = Ok a →
  closed_trades db pid ≠ [] →
  ∃ best worst : Z * Trade,
    best ∈ closed_trades db pid ∧ worst ∈ closed_trades db pid ∧
    best_trade a =
      Some (mkTradeSummary best.1 (symbol best.2)
              (py_round2 (py_or0 (profit_loss best.2)))) ∧
    worst_trade a =
      Some (mkTradeSummary worst.1 (symbol worst.2)
              (py_round2 (py_or0 (profit_loss worst.2)))) ∧
    ∀ row : Z * Trade,
      row ∈ closed_trades db pid →
      num_ltb (py_or0 (profit_loss best.2)) (py_or0 (profit_loss row.2)) = false ∧
      num_ltb (py_or0 (profit_loss row.2)) (py_or0 (profit_loss worst.2)) = false.
Proof.
  intros Hstored Ha Hne. unfold get_portfolio_analytics in Ha.
  destruct (verify_portfolio_ownership db pid u) as [p|]; [|done]. simpl in Ha.
  pose proof (closed_trades_stored db pid Hstored) as Hst.
  destruct (portfolio_analytics_total_trades alg pid p _ a Ha)
    as (_ & _ & _ & _ & Hbw).
  destruct (closed_trades db pid) as [|x xs]; [done|].
  destruct (Hbw x xs eq_refl) as [Hbest Hworst].
  destruct (max_from_spec x xs Hst) as (Hin1 & Hall1).
  destruct (min_from_spec x xs Hst) as (Hin2 & Hall2).
  exists (max_from x xs), (min_from x xs).
  split; [done|]. split; [done|]. split; [done|]. split; [done|].
  intros row Hrow.
  split.
  - apply (proj1 (Forall_forall _ _) Hall1 row Hrow).
  - apply (proj1 (Forall_forall _ _) Hall2 row Hrow).
Qed.

Lemma X16_witness :
  ∃ best worst : Z * Trade,
    best_trade <$> get_portfolio_analytics Plain sample.win1_loss40 sample.owner 1 =
      Ok (Some (mkTradeSummary best.1 (symbol best.2)
                  (py_round2 (py_or0 (profit_loss best.2))))) ∧
    num_ltb (py_or0 (profit_loss best.2)) (py_or0 (profit_loss worst.2)) = false.
Proof.
  destruct (get_portfolio_analytics Plain sample.win1_loss40 sample.owner 1)
    as [a|] eqn:Ha; [|vm_compute in Ha; discriminate Ha].
  destruct (X16_best_and_worst Plain sample.win1_loss40 sample.owner 1 a)
    as (best & worst & _ & Hw & Hb & _ & Hall).
  - apply stored_table_run.
  - exact Ha.
  - vm_compute. discriminate.
  - exists best, worst. simpl. rewrite Hb. split; [reflexivity|].
    apply (Hall worst Hw).
Defined.

(** ** Users and the cascade of [delete_user] *)











(** The request that the hypothesis of X7 leaves out: an administrator who
    deletes the owner deletes the owner's portfolio and its trades with
    them. *)
Example admin_deletes_owner :
  let db :=
    mkState {[1 := sample.admin; 7 := sample.trader]}
      (sample.db_of sample.long_open) in
  users_router.delete_user db (Some 1) 7 = (Ok (), mkState {[1 := sample.admin]} empty_db).
Proof. vm_compute. reflexivity. Qed.

(** ** Registration *)

Lemma elem_of_scan_users (table : gmap Z User) (i : Z) (u : User) :
  (i, u) ∈ user_crud.scan_users table ↔ table !! i = Some u.
Proof.
  unfold user_crud.scan_users.
  rewrite merge_sort_Permutation. apply elem_of_map_to_list.
Qed.

Lemma NoDup_scan_users (table : gmap Z User) : NoDup (user_crud.scan_users table).
Proof.
  unfold user_crud.scan_users.
  rewrite merge_sort_Permutation. apply NoDup_map_to_list.
Qed.

Lemma head_filter_None {A} (P : A → Prop) `{!∀ x, Decision (P x)} (l : list A) :
  head (filter P l) = None ↔ ∀ x, x ∈ l → ¬ P x.
Proof.
  rewrite head_None. split.
  - intros Hnil x Hx HP.
    assert (x ∈ filter P l) as Hin by (by apply list_elem_of_filter).
    rewrite Hnil in Hin. by apply elem_of_nil in Hin.
  - intros Hall. apply elem_of_nil_inv. intros x Hx.
    apply list_elem_of_filter in Hx as [HP Hx]. by apply (Hall x).
Qed.

Lemma head_filter_Some {A} (P : A → Prop) `{!∀ x, Decision (P x)} (l : list A)
    (x : A) :
  head (filter P l) = Some x → x ∈ l ∧ P x.
Proof.
  intros Hhead.
  assert (x ∈ filter P l) as Hin.
  { destruct (filter P l) as [|y k]; [done|].
    injection Hhead as ->. apply list_elem_of_here. }
  apply list_elem_of_filter in Hin. tauto.
Qed.

(** A NoDup list all of whose elements are [x], and that has [x], is
    [[x]]. *)
Lemma NoDup_singleton_inv {A} (l : list A) (x : A) :
  NoDup l → x ∈ l → (∀ y, y ∈ l → y = x) → l = [x].
Proof.
  intros Hnd Hin Hall. destruct l as [|y l]; [by apply elem_of_nil in Hin|].
  assert (y = x) as -> by (apply Hall, list_elem_of_here).
  f_equal. destruct l as [|z l]; [done|].
  assert (z = x) as -> by (apply Hall, list_elem_of_further, list_elem_of_here).
  apply NoDup_cons in Hnd as [Hnot _]. destruct Hnot. apply list_elem_of_here.
Qed.

Lemma get_user_by_email_None (db : State) (email' : string) :
  user_crud.get_user_by_email db email' = None ↔
  ∀ (j : Z) (v : User), users db !! j = Some v → email v ≠ Some email'.
Proof.
  unfold user_crud.get_user_by_email. rewrite head_filter_None.
  split.
  - intros Hall j v Hj. apply (Hall (j, v)). by apply elem_of_scan_users.
  - intros Hall [j v] Hin. apply (Hall j v). by apply elem_of_scan_users.
Qed.

Lemma get_user_by_username_None (db : State) (username' : string) :
  user_crud.get_user_by_username db username' = None ↔
  ∀ (j : Z) (v : User), users db !! j = Some v → username v ≠ Some username'.
Proof.
  unfold user_crud.get_user_by_username. rewrite head_filter_None.
  split.
  - intros Hall j v Hj. apply (Hall (j, v)). by apply elem_of_scan_users.
  - intros Hall [j v] Hin. apply (Hall j v). by apply elem_of_scan_users.
Qed.

Lemma get_user_by_username_Some (db : State) (username' : string) (row : Z * User) :
  user_crud.get_user_by_username db username' = Some row →
  users db !! row.1 = Some row.2 ∧ username row.2 = Some username'.
Proof.
  intros H. apply head_filter_Some in H as [Hin Hname].
  destruct row as [j v]. by apply elem_of_scan_users in Hin.
Qed.

Lemma get_user_by_email_Some (db : State) (email' : string) (row : Z * User) :
  user_crud.get_user_by_email db email' = Some row →
  users db !! row.1 = Some row.2 ∧ email row.2 = Some email'.
Proof.
  intros H. apply head_filter_Some in H as [Hin Hname].
  destruct row as [j v]. by apply elem_of_scan_users in Hin.
Qed.

(** The only user of that name is found by it. *)
Lemma get_user_by_username_unique (db : State) (username' : string) (i : Z)
    (u : User) :
  users db !! i = Some u → username u = Some username' →
  (∀ (j : Z) (v : User),
     users db !! j = Some v → username v = Some username' → j = i) →
  user_crud.get_user_by_username db username' = Some (i, u).
Proof.
  intros Hi Hname Huniq. unfold user_crud.get_user_by_username.
  rewrite (NoDup_singleton_inv _ (i, u)); [done|..].
  - apply NoDup_filter, NoDup_scan_users.
  - apply list_elem_of_filter. split; [done|]. by apply elem_of_scan_users.
  - intros [j v] Hin. apply list_elem_of_filter in Hin as [Hv Hin].
    apply elem_of_scan_users in Hin. simpl in Hv.
    assert (j = i) as -> by by apply (Huniq j v). congruence.
Qed.

Lemma next_user_id_fresh (m : gmap Z User) : m !! user_crud.next_user_id m = None.
Proof.
  destruct (m !! user_crud.next_user_id m) as [v|] eqn:H; [|done].
  apply max_key_bound in H. unfold user_crud.next_user_id in H. lia.
Qed.

(** X21: [register] refuses an email that a stored user has with 400 "Email
    already registered", then a username that a stored user has with 400
    "Username already taken", and changes nothing; otherwise it stores the
    new user under an id that no user had, with the hash of the password,
    active, and administrator exactly when the table was empty, and changes
    no other user, no portfolio and no trade. *)
Theorem X21_register `{CryptContext} (db : State) (salt : string) (user : UserCreate) :
  let email_taken :=
    ∃ (j : Z) (v : User), users db !! j = Some v ∧ email v = Some (uc_email user) in
  let username_taken :=
    ∃ (j : Z) (v : User),
      users db !! j = Some v ∧ username v = Some (uc_username user) in
  (email_taken →
     auth_router.register db salt user =
       (Raise (HTTPException HTTP_400_BAD_REQUEST "Email already registered"), db)) ∧
  (¬ email_taken → username_taken →
     auth_router.register db salt user =
       (Raise (HTTPException HTTP_400_BAD_REQUEST "Username already taken"), db)) ∧
  (¬ email_taken → ¬ username_taken →
     let user_id' := user_crud.next_user_id (users db) in
     let stored :=
       mkUser (Some (uc_email user)) (Some (uc_username user))
         (Some (get_password_hash salt (uc_password user))) (uc_full_name user)
         (Some true) (Some (bool_decide (users db = ∅))) in
     users db !! user_id' = None ∧
     auth_router.register db salt user =
       (Ok (user_id', stored),
        mkState (<[user_id' := stored]> (users db)) (store db))).
Proof.
  intros email_taken username_taken.
  assert (email_taken ↔ user_crud.get_user_by_email db (uc_email user) ≠ None)
    as Hemail.
  { rewrite get_user_by_email_None. split.
    - intros (j & v & Hj & Hv) Hall. by apply (Hall j v).
    - intros Hnot. destruct (user_crud.get_user_by_email db (uc_email user))
        as [[j v]|] eqn:Hget.
      + apply get_user_by_email_Some in Hget as [Hj Hv]. by exists j, v.
      + destruct Hnot. by apply get_user_by_email_None. }
  assert (username_taken ↔
          user_crud.get_user_by_username db (uc_username user) ≠ None) as Hname.
  { rewrite get_user_by_username_None. split.
    - intros (j & v & Hj & Hv) Hall. by apply (Hall j v).
    - intros Hnot. destruct (user_crud.get_user_by_username db (uc_username user))
        as [[j v]|] eqn:Hget.
      + apply get_user_by_username_Some in Hget as [Hj Hv]. by exists j, v.
      + destruct Hnot. by apply get_user_by_username_None. }
  unfold auth_router.register.
  destruct (user_crud.get_user_by_email db (uc_email user)) as [row|] eqn:Hge.
  { split; [done|]. split; intros Hno; destruct Hno; by apply Hemail. }
  destruct (user_crud.get_user_by_username db (uc_username user)) as [row|] eqn:Hgu.
  { split; [intros Ht; by apply Hemail in Ht|]. split; [done|].
    intros _ Hno. destruct Hno. by apply Hname. }
  split; [intros Ht; by apply Hemail in Ht|].
  split; [intros _ Ht; by apply Hname in Ht|].
  intros _ _. cbv zeta. split; [apply next_user_id_fresh|].
  unfold user_crud.create_user, user_crud.commit_user, user_crud.get_user_count.
  cbv zeta.
  assert (bool_decide (size (users db) = 0%nat) = bool_decide (users db = ∅)) as ->.
  { apply bool_decide_ext, map_size_empty_iff. }
  rewrite decide_True; [done|].
  split; [by eexists|]. split; [by eexists|]. split; [by eexists|].
  intros j v Hj. right. simpl.
  apply get_user_by_email_None with (j := j) (v := v) in Hge; [|done].
  apply get_user_by_username_None with (j := j) (v := v) in Hgu; [|done].
  done.
Qed.

Lemma X21_witness :
  (@auth_router.register sample.plain_context empty_state "salt" sample.alice).1 =
    Ok (1, mkUser (Some "alice@example.com") (Some "alice") (Some "hash$pw1") None
             (Some true) (Some true)).
Proof.
  destruct (@X21_register sample.plain_context empty_state "salt" sample.alice)
    as (_ & _ & Hnew).
  destruct Hnew as [_ Hreg].
  - intros (j & v & Hj & _). discriminate Hj.
  - intros (j & v & Hj & _). discriminate Hj.
  - rewrite Hreg. reflexivity.
Defined.

(** ** Logging in *)

Lemma register_stores `{CryptContext} (db : State) (salt : string)
    (user : UserCreate) :
  user_crud.get_user_by_email db (uc_email user) = None →
  user_crud.get_user_by_username db (uc_username user) = None →
  let user_id' := user_crud.next_user_id (users db) in
  let stored :=
    mkUser (Some (uc_email user)) (Some (uc_username user))
      (Some (get_password_hash salt (uc_password user))) (uc_full_name user)
      (Some true) (Some (bool_decide (user_crud.get_user_count db = 0%nat))) in
  auth_router.register db salt user =
    (Ok (user_id', stored), mkState (<[user_id' := stored]> (users db)) (store db)).
Proof.
  intros Hge Hgu. cbv zeta. unfold auth_router.register. rewrite Hge, Hgu.
  unfold user_crud.create_user, user_crud.commit_user. cbv zeta.
  rewrite decide_True; [done|].
  split; [by eexists|]. split; [by eexists|]. split; [by eexists|].
  intros j v Hj. right. simpl.
  apply get_user_by_email_None with (j := j) (v := v) in Hge; [|done].
  apply get_user_by_username_None with (j := j) (v := v) in Hgu; [|done].
  done.
Qed.

(** X25: a user who has registered can log in with the username and the
    password of the registration, provided the password context verifies the
    hashes it makes: the token issued carries the id of the new user, and
    [GET /auth/me] with it answers with the user as stored.  A password that
    the context does not verify against the stored hash is refused with
    401. *)
Theorem X25_register_then_login `{CryptContext} (db : State) (salt : string)
    (user : UserCreate) (user_id' : Z) (stored : User) (db' : State) :
  (∀ salt password : string,
     verify_password password (get_password_hash salt password) = true) →
  auth_router.register db salt user = (Ok (user_id', stored), db') →
  auth_router.login db' (uc_username user) (uc_password user) = Ok user_id' ∧
  auth_router.read_users_me db' (Some user_id') = Ok (user_id', stored) ∧
  ∀ password : string,
    verify_password password (get_password_hash salt (uc_password user)) = false →
    auth_router.login db' (uc_username user) password =
      Raise (HTTPException HTTP_401_UNAUTHORIZED "Incorrect username or password").
Proof.
  intros Hverify Hreg.
  destruct (user_crud.get_user_by_email db (uc_email user)) as [row|] eqn:Hge.
  { unfold auth_router.register in Hreg. by rewrite Hge in Hreg. }
  destruct (user_crud.get_user_by_username db (uc_username user)) as [row|] eqn:Hgu.
  { unfold auth_router.register in Hreg. by rewrite Hge, Hgu in Hreg. }
  rewrite (register_stores db salt user Hge Hgu) in Hreg.
  injection Hreg as <- <- <-.
  set (user_id' := user_crud.next_user_id (users db)).
  set (stored := mkUser _ _ _ _ _ _).
  set (db' := mkState _ _).
  assert (user_crud.get_user_by_username db' (uc_username user) =
            Some (user_id', stored)) as Hfound.
  { apply get_user_by_username_unique.
    - apply lookup_insert_eq.
    - done.
    - intros j v Hj Hv. destruct (decide (j = user_id')) as [|Hne]; [done|].
      unfold db' in Hj. cbn [users] in Hj. rewrite lookup_insert_ne in Hj by done.
      by apply get_user_by_username_None with (j := j) (v := v) in Hgu. }
  split; [|split].
  - unfold auth_router.login. rewrite Hfound. simpl. by rewrite Hverify.
  - unfold auth_router.read_users_me, dependencies.get_current_active_user,
      dependencies.get_current_user.
    unfold db' at 1. cbn [users]. by rewrite lookup_insert_eq.
  - intros password Hno. unfold auth_router.login. rewrite Hfound. simpl.
    by rewrite Hno.
Qed.

Lemma X25_witness :
  @auth_router.login sample.plain_context
    (@auth_router.register sample.plain_context empty_state "salt" sample.alice).2
    "alice" "pw1" = Ok 1.
Proof.
  apply (@X25_register_then_login sample.plain_context empty_state "salt"
           sample.alice 1
           (mkUser (Some "alice@example.com") (Some "alice") (Some "hash$pw1") None
              (Some true) (Some true))).
  - intros salt password. simpl. by apply bool_decide_eq_true.
  - reflexivity.
Defined.

(** ** The administrator's endpoints *)

Lemma get_current_admin_user_Ok (db : State) (sub : option Z) (cu : Z * User) :
  dependencies.get_current_admin_user db sub = Ok cu →
  sub = Some cu.1 ∧ users db !! cu.1 = Some cu.2 ∧
  is_active cu.2 = Some true ∧ is_admin cu.2 = Some true.
Proof.
  unfold dependencies.get_current_admin_user, dependencies.get_current_active_user,
    dependencies.get_current_user.
  destruct sub as [i|]; [|done]. destruct (users db !! i) as [v|] eqn:Hv; [|done].
  simpl. destruct (is_active v) as [[]|] eqn:Ha; try done. simpl.
  destruct (is_admin v) as [[]|] eqn:Hadm; try done. simpl.
  by intros [= <-].
Qed.

Lemma get_current_active_user_Ok (db : State) (sub : option Z) (cu : Z * User) :
  dependencies.get_current_active_user db sub = Ok cu →
  sub = Some cu.1 ∧ users db !! cu.1 = Some cu.2 ∧ is_active cu.2 = Some true.
Proof.
  unfold dependencies.get_current_active_user, dependencies.get_current_user.
  destruct sub as [i|]; [|done]. destruct (users db !! i) as [v|] eqn:Hv; [|done].
  simpl. destruct (is_active v) as [[]|] eqn:Ha; try done. simpl.
  by intros [= <-].
Qed.

(** X23: the endpoints on users are the administrator's.  The dependency
    lets through exactly a token whose subject is a stored user that is
    active and an administrator; any other token gets 401 when its subject is
    no stored user, 400 "Inactive user" when the user is not active, 403 "Not
    enough permissions" otherwise, and then no users endpoint changes
    anything. *)
Theorem X23_admin_only (db : State) (sub : option Z) :
  (∀ cu : Z * User,
     dependencies.get_current_admin_user db sub = Ok cu ↔
     sub = Some cu.1 ∧ users db !! cu.1 = Some cu.2 ∧
     is_active cu.2 = Some true ∧ is_admin cu.2 = Some true) ∧
  (∀ e : exn,
     dependencies.get_current_admin_user db sub = Raise e →
     (e = dependencies.credentials_exception ∨
      e = HTTPException 400 "Inactive user" ∨
      e = HTTPException HTTP_403_FORBIDDEN "Not enough permissions") ∧
     (e = dependencies.credentials_exception ↔
      ∀ user_id', sub = Some user_id' → users db !! user_id' = None) ∧
     (∀ user_id', users_router.get_user db sub user_id' = Raise e) ∧
     (∀ user_id' upd, users_router.update_user db sub user_id' upd = (Raise e, db)) ∧
     (∀ user_id', users_router.delete_user db sub user_id' = (Raise e, db))).
Proof.
  split.
  - intros cu. split; [apply get_current_admin_user_Ok|].
    intros (-> & Hcu & Ha & Hadm).
    unfold dependencies.get_current_admin_user,
      dependencies.get_current_active_user, dependencies.get_current_user.
    rewrite Hcu. simpl. rewrite Ha. simpl. rewrite Hadm. simpl. by destruct cu.
  - intros e He.
    unfold users_router.get_user, users_router.update_user,
      users_router.delete_user. rewrite He.
    split; [|split; [|done]].
    + revert He.
      unfold dependencies.get_current_admin_user,
        dependencies.get_current_active_user, dependencies.get_current_user.
      destruct sub as [i|]; [|intros [= <-]; by left].
      destruct (users db !! i) as [v|]; [|intros [= <-]; by left].
      simpl. destruct (py_not (is_active v)); simpl;
        [intros [= <-]; right; by left|].
      destruct (py_not (is_admin v)); simpl; [|done].
      intros [= <-]. right. by right.
    + revert He.
      unfold dependencies.get_current_admin_user,
        dependencies.get_current_active_user, dependencies.get_current_user.
      destruct sub as [i|]; [|intros [= <-]; split; [by intros _ ? [=]|done]].
      destruct (users db !! i) as [v|] eqn:Hv.
      * simpl. destruct (py_not (is_active v)); simpl.
        { intros [= <-]. split; [done|]. intros Hall.
          specialize (Hall i eq_refl). congruence. }
        destruct (py_not (is_admin v)); simpl; [|done].
        intros [= <-]. split; [done|]. intros Hall.
        specialize (Hall i eq_refl). congruence.
      * intros [= <-]. split; [|done]. by intros _ ? [= <-].
Qed.

Lemma X23_witness :
  users_router.delete_user
    (mkState {[1 := sample.admin; 7 := sample.trader]} (sample.db_of sample.long_open))
    (Some 7) 1 =
  (Raise (HTTPException HTTP_403_FORBIDDEN "Not enough permissions"),
   mkState {[1 := sample.admin; 7 := sample.trader]} (sample.db_of sample.long_open)).
Proof.
  apply (X23_admin_only
           (mkState {[1 := sample.admin; 7 := sample.trader]}
              (sample.db_of sample.long_open)) (Some 7)).
  reflexivity.
Defined.

(** ** Deleting a user *)

Lemma delete_portfolios_spec (rows : list (Z * Portfolio)) (db : DB) :
  NoDup rows.*1 →
  Forall (λ row, is_Some (portfolios db !! row.1)) rows →
  let db' :=
    fold_left (λ acc row, (portfolio_crud.delete_portfolio acc row.1).2) rows db in
  (∀ k : Z,
     portfolios db' !! k = if decide (k ∈ rows.*1) then None else portfolios db !! k) ∧
  (∀ (i : Z) (t : Trade),
     trades db' !! i = Some t ↔ trades db !! i = Some t ∧ portfolio_id t ∉ rows.*1).
Proof.
  revert db. induction rows as [|[k0 p0] rows IH]; intros db Hnd Hin; cbv zeta.
  - simpl. split; [done|]. intros i t. split; [|tauto].
    intros Hi. split; [done|]. apply not_elem_of_nil.
  - rewrite fmap_cons in Hnd. apply NoDup_cons in Hnd as [Hk0 Hnd].
    apply Forall_cons in Hin as [[p Hp] Hin]. simpl in Hp.
    cbn [fold_left fst].
    assert ((portfolio_crud.delete_portfolio db k0).2 =
            mkDB (delete k0 (portfolios db))
                 (filter (λ row : Z * Trade, portfolio_id row.2 ≠ k0) (trades db)))
      as ->.
    { unfold portfolio_crud.delete_portfolio. by rewrite Hp. }
    destruct (IH (mkDB (delete k0 (portfolios db))
                       (filter (λ row : Z * Trade, portfolio_id row.2 ≠ k0)
                               (trades db))) Hnd) as [Hports Htrades].
    { apply Forall_forall. intros row Hrow.
      pose proof (proj1 (Forall_forall _ _) Hin row Hrow) as Hsome.
      cbn [portfolios]. rewrite lookup_delete_ne; [done|].
      intros ->. apply Hk0. apply list_elem_of_fmap. by exists row. }
    split.
    + intros k. rewrite Hports. cbn [portfolios]. rewrite fmap_cons. cbn [fst].
      destruct (decide (k ∈ rows.*1)) as [Hk|Hk].
      * rewrite decide_True; [done|]. by apply list_elem_of_further.
      * destruct (decide (k = k0)) as [->|Hne].
        -- rewrite decide_True by apply list_elem_of_here.
           apply lookup_delete_eq.
        -- rewrite decide_False.
           ++ by rewrite lookup_delete_ne.
           ++ intros [?|?]%elem_of_cons; done.
    + intros i t. rewrite Htrades. cbn [trades].
      rewrite map_lookup_filter_Some, fmap_cons, not_elem_of_cons. simpl. tauto.
Qed.

Lemma elem_of_get_user_portfolios (db : DB) (u k : Z) :
  k ∈ (portfolio_crud.get_user_portfolios db u).*1 ↔
  ∃ p : Portfolio, portfolios db !! k = Some p ∧ user_id p = u.
Proof.
  unfold portfolio_crud.get_user_portfolios. rewrite list_elem_of_fmap. split.
  - intros ([k' p] & -> & Hin). apply list_elem_of_filter in Hin as [Hu Hin].
    apply elem_of_scan_portfolios in Hin. by exists p.
  - intros (p & Hp & Hu). exists (k, p). split; [done|].
    apply list_elem_of_filter. split; [done|]. by apply elem_of_scan_portfolios.
Qed.

Lemma NoDup_get_user_portfolios (db : DB) (u : Z) :
  NoDup (portfolio_crud.get_user_portfolios db u).*1.
Proof.
  unfold portfolio_crud.get_user_portfolios.
  assert (NoDup (portfolio_crud.scan_portfolios (portfolios db)).*1) as Hnd.
  { unfold portfolio_crud.scan_portfolios. rewrite merge_sort_Permutation.
    apply NoDup_fst_map_to_list. }
  revert Hnd. generalize (portfolio_crud.scan_portfolios (portfolios db)).
  intros l. induction l as [|row l IH]; [done|].
  rewrite fmap_cons. intros [Hnot Hnd]%NoDup_cons.
  rewrite filter_cons. destruct (decide _); [|by apply IH].
  rewrite fmap_cons. apply NoDup_cons. split; [|by apply IH].
  intros Hin. apply Hnot. apply list_elem_of_fmap in Hin as (row' & Heq & Hin).
  apply list_elem_of_filter in Hin as [_ Hin].
  apply list_elem_of_fmap. by exists row'.
Qed.

(** [crud.delete_user] on a stored user: the user goes, with the portfolios
    the user owns and with the trades of those portfolios. *)
Lemma crud_delete_user_spec (db : State) (user_id' : Z) :
  is_Some (users db !! user_id') →
  ∃ db' : State,
    user_crud.delete_user db user_id' = (true, db') ∧
    users db' = delete user_id' (users db) ∧
    (∀ (k : Z) (p : Portfolio),
       portfolios (store db') !! k = Some p ↔
       portfolios (store db) !! k = Some p ∧ user_id p ≠ user_id') ∧
    (∀ (i : Z) (t : Trade),
       trades (store db') !! i = Some t ↔
       trades (store db) !! i = Some t ∧
       ¬ ∃ p : Portfolio,
           portfolios (store db) !! portfolio_id t = Some p ∧ user_id p = user_id').
Proof.
  intros [u Hu]. unfold user_crud.delete_user. rewrite Hu.
  eexists. split; [reflexivity|]. cbn [users store]. split; [done|].
  destruct (delete_portfolios_spec
              (portfolio_crud.get_user_portfolios (store db) user_id') (store db))
    as [Hports Htrades].
  { apply NoDup_get_user_portfolios. }
  { apply Forall_forall. intros [k p] Hin.
    apply list_elem_of_filter in Hin as [_ Hin].
    apply elem_of_scan_portfolios in Hin. by eexists. }
  split.
  - intros k p. rewrite Hports.
    destruct (decide (k ∈ _)) as [Hk|Hk].
    + apply elem_of_get_user_portfolios in Hk as (p' & Hp' & Hown).
      split; [done|]. intros [Hp Hne]. congruence.
    + split.
      * intros Hp. split; [done|]. intros Hown. apply Hk.
        apply elem_of_get_user_portfolios. by exists p.
      * tauto.
  - intros i t. rewrite Htrades, elem_of_get_user_portfolios. done.
Qed.

(** X24: [DELETE /api/users/{user_id}] by an administrator.  The
    administrator's own id is refused with 400 "Cannot delete your own
    account" and an id that no user has with 404 "User not found", both
    without a change; any other user is deleted together with the portfolios
    the user owns and with the trades of those portfolios, and every other
    user, portfolio and trade stays as it is. *)
Theorem X24_delete_user (db : State) (sub : option Z) (user_id' : Z)
    (current_user : Z * User) :
  dependencies.get_current_admin_user db sub = Ok current_user →
  (user_id' = current_user.1 →
     users_router.delete_user db sub user_id' =
       (Raise (HTTPException HTTP_400_BAD_REQUEST "Cannot delete your own account"),
        db)) ∧
  (users db !! user_id' = None →
     users_router.delete_user db sub user_id' =
       (Raise (HTTPException HTTP_404_NOT_FOUND "User not found"), db)) ∧
  (user_id' ≠ current_user.1 → is_Some (users db !! user_id') →
     ∃ db' : State,
       users_router.delete_user db sub user_id' = (Ok (), db') ∧
       users db' = delete user_id' (users db) ∧
       (∀ (k : Z) (p : Portfolio),
          portfolios (store db') !! k = Some p ↔
          portfolios (store db) !! k = Some p ∧ user_id p ≠ user_id') ∧
       (∀ (i : Z) (t : Trade),
          trades (store db') !! i = Some t ↔
          trades (store db) !! i = Some t ∧
          ¬ ∃ p : Portfolio,
              portfolios (store db) !! portfolio_id t = Some p ∧
              user_id p = user_id')).
Proof.
  intros Hadmin. unfold users_router.delete_user. rewrite Hadmin.
  apply get_current_admin_user_Ok in Hadmin as (_ & Hcu & _).
  split; [|split].
  - intros ->. by rewrite bool_decide_eq_true_2.
  - intros Hnone. rewrite bool_decide_eq_false_2 by congruence.
    unfold user_crud.delete_user. by rewrite Hnone.
  - intros Hne Hsome. rewrite bool_decide_eq_false_2 by done.
    destruct (crud_delete_user_spec db user_id' Hsome)
      as (db' & -> & Husers & Hports & Htrades).
    by exists db'.
Qed.

Lemma X24_witness :
  users_router.delete_user
    (mkState {[1 := sample.admin; 7 := sample.trader]} (sample.db_of sample.long_open))
    (Some 1) 1 =
  (Raise (HTTPException HTTP_400_BAD_REQUEST "Cannot delete your own account"),
   mkState {[1 := sample.admin; 7 := sample.trader]} (sample.db_of sample.long_open)).
Proof.
  apply (X24_delete_user
           (mkState {[1 := sample.admin; 7 := sample.trader]}
              (sample.db_of sample.long_open)) (Some 1) 1 (1, sample.admin)).
  - vm_compute. reflexivity.
  - reflexivity.
Defined.

(** ** Referential integrity *)

Lemma commit_user_users (db : State) (user_id' : Z) (u : User) :
  (user_crud.commit_user db user_id' u).2 = db ∨
  (user_crud.user_row_ok (users db) user_id' u ∧
   (user_crud.commit_user db user_id' u).2 =
     mkState (<[user_id' := u]> (users db)) (store db)).
Proof.
  unfold user_crud.commit_user. destruct (decide _); [by right|by left].
Qed.

Lemma insert_users_consistent (db : State) (user_id' : Z) (u : User) :
  user_crud.user_row_ok (users db) user_id' u →
  consistent db →
  consistent (mkState (<[user_id' := u]> (users db)) (store db)).
Proof.
  intros (He & Hn & Hh & Hothers) (Huniq & Hown & Horph).
  split; [|split; [|done]].
  - intros a b ua ub Ha Hb. cbn [users] in Ha, Hb.
    destruct (decide (a = user_id')) as [->|Hna].
    + rewrite lookup_insert_eq in Ha. injection Ha as <-.
      split; [done|]. split; [done|]. split; [done|].
      intros Hab. rewrite lookup_insert_ne in Hb by done.
      destruct (Hothers b ub Hb) as [->|[? ?]]; [done|]. by split.
    + rewrite lookup_insert_ne in Ha by done.
      destruct (Huniq a a ua ua Ha Ha) as (? & ? & ? & _).
      split; [done|]. split; [done|]. split; [done|].
      intros Hab. destruct (decide (b = user_id')) as [->|Hnb].
      * rewrite lookup_insert_eq in Hb. injection Hb as <-.
        destruct (Hothers a ua Ha) as [->|[? ?]]; done.
      * rewrite lookup_insert_ne in Hb by done.
        by apply (Huniq a b ua ub Ha Hb).
  - intros pid p Hp. cbn [users store] in *.
    destruct (decide (user_id p = user_id')) as [->|Hne].
    + rewrite lookup_insert_eq. by eexists.
    + rewrite lookup_insert_ne by done. by apply (Hown pid).
Qed.

Lemma api_handle_consistent `{CryptContext} (db : State) (r : api_request) :
  consistent db → consistent (api_handle db r).
Proof.
  intros Hdb. destruct r as [salt user|sub uid upd|sub uid|r]; simpl.
  - unfold auth_router.register.
    destruct (user_crud.get_user_by_email db _); [done|].
    destruct (user_crud.get_user_by_username db _); [done|].
    unfold user_crud.create_user. cbv zeta.
    match goal with
    | |- context [user_crud.commit_user ?d ?i ?u] =>
        destruct (commit_user_users d i u) as [Hs|[Hok Hs]];
        destruct (user_crud.commit_user d i u) as [res db']
    end; simpl in *; subst db'; [done|by apply insert_users_consistent].
  - unfold users_router.update_user.
    destruct (dependencies.get_current_admin_user db sub); [|done].
    unfold user_crud.update_user.
    destruct (users db !! uid) as [u|]; [|done].
    match goal with
    | |- context [user_crud.commit_user ?d ?i ?u] =>
        destruct (commit_user_users d i u) as [Hs|[Hok Hs]];
        destruct (user_crud.commit_user d i u) as [[res|e] db']
    end; simpl in *; subst db'; try done; by apply insert_users_consistent.
  - unfold users_router.delete_user.
    destruct (dependencies.get_current_admin_user db sub) as [cu|]; [|done].
    case_bool_decide; [done|].
    destruct (users db !! uid) as [u|] eqn:Hu.
    2:{ unfold user_crud.delete_user. by rewrite Hu. }
    destruct (crud_delete_user_spec db uid) as (db' & -> & Husers & Hports & Htrades);
      [by eexists|].
    cbn [snd]. destruct Hdb as (Huniq & Hown & Horph).
    split; [|split].
    + intros a b ua ub Ha Hb. rewrite Husers in Ha, Hb.
      apply lookup_delete_Some in Ha as [_ Ha].
      apply lookup_delete_Some in Hb as [_ Hb].
      by apply (Huniq a b).
    + intros pid p Hp. apply Hports in Hp as [Hp Hne].
      rewrite Husers, lookup_delete_ne by done. by apply (Hown pid).
    + intros i t Hi. apply Htrades in Hi as [Hi Hnot].
      destruct (Horph i t Hi) as [p Hp]. exists p. apply Hports.
      split; [done|]. intros Hown'. apply Hnot. by exists p.
  - destruct (dependencies.get_current_active_user db (Some (requester r)))
      as [cu|] eqn:Hcu; [|done].
    apply get_current_active_user_Ok in Hcu as (Hsub & Hcu & _).
    injection Hsub as Hsub.
    destruct Hdb as (Huniq & Hown & Horph).
    split; [done|]. split; [|by apply handle_no_orphans].
    intros pid p. cbn [users store].
    destruct (handle_cases (store db) r)
      as [->|[(i & stored & -> & _)|[(i & t & _ & _ & ->)|
          [(pid' & stored & -> & Hust & _)|(pid' & p' & _ & _ & ->)]]]];
      cbn [portfolios].
    + apply Hown.
    + apply Hown.
    + apply Hown.
    + destruct (decide (pid' = pid)) as [->|Hne].
      * rewrite lookup_insert_eq. intros [= <-]. rewrite Hust, Hsub. by eexists.
      * rewrite lookup_insert_ne by done. apply Hown.
    + intros Hp. apply lookup_delete_Some in Hp as [_ Hp]. by apply (Hown pid).
Qed.

(** X22: the database keeps its integrity through every sequence of requests
    of the API: no two users share an email or a username and none lacks
    email, username or password hash; every portfolio belongs to a stored
    user; every trade belongs to a stored portfolio.  This holds in
    particular of every state reached from the empty database. *)
Theorem X22_consistent `{CryptContext} (db : State) (rs : list api_request) :
  consistent db → consistent (api_serve db rs).
Proof.
  revert db. induction rs as [|r rs IH]; intros db Hdb; [done|].
  apply IH. by apply api_handle_consistent.
Qed.

Lemma X22_witness :
  consistent
    (@api_serve sample.plain_context empty_state
       [Register "s1" sample.alice; Register "s2" sample.bob;
        Data (CreatePortfolio 2 (mkPortfolioCreate "swing" None (sample.f 0)));
        Data (TradeRequest (Create 2 (sample.buy "TCS" (sample.f 1) 1)));
        DeleteUser (Some 1) 2]).
Proof.
  apply (@X22_consistent sample.plain_context).
  split; [|split].
  - intros a b ua ub Ha. discriminate Ha.
  - intros pid p Hp. discriminate Hp.
  - intros i t Hi. discriminate Hi.
Defined.

(** The requests of the witness end in the database that holds the first
    user only. *)
Example delete_user_cascade :
  @api_serve sample.plain_context empty_state
    [Register "s1" sample.alice; Register "s2" sample.bob;
     Data (CreatePortfolio 2 (mkPortfolioCreate "swing" None (sample.f 0)));
     Data (TradeRequest (Create 2 (sample.buy "TCS" (sample.f 1) 1)));
     DeleteUser (Some 1) 2] =
  mkState
    {[1 := mkUser (Some "alice@example.com") (Some "alice") (Some "hash$pw1") None
             (Some true) (Some true)]}
    empty_db.
Proof. vm_compute. reflexivity. Qed.
